(** * Yahoo notification tool: the two Lambda variants and their properties

    The repository holds two near-identical AWS Lambda handlers
    ([lambda_fuction_1.py], ledger in DynamoDB, even config rows, global
    shop exclusions; [lambda_fuction_2.py], ledger in an S3 CSV object, odd
    config rows).  This development embeds both in Rocq:

    - Python strings are sequences of Unicode code points ([list N]);
    - what [response.json()] returns is a JSON value, of any shape, and
      every subscript, method call and conversion the code applies to it
      raises what Python raises on a value of the wrong type;
    - the ledger is a set of hashable JSON values ([gset pykey]), a set of
      shop names is [gset (list N)];
    - the outside world (HTTP answers, storage outcomes) is an explicit
      environment of answers indexed by request number, and everything the
      code does to the world is recorded in a trace;
    - raising code runs in a state-and-exception monad whose state survives
      a raise, as mutation does in Python. *)

From Stdlib Require Import ZArith NArith Lia.
From Stdlib Require Strings.String Strings.Ascii.
From Stdlib Require Import Sorting.Permutation.
From stdpp Require Import base option list strings gmap.

Set Default Proof Using "Type".
Set Warnings "-clear-no-such-hyp,-register-all".

(** ** Python strings *)

Abbreviation pystr := (list N).

Module PyStr.

(** A literal of the development written in ASCII. *)
Definition lit (s : String.string) : pystr :=
  List.map Ascii.N_of_ascii (String.list_ascii_of_string s).
Arguments lit s%_string.

(** [Py_UNICODE_ISSPACE]: the characters [str.strip()] and [str.split()]
    treat as whitespace. *)
Definition isspace (c : N) : bool :=
  (((9 <=? c) && (c <=? 13)) || ((28 <=? c) && (c <=? 32))
   || (c =? 133) || (c =? 160) || (c =? 5760)
   || ((8192 <=? c) && (c <=? 8202))
   || (c =? 8232) || (c =? 8233) || (c =? 8239) || (c =? 8287)
   || (c =? 12288))%N.

Fixpoint drop_while (p : N → bool) (s : pystr) : pystr :=
  match s with
  | [] => []
  | c :: s' => if p c then drop_while p s' else s
  end.

Definition strip_with (p : N → bool) (s : pystr) : pystr :=
  rev (drop_while p (rev (drop_while p s))).

(** [s.strip()] *)
Definition strip (s : pystr) : pystr := strip_with isspace s.

(** [s.strip(c)] for a one-character argument *)
Definition strip_char (c : N) (s : pystr) : pystr := strip_with (N.eqb c) s.

(** Cut at every character satisfying [p]; the result is never empty. *)
Fixpoint split_by (p : N → bool) (s : pystr) : list pystr :=
  match s with
  | [] => [[]]
  | c :: s' =>
      if p c then [] :: split_by p s'
      else match split_by p s' with
           | [] => [[c]]
           | w :: ws => (c :: w) :: ws
           end
  end.

(** [s.split(sep)] for a one-character separator *)
Definition split_on (sep : N) (s : pystr) : list pystr :=
  split_by (N.eqb sep) s.

Definition nonempty (s : pystr) : bool :=
  match s with [] => false | _ => true end.

(** [s.split()]: cut at runs of whitespace, no empty pieces *)
Definition split_ws (s : pystr) : list pystr :=
  List.filter nonempty (split_by isspace s).

(** [sep.join(ws)] *)
Fixpoint join (sep : pystr) (ws : list pystr) : pystr :=
  match ws with
  | [] => []
  | [w] => w
  | w :: ws' => w ++ sep ++ join sep ws'
  end.

Fixpoint starts_with (p s : pystr) : bool :=
  match p, s with
  | [], _ => true
  | _ :: _, [] => false
  | a :: p', b :: s' => (a =? b)%N && starts_with p' s'
  end.

(** [needle in hay] *)
Fixpoint contains (needle hay : pystr) : bool :=
  starts_with needle hay
  || match hay with
     | [] => false
     | _ :: hay' => contains needle hay'
     end.

(** Decimal digits of a natural number, most significant first. *)
Fixpoint dec_digits (fuel : nat) (n : N) (acc : pystr) : pystr :=
  match fuel with
  | O => acc
  | S fuel' =>
      let acc' := (48 + n mod 10)%N :: acc in
      if (n <? 10)%N then acc' else dec_digits fuel' (n / 10)%N acc'
  end.

Definition str_of_N (n : N) : pystr :=
  dec_digits (S (N.to_nat (N.log2 n))) n [].

(** Insert a comma after every third digit of a reversed digit string. *)
Fixpoint group3 (rev_digits : pystr) : pystr :=
  match rev_digits with
  | a :: b :: c :: ((_ :: _) as rest) => a :: b :: c :: 44%N :: group3 rest
  | _ => rev_digits
  end.

(** [str(z)] *)
Definition str_of_Z (z : Z) : pystr :=
  let body := str_of_N (Z.abs_N z) in
  if (z <? 0)%Z then 45%N :: body else body.

(** [f"{z:,}"] *)
Definition format_commas (z : Z) : pystr :=
  let body := rev (group3 (rev (str_of_N (Z.abs_N z)))) in
  if (z <? 0)%Z then 45%N :: body else body.

End PyStr.

(** ** Python builtins and library behaviour that are not computed here

    [str.lower()] follows the Unicode case tables, [int(s)] the Unicode
    digit tables and [str(f)] of a float the shortest-representation
    algorithm.  They are taken as parameters, together with two facts of
    the platform: the longest sleep [time.sleep] accepts (on Linux the
    kernel refuses a deadline past 9223372036 seconds of its clock, with
    [OSError]), and whether the installed [requests] raises its own
    [JSONDecodeError], a [RequestException] (version 2.27 and later), or
    lets the decoder's [ValueError] through.  All that is assumed is that
    [lower] acts on a pure-ASCII string as ASCII lower-casing and that a
    sleep of five seconds is accepted. *)

Definition ascii_lower_char (c : N) : N :=
  if ((65 <=? c) && (c <=? 90))%N then (c + 32)%N else c.

Definition is_ascii (s : pystr) : bool := forallb (λ c, (c <? 128)%N) s.

(** A Python float as [json.loads] builds it: a finite value, given as a
    fraction, an infinity, or NaN ([json] reads the literals [Infinity],
    [-Infinity] and [NaN]). *)
Inductive pyfloat :=
| FFinite (num : Z) (den : positive)
| FInfinity (negative : bool)
| FNaN.

Class PyBuiltins := {
  lower : pystr → pystr;
  int_of_str : pystr → option Z;
  str_of_float : pyfloat → pystr;
  json_error_is_request_exception : bool;
  sleep_max : Z;
  lower_ascii : ∀ s, is_ascii s = true → lower s = List.map ascii_lower_char s;
  sleep_max_ge : (5 ≤ sleep_max)%Z
}.

(** ** Data *)

(** A cell of the configuration DataFrame: missing ([pd.notna] is false),
    or a value, given by its [str()]. *)
Inductive cell := NaN | Val (s : pystr).

Definition notna (c : cell) : bool :=
  match c with NaN => false | Val _ => true end.

Definition str_of_cell (c : cell) : pystr :=
  match c with NaN => PyStr.lit "nan" | Val s => s end.

(** One row of config.csv. *)
Record row := {
  product_keyword : cell;
  ng_keyword : cell;
  lowest_price : cell;
  highest_price : cell;
  sellerIdExs : cell;
  product_condition : cell;
  name_column : cell
}.

(** A DataFrame keeps the index label of every row. *)
Abbreviation DataFrame := (list (nat * row)).

Definition read_csv (rows : list row) : DataFrame :=
  zip (seq 0 (length rows)) rows.

(** ** JSON values *)

(** The values [json.loads] builds that are not containers. *)
Inductive scalar :=
| SNull
| SBool (b : bool)
| SInt (z : Z)
| SFloat (f : pyfloat)
| SStr (s : pystr).

(** What [response.json()] returns.  A dict is given by its items; a key
    is looked up from the front. *)
Inductive json :=
| JScalar (v : scalar)
| JArray (elements : list json)
| JObject (members : list (pystr * json)).

Abbreviation JNull := (JScalar SNull).
Abbreviation JStr s := (JScalar (SStr s)).
Abbreviation JInt z := (JScalar (SInt z)).

(** [members.get(key)] *)
Definition dict_get {A} (key : pystr) (members : list (pystr * A)) : option A :=
  snd <$> List.find (λ member, bool_decide (member.1 = key)) members.

(** [bool(v)] *)
Definition truthy (v : json) : bool :=
  match v with
  | JScalar SNull => false
  | JScalar (SBool b) => b
  | JScalar (SInt z) => negb (z =? 0)%Z
  | JScalar (SFloat (FFinite num _)) => negb (num =? 0)%Z
  | JScalar (SFloat _) => true
  | JScalar (SStr s) => PyStr.nonempty s
  | JArray [] | JObject [] => false
  | JArray (_ :: _) | JObject (_ :: _) => true
  end.

(** What a Python set tells apart: [None], a string, or a number, where
    [True], [1] and [1.0] are one value.  A finite number is a fraction in
    lowest terms. *)
Inductive pykey :=
| KNone
| KStr (s : pystr)
| KNumber (num : Z) (den : positive)
| KInfinity (negative : bool)
| KNaN.

#[export] Instance pykey_eq_dec : EqDecision pykey.
Proof. solve_decision. Defined.

#[export] Instance pykey_countable : Countable pykey.
Proof.
  refine (inj_countable'
            (λ k, match k with
                  | KNone => inl (inl ())
                  | KStr s => inl (inr s)
                  | KNumber num den => inr (inl (num, den))
                  | KInfinity negative => inr (inr (inl negative))
                  | KNaN => inr (inr (inr ()))
                  end)
            (λ x, match x with
                  | inl (inl ()) => KNone
                  | inl (inr s) => KStr s
                  | inr (inl (num, den)) => KNumber num den
                  | inr (inr (inl negative)) => KInfinity negative
                  | inr (inr (inr ())) => KNaN
                  end) _).
  by intros [].
Defined.

Definition key_of_fraction (num : Z) (den : positive) : pykey :=
  let g := Z.gcd num (Z.pos den) in
  KNumber (num / g) (Z.to_pos (Z.pos den / g)).

(** The element of a set that a hashable value is. *)
Definition key_of (v : scalar) : pykey :=
  match v with
  | SNull => KNone
  | SBool b => KNumber (if b then 1 else 0) 1
  | SInt z => KNumber z 1
  | SFloat (FFinite num den) => key_of_fraction num den
  | SFloat (FInfinity negative) => KInfinity negative
  | SFloat FNaN => KNaN
  | SStr s => KStr s
  end.

(** ** The outside world *)

(** The answer to a GET: the status and the body as [response.json()]
    reads it, [None] when the body is no JSON; or a
    [requests.exceptions.RequestException]. *)
Inductive get_outcome :=
| GetResponse (status_code : Z) (body : option json)
| GetException.

(** The answer to a POST: status and [Retry-After] header, or a
    [requests.exceptions.RequestException]. *)
Inductive post_outcome :=
| PostResponse (status_code : Z) (retry_after : option pystr)
| PostException.

Inductive load_outcome := LoadOk | LoadNotFound | LoadError.

(** Everything the outside world answers during one invocation. *)
Record env := {
  (** the answer to the k-th GET of the search API *)
  http_get : nat → get_outcome;
  (** the answer to the k-th POST to the chat API *)
  http_post : nat → post_outcome;
  (** what the handler of Lambda1 ends up with in [global_excluded_shops]:
      the sheet's column at batch 0, the cached S3 object afterwards, [[]]
      whenever reading it fails *)
  global_shops_answer : list pystr;
  (** the rows of config.csv, [None] when reading or parsing it raises *)
  config_answer : option (list row);
  (** how reading the ledger ends: read, missing table or object, or
      another exception *)
  ledger_load_answer : load_outcome;
  (** [None]: writing the ledger succeeds; [Some through]: it raises,
      and the keys that satisfy [through] are those a [BatchWriteItem]
      call of Lambda1 had written by then *)
  ledger_save_answer : option (pykey → bool);
  (** whether [lambda_client.invoke] returns *)
  invoke_answer : bool;
  (** [int(os.getenv('BATCH_SIZE', '100'))] *)
  BATCH_SIZE : Z
}.

(** Why the row loop passes over a rule before any search. *)
Inductive row_skip_reason := EmptyKeyword | AllSingleCharacter.

(** Why the item loop passes over a hit: one constructor per [print]
    that precedes a [continue], or that ends the body, in the source. *)
Inductive skip_reason :=
| ExcludedShop | AlreadyNotified | NegativeKeywordHit | KeywordMismatch
| ContainsChuko | LacksChuko.

(** What a run does that can be seen from outside, in order: the requests,
    the sleeps, and the lines it prints about its decisions.  [EvGet]
    tells whether the request carries [in_stock=true]; [EvSkipItem]
    carries the value of the hit's [name]; [EvNotify] stands for the line
    printed after [send_chatwork_notification] has returned, with the URL
    of the item, as the ledger holds it, and the value returned. *)
Inductive event :=
| EvGet (in_stock : bool) (query : pystr) (price_from price_to : option pystr)
| EvPost (message : pystr)
| EvSleep (seconds : Z)
| EvSkipRow (index : nat) (reason : row_skip_reason)
| EvSkipItem (name : json) (reason : skip_reason)
| EvNotify (url : pykey) (success : bool)
| EvInvoke (batch : Z).

(** The exceptions the modelled code can raise and does not catch where
    they arise.  [JSONDecodeError] is the decoder's, a [ValueError] that
    is no [RequestException]. *)
Inductive exn :=
| KeyError (key : pystr)
| TypeError
| AttributeError
| ValueError
| OverflowError
| OSError
| JSONDecodeError
| ZeroDivisionError.

(** ** State and exceptions *)

(** The set object [notified_set] and the list [new_notified_urls], both
    mutated in place; the URLs held by the ledger's backing store (the
    DynamoDB table of Lambda1, notifiedlist.csv of Lambda2); the number of
    GET and POST requests issued so far; and the events so far, oldest
    first. *)
Record state := {
  notified_set : gset pykey;
  new_notified_urls : list pykey;
  ledger_store : gset pykey;
  gets : nat;
  posts : nat;
  trace : list event
}.

Inductive result (A : Type) := Ok (a : A) | Raise (e : exn).
Arguments Ok {A} a.
Arguments Raise {A} e.

(** Code that touches nothing and may raise. *)
#[export] Instance result_ret : MRet result := λ A a, Ok a.

#[export] Instance result_bind : MBind result := λ A B k r,
  match r with
  | Ok a => k a
  | Raise e => Raise e
  end.

Definition M (A : Type) : Type := state → result A * state.

#[export] Instance M_ret : MRet M := λ A a s, (Ok a, s).

#[export] Instance M_bind : MBind M := λ A B k m s,
  match m s with
  | (Ok a, s') => k a s'
  | (Raise e, s') => (Raise e, s')
  end.

Definition raise {A} (e : exn) : M A := λ s, (Raise e, s).

Definition lift {A} (r : result A) : M A := λ s, (r, s).

Definition get_state : M state := λ s, (Ok s, s).

Definition emit (e : event) : M unit := λ s,
  (Ok (),
   {| notified_set := notified_set s; new_notified_urls := new_notified_urls s;
      ledger_store := ledger_store s; gets := gets s; posts := posts s;
      trace := trace s ++ [e] |}).

Definition set_notified (X : gset pykey) : M unit := λ s,
  (Ok (),
   {| notified_set := X; new_notified_urls := new_notified_urls s;
      ledger_store := ledger_store s; gets := gets s; posts := posts s;
      trace := trace s |}).

Definition set_new_notified_urls (l : list pykey) : M unit := λ s,
  (Ok (),
   {| notified_set := notified_set s; new_notified_urls := l;
      ledger_store := ledger_store s; gets := gets s; posts := posts s;
      trace := trace s |}).

Definition set_ledger_store (X : gset pykey) : M unit := λ s,
  (Ok (),
   {| notified_set := notified_set s; new_notified_urls := new_notified_urls s;
      ledger_store := X; gets := gets s; posts := posts s;
      trace := trace s |}).

(** [requests.get(base_url, params=params)] *)
Definition requests_get (E : env) (in_stock : bool) (query : pystr)
    (price_from price_to : option pystr) : M get_outcome := λ s,
  (Ok (http_get E (gets s)),
   {| notified_set := notified_set s; new_notified_urls := new_notified_urls s;
      ledger_store := ledger_store s; gets := S (gets s); posts := posts s;
      trace := trace s ++ [EvGet in_stock query price_from price_to] |}).

(** [requests.post(url, headers=headers, data=data)] *)
Definition requests_post (E : env) (message : pystr) : M post_outcome := λ s,
  (Ok (http_post E (posts s)),
   {| notified_set := notified_set s; new_notified_urls := new_notified_urls s;
      ledger_store := ledger_store s; gets := gets s; posts := S (posts s);
      trace := trace s ++ [EvPost message] |}).

(** [for x in l: f x] *)
Fixpoint for_each {A} (f : A → M unit) (l : list A) : M unit :=
  match l with
  | [] => mret ()
  | x :: l' => f x ;; for_each f l'
  end.

(** The two Lambda functions of the repository. *)
Inductive variant := Lambda1 | Lambda2.

(** [v[key]]: only a dict can be subscripted by a string. *)
Definition getitem (key : string) (v : json) : result json :=
  match v with
  | JObject members =>
      match dict_get (PyStr.lit key) members with
      | Some x => Ok x
      | None => Raise (KeyError (PyStr.lit key))
      end
  | _ => Raise TypeError
  end.

(** [v.get(key, default)]: only a dict has the method. *)
Definition get_method (key : string) (default_value : json) (v : json)
  : result json :=
  match v with
  | JObject members => Ok (default default_value (dict_get (PyStr.lit key) members))
  | _ => Raise AttributeError
  end.

(** [v in notified_set] hashes [v]: a list or a dict raises. *)
Definition hashable (v : json) : result scalar :=
  match v with
  | JScalar u => Ok u
  | _ => Raise TypeError
  end.

(** The receiver of [.lower()] and [.strip()]: only a string has them. *)
Definition str_receiver (v : json) : result pystr :=
  match v with
  | JStr s => Ok s
  | _ => Raise AttributeError
  end.

Section Program.
Context `{PyBuiltins}.

(** [time.sleep(secs)]: a negative length raises [ValueError], a length
    whose nanoseconds do not fit 64 bits [OverflowError], and a length
    the platform refuses [OSError]. *)
Definition sleep (secs : Z) : M unit :=
  if (secs <? 0)%Z then raise ValueError
  else if (9223372036 <? secs)%Z then raise OverflowError
  else if (sleep_max <? secs)%Z then raise OSError
  else emit (EvSleep secs).

(** ** The HTTP clients *)

(** [int(response.headers.get('Retry-After', 5))] *)
Definition int_of_retry_after (header : option pystr) : M Z :=
  match header with
  | None => mret 5%Z
  | Some v =>
      match int_of_str v with
      | Some z => mret z
      | None => raise ValueError
      end
  end.

(** The body of [for attempt in range(retries)] followed by the code after
    the loop, with [attempts] iterations left. *)
Fixpoint send_attempts (E : env) (message : pystr) (attempts : nat) : M bool :=
  match attempts with
  | O => mret false
  | S attempts' =>
      response ← requests_post E message;
      match response with
      | PostResponse status_code header =>
          if (status_code =? 200)%Z then
            sleep 1 ;; mret true
          else if (status_code =? 429)%Z then
            retry_after ← int_of_retry_after header;
            sleep retry_after ;;
            sleep 2 ;;
            send_attempts E message attempts'
          else mret false
      | PostException =>
          sleep 2 ;; send_attempts E message attempts'
      end
  end.

Definition send_chatwork_notification (E : env) (message : pystr) : M bool :=
  send_attempts E message 3.

Definition when_variant (v v' : variant) (m : M unit) : M unit :=
  match v, v' with
  | Lambda1, Lambda1 | Lambda2, Lambda2 => m
  | _, _ => mret ()
  end.

(** Lambda1 asks for ['in_stock': 'true'], Lambda2 does not. *)
Definition in_stock_of (v : variant) : bool :=
  match v with Lambda1 => true | Lambda2 => false end.

(** Lambda1 sleeps one second after a 200 answer, Lambda2 before every
    request.  [response.json()] is called inside the [try]: on a body
    that is no JSON, a [requests] that raises its own [JSONDecodeError]
    has it caught like any [RequestException], an older one lets the
    decoder's error escape.  The result is the parsed body, or [None]. *)
Fixpoint search_attempts (v : variant) (E : env) (query : pystr)
    (price_from price_to : option pystr) (attempts : nat) : M json :=
  match attempts with
  | O => mret JNull
  | S attempts' =>
      when_variant v Lambda2 (sleep 1) ;;
      response ← requests_get E (in_stock_of v) query price_from price_to;
      match response with
      | GetResponse status_code body =>
          if (status_code =? 200)%Z then
            when_variant v Lambda1 (sleep 1) ;;
            match body with
            | Some parsed => mret parsed
            | None =>
                if json_error_is_request_exception then
                  sleep 2 ;;
                  search_attempts v E query price_from price_to attempts'
                else raise JSONDecodeError
            end
          else if (status_code =? 400)%Z then mret JNull
          else if (status_code =? 429)%Z then
            sleep 5 ;; sleep 2 ;;
            search_attempts v E query price_from price_to attempts'
          else
            sleep 2 ;; search_attempts v E query price_from price_to attempts'
      | GetException =>
          sleep 2 ;; search_attempts v E query price_from price_to attempts'
      end
  end.

Definition search_yahoo_items (v : variant) (E : env) (query : pystr)
    (price_from price_to : option pystr) : M json :=
  search_attempts v E query price_from price_to 3.

(** ** Rule evaluation *)

Definition is_single_character (word : pystr) : bool :=
  bool_decide (length word = 1).

(** '新品、未使用' *)
Definition shinpin_mishiyou : pystr :=
  [26032; 21697; 12289; 26410; 20351; 29992]%N.

(** '中古' *)
Definition chuko : pystr := [20013; 21476]%N.

(** '不明' *)
Definition fumei : pystr := [19981; 26126]%N.

Inductive notify_condition := exclude_chuko | include_all | include_chuko_only.

Definition product_conditions_of (r : row) : list pystr :=
  let product_condition_str := PyStr.strip (str_of_cell (product_condition r)) in
  List.map PyStr.strip (PyStr.split_on 124 product_condition_str).

Definition notify_condition_of (product_conditions : list pystr) : notify_condition :=
  if bool_decide (shinpin_mishiyou ∈ product_conditions) then
    if bool_decide (length product_conditions = 1) then exclude_chuko
    else include_all
  else include_chuko_only.

(** The per-row list parsed from the [sellerIdExs] column. *)
Definition excluded_shops_of (r : row) : list pystr :=
  let sellerIdExs_raw :=
    if notna (sellerIdExs r) then PyStr.strip (str_of_cell (sellerIdExs r))
    else PyStr.lit "nan" in
  if bool_decide (lower sellerIdExs_raw ≠ PyStr.lit "nan") then
    let sellerIdExs := PyStr.strip_char 34 sellerIdExs_raw in
    List.map (λ shop, lower (PyStr.strip shop)) (PyStr.split_on 44 sellerIdExs)
  else [].

(** Lambda1 builds [set(global_excluded_shops + excluded_shops)]; Lambda2
    has no global list and looks the shop up in [excluded_shops] itself,
    which has the same members as the set built from it. *)
Definition all_excluded_shops (v : variant)
    (global_excluded_shops excluded_shops : list pystr) : gset pystr :=
  match v with
  | Lambda1 => list_to_set (global_excluded_shops ++ excluded_shops)
  | Lambda2 => list_to_set excluded_shops
  end.

Definition words_of (original_keyword : pystr) : list pystr :=
  PyStr.split_on 32 original_keyword.

Definition filtered_words_of (original_keyword : pystr) : list pystr :=
  List.filter (λ word, negb (is_single_character word)) (words_of original_keyword).

Definition ng_hit (ng : option pystr) (item_name_lower : pystr) : bool :=
  match ng with
  | None | Some [] => false
  | Some ng =>
      existsb (λ ng_word, PyStr.contains (lower ng_word) item_name_lower)
              (PyStr.split_ws ng)
  end.

Inductive decision := Skip (reason : skip_reason) | Notify.

(** [all(word.lower() in item_name_lower for word in filtered_words)] *)
Definition all_words_present (filtered_words : list pystr)
    (item_name_lower : pystr) : bool :=
  forallb (λ word, PyStr.contains (lower word) item_name_lower) filtered_words.

(** The 中古 filter under [if all_words_present]. *)
Definition condition_check (cond : notify_condition) (name : pystr) : decision :=
  match cond with
  | exclude_chuko =>
      if PyStr.contains chuko name then Skip ContainsChuko else Notify
  | include_chuko_only =>
      if negb (PyStr.contains chuko name) then Skip LacksChuko else Notify
  | include_all => Notify
  end.

(** The checks on the name of the item, in the order of the source: the
    negative keyword is tested, and skips the item, before
    [all_words_present] is looked at. *)
Definition check_name (filtered_words : list pystr) (ng : option pystr)
    (cond : notify_condition) (name : pystr) : decision :=
  let item_name_lower := lower name in
  if ng_hit ng item_name_lower then Skip NegativeKeywordHit
  else if all_words_present filtered_words item_name_lower then
    condition_check cond name
  else Skip KeywordMismatch.

(** The chain of checks in the body of [for item in items], from the shop
    lookup down to the 中古 filter, for a hit whose name is a string and
    whose URL can be hashed. *)
Definition check_item (all_excluded : gset pystr) (notified : gset pykey)
    (filtered_words : list pystr) (ng : option pystr)
    (cond : notify_condition) (shop_name name : pystr) (url : pykey)
  : decision :=
  if bool_decide (shop_name ∈ all_excluded) then Skip ExcludedShop
  else if bool_decide (url ∈ notified) then Skip AlreadyNotified
  else check_name filtered_words ng cond name.

(** The same checks in the order in which the specification lists them:
    keyword containment (step 4) before the negative keyword (step 5). *)
Definition spec_evaluate (all_excluded : gset pystr) (notified : gset pykey)
    (filtered_words : list pystr) (ng : option pystr)
    (cond : notify_condition) (shop_name name : pystr) (url : pykey)
  : decision :=
  if bool_decide (shop_name ∈ all_excluded) then Skip ExcludedShop
  else if bool_decide (url ∈ notified) then Skip AlreadyNotified
  else if negb (all_words_present filtered_words (lower name))
  then Skip KeywordMismatch
  else if ng_hit ng (lower name) then Skip NegativeKeywordHit
  else condition_check cond name.

(** ** The body of the item loop *)

(** [item.get('seller', {}).get('name', '不明').strip().lower()] *)
Definition shop_name_of (it : json) : result pystr :=
  seller ← get_method "seller" (JObject []) it;
  seller_name ← get_method "name" (JStr fumei) seller;
  name ← str_receiver seller_name;
  mret (lower (PyStr.strip name)).

(** [int(price)] *)
Definition int_of_scalar (price : scalar) : result Z :=
  match price with
  | SInt z => Ok z
  | SBool b => Ok (if b then 1 else 0)%Z
  | SFloat (FFinite num den) => Ok (num ÷ Z.pos den)%Z
  | SFloat (FInfinity _) => Raise OverflowError
  | SFloat FNaN => Raise ValueError
  | SStr s =>
      match int_of_str s with
      | Some z => Ok z
      | None => Raise ValueError
      end
  | SNull => Raise TypeError
  end.

(** [str(v)], as an f-string writes a value *)
Definition str_of_scalar (v : scalar) : pystr :=
  match v with
  | SNull => PyStr.lit "None"
  | SBool true => PyStr.lit "True"
  | SBool false => PyStr.lit "False"
  | SInt z => PyStr.str_of_Z z
  | SFloat f => str_of_float f
  | SStr s => s
  end.

(** The [try] / [except ValueError] around the price, and the price as
    the message will show it. *)
Definition formatted_price_of (it : json) : result pystr :=
  price ← getitem "price" it;
  match price with
  | JScalar p =>
      match int_of_scalar p with
      | Ok z => Ok (PyStr.format_commas z)
      | Raise ValueError => Ok (str_of_scalar p)
      | Raise e => Raise e
      end
  | JArray _ | JObject _ => Raise TypeError
  end.

Definition message_of (shop_name name formatted_price url name_value : pystr) : pystr :=
  [24215; 33303; 21517; 58; 32]%N ++ shop_name
  ++ [10; 21830; 21697; 21517; 58; 32]%N ++ name
  ++ [10; 20385; 26684; 58; 32]%N ++ formatted_price ++ [20870; 10]%N
  ++ [85; 82; 76; 58; 32]%N ++ url
  ++ [10; 99; 111; 110; 102; 105; 103; 46; 99; 115; 118; 12398; 110; 97; 109;
      101; 12459; 12521; 12512; 12434; 21442; 29031; 12375; 12383; 34920;
      31034; 58; 32]%N ++ name_value.

Definition add_notified (v : variant) (url : pykey) : M unit :=
  s ← get_state;
  set_notified ({[url]} ∪ notified_set s) ;;
  when_variant v Lambda1 (set_new_notified_urls (new_notified_urls s ++ [url])).

(** The end of the body, from the price to the sleep, for a hit that has
    passed every check. *)
Definition notify_item (v : variant) (E : env) (r : row)
    (shop_name name : pystr) (item_url : scalar) (it : json) : M unit :=
  formatted_price ← lift (formatted_price_of it);
  let name_value := PyStr.strip_char 34 (str_of_cell (name_column r)) in
  let message :=
    message_of shop_name name formatted_price (str_of_scalar item_url)
               name_value in
  success ← send_chatwork_notification E message;
  (if success : bool then add_notified v (key_of item_url) else mret ()) ;;
  emit (EvNotify (key_of item_url) success) ;;
  sleep 1.

Definition process_item (v : variant) (E : env) (r : row)
    (all_excluded : gset pystr) (filtered_words : list pystr)
    (ng : option pystr) (cond : notify_condition) (it : json) : M unit :=
  item_name ← lift (getitem "name" it);
  item_url ← lift (getitem "url" it);
  shop_name ← lift (shop_name_of it);
  if bool_decide (shop_name ∈ all_excluded)
  then emit (EvSkipItem item_name ExcludedShop)
  else
    url ← lift (hashable item_url);
    s ← get_state;
    if bool_decide (key_of url ∈ notified_set s)
    then emit (EvSkipItem item_name AlreadyNotified)
    else
      name ← lift (str_receiver item_name);
      match check_name filtered_words ng cond name with
      | Skip reason => emit (EvSkipItem item_name reason)
      | Notify => notify_item v E r shop_name name url it
      end.

(** ** The body of the row loop *)

Definition optional_cell (c : cell) : option pystr :=
  if notna c then Some (str_of_cell c) else None.

(** [for item in items]: only a list gives hits; a string gives its
    characters and a dict its keys, strings that cannot be subscripted by
    ['name'], and a number cannot be iterated. *)
Definition item_loop (f : json → M unit) (items : json) : M unit :=
  match items with
  | JArray items => for_each f items
  | _ => raise TypeError
  end.

Definition process_row (v : variant) (E : env)
    (global_excluded_shops : list pystr) (indexed_row : nat * row) : M unit :=
  let index := indexed_row.1 in
  let r := indexed_row.2 in
  let original_keyword := PyStr.strip (str_of_cell (product_keyword r)) in
  let ng := if notna (ng_keyword r)
            then Some (PyStr.strip (str_of_cell (ng_keyword r))) else None in
  let min_price := optional_cell (lowest_price r) in
  let max_price := optional_cell (highest_price r) in
  let all_excluded :=
    all_excluded_shops v global_excluded_shops (excluded_shops_of r) in
  match original_keyword with
  | [] => emit (EvSkipRow index EmptyKeyword)
  | _ :: _ =>
      let filtered_words := filtered_words_of original_keyword in
      match filtered_words with
      | [] => emit (EvSkipRow index AllSingleCharacter)
      | _ :: _ =>
          let modified_keyword := PyStr.join [32%N] filtered_words in
          let cond := notify_condition_of (product_conditions_of r) in
          result ← search_yahoo_items v E modified_keyword min_price max_price;
          if truthy result then
            items ← lift (get_method "hits" (JArray []) result);
            if truthy items then
              item_loop
                (process_item v E r all_excluded filtered_words ng cond) items
            else mret ()
          else mret ()
      end
  end.

(** ** The ledger *)

(** [load_notified_list_from_dynamodb] and [load_notified_list]: the
    stored URLs, or the empty set when the table or object is missing and
    when reading raises. *)
Definition load_notified_list (E : env) : M (gset pykey) :=
  s ← get_state;
  mret (match ledger_load_answer E with
        | LoadOk => ledger_store s
        | LoadNotFound | LoadError => ∅
        end).

(** Lambda1: the new URLs go through [table.batch_writer()], which
    buffers them, sends them in [BatchWriteItem] calls and queues again
    what a call leaves unprocessed.  Leaving the [with] block without an
    exception, every URL is in the table; an exception is caught, and the
    table then holds the URLs of the calls that went through. *)
Definition save_to_dynamodb (E : env) (new_urls : list pykey) : M unit :=
  match new_urls with
  | [] => mret ()
  | _ :: _ =>
      s ← get_state;
      let written := match ledger_save_answer E with
                     | None => new_urls
                     | Some through => List.filter through new_urls
                     end in
      set_ledger_store (list_to_set written ∪ ledger_store s)
  end.

(** Lambda2: the whole set replaces the stored object; an exception is
    caught and leaves the object as it was. *)
Definition save_notified_list (E : env) (notified : gset pykey) : M unit :=
  match ledger_save_answer E with
  | None => set_ledger_store notified
  | Some _ => mret ()
  end.

Definition search_and_notify (v : variant) (E : env) (config_data : DataFrame)
    (global_excluded_shops : list pystr) : M (gset pykey) :=
  when_variant v Lambda1 (set_new_notified_urls []) ;;
  for_each (process_row v E global_excluded_shops) config_data ;;
  when_variant v Lambda1 (s ← get_state; save_to_dynamodb E (new_notified_urls s)) ;;
  s ← get_state;
  mret (notified_set s).

(** ** The handler *)

(** [df.iloc[::2]] *)
Fixpoint every_other {A} (l : list A) : list A :=
  match l with
  | [] => []
  | x :: l' => x :: match l' with
                    | [] => []
                    | _ :: l'' => every_other l''
                    end
  end.

(** [config_data.iloc[::2]] in Lambda1, [config_data.iloc[1::2]] in Lambda2 *)
Definition partition_filter (v : variant) (df : DataFrame) : DataFrame :=
  match v with
  | Lambda1 => every_other df
  | Lambda2 => every_other (drop 1 df)
  end.

(** A slice bound as Python normalises it against a length. *)
Definition slice_bound (len i : Z) : Z :=
  if (i <? 0)%Z then Z.max 0 (i + len) else Z.min i len.

(** [df.iloc[start:stop]] *)
Definition iloc {A} (start stop : Z) (l : list A) : list A :=
  let len := Z.of_nat (length l) in
  let lo := slice_bound len start in
  let hi := slice_bound len stop in
  take (Z.to_nat (hi - lo)) (drop (Z.to_nat lo) l).

Definition total_batches_of (len batch_size : Z) : Z :=
  ((len + batch_size - 1) / batch_size)%Z.

Definition batch_data_of {A} (current_batch batch_size : Z) (config_data : list A)
  : list A :=
  let start_index := (current_batch * batch_size)%Z in
  let end_index := (start_index + batch_size)%Z in
  iloc start_index end_index config_data.

Record response := { statusCode : Z }.

Definition lambda_handler (v : variant) (E : env) (current_batch : Z) : M response :=
  let batch_size := BATCH_SIZE E in
  let global_excluded_shops :=
    match v with Lambda1 => global_shops_answer E | Lambda2 => [] end in
  match config_answer E with
  | None => mret {| statusCode := 500 |}
  | Some rows =>
      let config_data := partition_filter v (read_csv rows) in
      if (batch_size =? 0)%Z then raise ZeroDivisionError
      else
        let total_batches :=
          total_batches_of (Z.of_nat (length config_data)) batch_size in
        let batch_data := batch_data_of current_batch batch_size config_data in
        notified ← load_notified_list E;
        set_notified notified ;;
        updated_notified_set ←
          search_and_notify v E batch_data global_excluded_shops;
        when_variant v Lambda2 (save_notified_list E updated_notified_set) ;;
        if (current_batch + 1 <? total_batches)%Z then
          emit (EvInvoke (current_batch + 1)) ;;
          if invoke_answer E then mret {| statusCode := 200 |}
          else mret {| statusCode := 500 |}
        else mret {| statusCode := 200 |}
  end.

End Program.

Arguments sleep {_} secs : simpl never.

(** ** A concrete instance for running the model

    On strings made of ASCII characters and caseless characters (kana,
    kanji) Python's [lower] is ASCII lower-casing, and on an optional sign
    followed by ASCII digits [int] is the decimal value.  The instance is
    used on such inputs only, and its [str_of_float] on no finite float;
    it stands for a [requests] of version 2.27 or later on a machine whose
    longest sleep is 9000000000 seconds. *)

Fixpoint dec_value (acc : Z) (digits : pystr) : option Z :=
  match digits with
  | [] => Some acc
  | c :: digits' =>
      if ((48 <=? c) && (c <=? 57))%N
      then dec_value (10 * acc + Z.of_N (c - 48)) digits'
      else None
  end.

Definition dec_int (s : pystr) : option Z :=
  match PyStr.strip s with
  | [] => None
  | 45%N :: (_ :: _) as digits => Z.opp <$> dec_value 0 digits
  | 43%N :: (_ :: _) as digits => dec_value 0 digits
  | 45%N :: [] | 43%N :: [] => None
  | digits => dec_value 0 digits
  end.

Definition ascii_str_of_float (f : pyfloat) : pystr :=
  match f with
  | FNaN => PyStr.lit "nan"
  | FInfinity true => PyStr.lit "-inf"
  | FInfinity false => PyStr.lit "inf"
  | FFinite num _ => PyStr.str_of_Z num ++ PyStr.lit ".0"
  end.

Definition ascii_sleep_max_ge : (5 ≤ 9000000000)%Z := ltac:(done).

Definition ascii_builtins : PyBuiltins :=
  {| lower := List.map ascii_lower_char;
     int_of_str := dec_int;
     str_of_float := ascii_str_of_float;
     json_error_is_request_exception := true;
     sleep_max := 9000000000;
     lower_ascii := λ s _, eq_refl;
     sleep_max_ge := ascii_sleep_max_ge |}.

(** The same platform with a [requests] older than 2.27. *)
Definition old_requests_builtins : PyBuiltins :=
  {| lower := List.map ascii_lower_char;
     int_of_str := dec_int;
     str_of_float := ascii_str_of_float;
     json_error_is_request_exception := false;
     sleep_max := 9000000000;
     lower_ascii := λ s _, eq_refl;
     sleep_max_ge := ascii_sleep_max_ge |}.

Definition initial_state (store : gset pykey) : state :=
  {| notified_set := ∅; new_notified_urls := []; ledger_store := store;
     gets := 0; posts := 0; trace := [] |}.

(** ** Vocabulary of the statements *)

(** The rows at positions [lo <= p < hi]. *)
Definition rows_between {A} (lo hi : nat) (l : list A) : list A :=
  take (hi - lo) (drop lo l).

(** [s'] differs from [s] only by the requests made and the events
    recorded, and every new event satisfies [P]. *)
Record io_only (P : event → Prop) (s s' : state) : Prop := {
  io_notified_set : notified_set s' = notified_set s;
  io_new_notified_urls : new_notified_urls s' = new_notified_urls s;
  io_ledger_store : ledger_store s' = ledger_store s;
  io_gets : gets s ≤ gets s';
  io_posts : posts s ≤ posts s';
  io_trace : ∃ new, trace s' = trace s ++ new ∧ Forall P new
}.

Definition io_action {A} (P : event → Prop) (m : M A) : Prop :=
  ∀ s, io_only P s (m s).2.



(** A length [time.sleep] accepts. *)
Definition sleep_ok `{PyBuiltins} (z : Z) : Prop :=
  (0 ≤ z ∧ z ≤ sleep_max ∧ z ≤ 9223372036)%Z.


Definition is_client_event (message : pystr) (e : event) : Prop :=
  e = EvPost message ∨ ∃ z, e = EvSleep z.

Definition is_search_event (e : event) : Prop :=
  (∃ in_stock q lo hi, e = EvGet in_stock q lo hi) ∨ ∃ z, e = EvSleep z.

(** The state after recording further events. *)
Definition record_events (new : list event) (s : state) : state :=
  {| notified_set := notified_set s; new_notified_urls := new_notified_urls s;
     ledger_store := ledger_store s; gets := gets s; posts := posts s;
     trace := trace s ++ new |}.

(** The URLs whose notification was accepted, in the order of the events. *)
Definition success_urls (new : list event) : list pykey :=
  omap (λ e, match e with EvNotify url true => Some url | _ => None end) new.

(** The events recorded between two states of one run. *)
Definition events_since (s s' : state) : list event :=
  drop (length (trace s)) (trace s').

(** An event a batch may emit when the ledger holds [X]: a search, a sleep,
    a skip, or a notification, with its POSTs, for a URL outside [X]. *)
Definition event_fresh `{PyBuiltins} (X : gset pykey) (e : event) : Prop :=
  match e with
  | EvNotify url _ => url ∉ X
  | EvPost message =>
      ∃ shop name price url label,
        message = message_of shop name price (str_of_scalar url) label
        ∧ key_of url ∉ X
  | EvInvoke _ => False
  | _ => True
  end.

(** What the row loop does to the state while emitting [new]. *)
Record batch_step `{PyBuiltins} (v : variant) (new : list event)
    (s s' : state) : Prop := {
  bs_trace : trace s' = trace s ++ new;
  bs_notified :
    notified_set s' = list_to_set (success_urls new) ∪ notified_set s;
  bs_new_urls :
    new_notified_urls s'
    = new_notified_urls s
      ++ match v with Lambda1 => success_urls new | Lambda2 => [] end;
  bs_store : ledger_store s' = ledger_store s;
  bs_fresh : Forall (event_fresh (notified_set s)) new;
  bs_nodup : NoDup (success_urls new);
  bs_gets : gets s ≤ gets s';
  bs_posts : posts s ≤ posts s'
}.

(** The value of a key of a search hit, if the hit is a dict that has the
    key. *)
Definition item_field (key : string) (it : json) : option json :=
  match it with
  | JObject members => dict_get (PyStr.lit key) members
  | _ => None
  end.

Abbreviation item_name it := (item_field "name" it).
Abbreviation item_url it := (item_field "url" it).
Abbreviation item_price it := (item_field "price" it).
Abbreviation item_seller it := (item_field "seller" it).

(** The same search hit with the seller name spelled out. *)
Definition with_seller_name (seller_name : pystr)
    (members : list (pystr * json)) : list (pystr * json) :=
  (PyStr.lit "seller", JObject [(PyStr.lit "name", JStr seller_name)])
  :: List.filter (λ member, negb (bool_decide (member.1 = PyStr.lit "seller")))
       members.

(** The stripped keyword of a row, as [process_row] computes it. *)
Definition original_keyword_of (r : row) : pystr :=
  PyStr.strip (str_of_cell (product_keyword r)).







(** A row that reaches the search: its keyword is not empty and keeps a
    token after the one-character tokens are dropped. *)
Definition searchable (r : row) : Prop :=
  original_keyword_of r ≠ [] ∧ filtered_words_of (original_keyword_of r) ≠ [].

(** The query sent for a row. *)
Definition query_of (r : row) : pystr :=
  PyStr.join [32%N] (filtered_words_of (original_keyword_of r)).

(** ** Concrete inputs of the examples *)

(** A world in which every request fails and nothing is configured. *)
Definition silent_env : env :=
  {| http_get := λ _, GetException;
     http_post := λ _, PostException;
     global_shops_answer := [];
     config_answer := None;
     ledger_load_answer := LoadOk;
     ledger_save_answer := None;
     invoke_answer := true;
     BATCH_SIZE := 100 |}.

Definition with_http_post (answers : nat → post_outcome) (E : env) : env :=
  {| http_get := http_get E; http_post := answers;
     global_shops_answer := global_shops_answer E;
     config_answer := config_answer E;
     ledger_load_answer := ledger_load_answer E;
     ledger_save_answer := ledger_save_answer E;
     invoke_answer := invoke_answer E; BATCH_SIZE := BATCH_SIZE E |}.

Definition with_http_get (answers : nat → get_outcome) (E : env) : env :=
  {| http_get := answers; http_post := http_post E;
     global_shops_answer := global_shops_answer E;
     config_answer := config_answer E;
     ledger_load_answer := ledger_load_answer E;
     ledger_save_answer := ledger_save_answer E;
     invoke_answer := invoke_answer E; BATCH_SIZE := BATCH_SIZE E |}.

(** Rate limited once with [Retry-After: 3], then accepted. *)
Definition env_rate_limited_once : env :=
  with_http_post
    (λ k, match k with
          | 0 => PostResponse 429 (Some (PyStr.lit "3"))
          | _ => PostResponse 200 None
          end) silent_env.


(** A rule with prices 1000 to 5000 and the label "label". *)
Definition rule (keyword ng condition exclusions : cell) : row :=
  {| product_keyword := keyword; ng_keyword := ng;
     lowest_price := Val (PyStr.lit "1000");
     highest_price := Val (PyStr.lit "5000");
     sellerIdExs := exclusions; product_condition := condition;
     name_column := Val (PyStr.lit "label") |}.

(** A complete search hit priced 1200; [seller] is the name of the seller
    if the hit has a seller dict. *)
Definition hit (name url : pystr) (seller : option pystr) : json :=
  JObject ([(PyStr.lit "name", JStr name); (PyStr.lit "url", JStr url);
            (PyStr.lit "price", JInt 1200)]
           ++ match seller with
              | Some seller_name =>
                  [(PyStr.lit "seller",
                    JObject [(PyStr.lit "name", JStr seller_name)])]
              | None => []
              end).

(** The body of an answer with these hits. *)
Definition hits_body (items : list json) : option json :=
  Some (JObject [(PyStr.lit "hits", JArray items)]).

(** "foo bar" with the negative keyword "junk", new or used. *)
Definition rule_foo_bar_no_junk : row :=
  rule (Val (PyStr.lit "foo bar")) (Val (PyStr.lit "junk"))
       (Val (shinpin_mishiyou ++ PyStr.lit "|" ++ chuko)) NaN.

(** A hit that lacks the token "bar" and contains the negative token. *)
Definition hit_foo_junk : json :=
  hit (PyStr.lit "foo junk") (PyStr.lit "https://example.test/1")
      (Some (PyStr.lit "shopB")).

(** "foo bar", new items only, shops "ShopA" and "shopC" excluded. *)
Definition rule_foo_bar_new_only : row :=
  rule (Val (PyStr.lit "foo bar")) NaN (Val shinpin_mishiyou)
       (Val (34%N :: PyStr.lit "ShopA, shopC" ++ [34%N])).

(** "foo bar", any condition but new. *)
Definition rule_foo_bar_used_only : row :=
  rule (Val (PyStr.lit "foo bar")) NaN (Val chuko) (Val (PyStr.lit "shopA")).

Definition hit_shopA : json :=
  hit (PyStr.lit "Foo Bar deluxe") (PyStr.lit "https://example.test/a")
      (Some (PyStr.lit " ShopA")).

(** "foo bar 中古 item" sold by shopB. *)
Definition hit_used_shopB : json :=
  hit (PyStr.lit "foo bar " ++ chuko ++ PyStr.lit " item")
      (PyStr.lit "https://example.test/b") (Some (PyStr.lit "shopB")).

(** A hit without a [seller] object. *)
Definition hit_no_seller : json :=
  hit (PyStr.lit "foo bar plain") (PyStr.lit "https://example.test/c") None.

(** Three rules in the configuration, one row per batch. *)
Definition env_three_rules : env :=
  {| http_get := λ _, GetException;
     http_post := λ _, PostException;
     global_shops_answer := [];
     config_answer := Some [rule_foo_bar_new_only; rule_foo_bar_used_only;
                            rule_foo_bar_no_junk];
     ledger_load_answer := LoadOk;
     ledger_save_answer := None;
     invoke_answer := true;
     BATCH_SIZE := 1 |}.

(** Every search returns the hit of shopA and the used hit of shopB; every
    notification is accepted. *)
Definition env_two_hits : env :=
  {| http_get := λ _, GetResponse 200 (hits_body [hit_shopA; hit_used_shopB]);
     http_post := λ _, PostResponse 200 None;
     global_shops_answer := [];
     config_answer := None;
     ledger_load_answer := LoadOk;
     ledger_save_answer := None;
     invoke_answer := true;
     BATCH_SIZE := 100 |}.

Definition with_config (rows : list row) (batch_size : Z) (E : env) : env :=
  {| http_get := http_get E; http_post := http_post E;
     global_shops_answer := global_shops_answer E;
     config_answer := Some rows;
     ledger_load_answer := ledger_load_answer E;
     ledger_save_answer := ledger_save_answer E;
     invoke_answer := invoke_answer E; BATCH_SIZE := batch_size |}.

Definition with_ledger_load (answer : load_outcome) (E : env) : env :=
  {| http_get := http_get E; http_post := http_post E;
     global_shops_answer := global_shops_answer E;
     config_answer := config_answer E;
     ledger_load_answer := answer;
     ledger_save_answer := ledger_save_answer E;
     invoke_answer := invoke_answer E; BATCH_SIZE := BATCH_SIZE E |}.

(** Two used-only rules at the even positions of the configuration, and
    searches that return the two complete hits. *)
Definition env_used_rules : env :=
  with_config [rule_foo_bar_used_only; rule_foo_bar_new_only;
               rule_foo_bar_used_only] 100 env_two_hits.



(** A URL notified by an earlier run. *)
Definition old_url : pykey := KStr (PyStr.lit "https://example.test/old").

(** Reading the ledger fails, every search fails, writing succeeds. *)
Definition env_load_error : env :=
  with_ledger_load LoadError
    (with_config [rule_foo_bar_new_only; rule_foo_bar_used_only] 100 silent_env).

(** Unfold the monad's plumbing, leaving the calls in place. *)
Ltac munfold :=
  unfold lift, get_state, mbind, M_bind, mret, M_ret; cbv beta iota.

(** ** Vocabulary of the further properties *)

Definition get_status_of (o : get_outcome) : option Z :=
  match o with
  | GetResponse status_code _ => Some status_code
  | GetException => None
  end.

(** ** The global exclusion list of Lambda1 *)

(** The loop of [get_excluded_shops_from_sheets] over the rows of column A:
    it stops at the first row that is empty or whose first cell is empty,
    and keeps the stripped, lower-cased first cell of a row unless that is
    empty. *)
Fixpoint excluded_shops_of_values `{PyBuiltins} (values : list (list pystr))
  : list pystr :=
  match values with
  | [] => []
  | row :: values' =>
      match row with
      | [] | [] :: _ => []
      | cell :: _ =>
          let shop_name := lower (PyStr.strip cell) in
          match shop_name with
          | [] => excluded_shops_of_values values'
          | _ :: _ => shop_name :: excluded_shops_of_values values'
          end
      end
  end.

(** [get_excluded_shops_from_sheets], given what the Sheets API answers:
    the rows of the range, or [None] when building the service or the call
    raises; both [except] branches and the empty answer return [[]]. *)
Definition get_excluded_shops_from_sheets `{PyBuiltins}
    (answer : option (list (list pystr))) : list pystr :=
  match answer with
  | None => []
  | Some values => excluded_shops_of_values values
  end.

(** What the handler of Lambda1 meets while it fills
    [global_excluded_shops]. *)
Record exclusion_world := {
  (** [GOOGLE_SECRET_NAME] and [SPREADSHEET_ID] are both set and not empty *)
  sheet_configured : bool;
  (** [get_google_credentials_from_secrets_manager] returns; it re-raises
      whatever the Secrets Manager raises *)
  credentials_answer : bool;
  (** the answer of the Sheets API *)
  sheet_answer : option (list (list pystr));
  (** [s3.put_object] of the cache object returns *)
  cache_put_answer : bool;
  (** [s3.get_object] and [json.loads] of the cache object return *)
  cache_get_answer : bool
}.

(** The first block of [lambda_handler] in Lambda1.  [cache] is the list
    held by the object temp_excluded_shops_yahoo.json, if it exists; the
    result is [global_excluded_shops] and the cache afterwards.  Batch 0
    reads the sheet and writes the cache, the other batches read the
    cache; every exception leaves [global_excluded_shops] at the value it
    had when it was raised. *)
Definition load_global_excluded_shops `{PyBuiltins} (W : exclusion_world)
    (current_batch : Z) (cache : option (list pystr))
  : list pystr * option (list pystr) :=
  if (current_batch =? 0)%Z then
    if sheet_configured W then
      if credentials_answer W then
        let global_excluded_shops :=
          get_excluded_shops_from_sheets (sheet_answer W) in
        if cache_put_answer W
        then (global_excluded_shops, Some global_excluded_shops)
        else (global_excluded_shops, cache)
      else ([], cache)
    else ([], cache)
  else
    match cache with
    | Some cached => if cache_get_answer W then (cached, cache) else ([], cache)
    | None => ([], cache)
    end.

(** A row of the sheet that ends the list. *)
Definition ends_sheet (row : list pystr) : bool :=
  match row with
  | [] | [] :: _ => true
  | _ => false
  end.

(** ** The ledger table of Lambda1, page by page *)

(** The loop [notified_set.add(item['itemUrl'])] over the items of one
    page; [None] stands for the [KeyError] of an item without the key. *)
Fixpoint add_item_urls (items : list (option pystr)) (notified : gset pystr)
  : option (gset pystr) :=
  match items with
  | [] => Some notified
  | Some url :: items' => add_item_urls items' ({[url]} ∪ notified)
  | None :: _ => None
  end.

(** The scans of [load_notified_list_from_dynamodb] over the pages of the
    table, the scan of page [fails_at] raising; [None] stands for an
    exception. *)
Fixpoint scan_pages (pages : list (list (option pystr))) (fails_at : option nat)
    (notified : gset pystr) : option (gset pystr) :=
  match pages with
  | [] => Some notified
  | page :: pages' =>
      match fails_at with
      | Some 0 => None
      | _ =>
          match add_item_urls page notified with
          | None => None
          | Some notified' => scan_pages pages' (pred <$> fails_at) notified'
          end
      end
  end.

(** [load_notified_list_from_dynamodb]: every exception, a missing table
    included, gives the empty set. *)
Definition load_notified_list_from_dynamodb
    (pages : list (list (option pystr))) (fails_at : option nat) : gset pystr :=
  match scan_pages pages fails_at ∅ with
  | Some notified => notified
  | None => ∅
  end.

(** The URLs of the items of all pages. *)
Definition page_urls (pages : list (list (option pystr))) : list pystr :=
  omap id (concat pages).


(** Whether every scan returns and every item carries its key. *)
Definition scan_complete (pages : list (list (option pystr)))
    (fails_at : option nat) : bool :=
  match fails_at with
  | Some k => length pages <=? k
  | None => true
  end && forallb (forallb (λ item_url, bool_decide (is_Some item_url))) pages.

(** ** Concrete inputs of the further examples *)

(** Column A of the sheet: " ShopA ", a cell of blanks, "shopD", an empty
    cell, "shopE". *)
Definition sheet_column : list (list pystr) :=
  [[PyStr.lit " ShopA "]; [PyStr.lit "  "]; [PyStr.lit "shopD"]; [[]];
   [PyStr.lit "shopE"]].

(** Everything works: the sheet is read and cached. *)
Definition exclusion_world_ok : exclusion_world :=
  {| sheet_configured := true; credentials_answer := true;
     sheet_answer := Some sheet_column;
     cache_put_answer := true; cache_get_answer := true |}.

(** As [exclusion_world_ok], but writing the cache object raises. *)
Definition exclusion_world_no_put : exclusion_world :=
  {| sheet_configured := true; credentials_answer := true;
     sheet_answer := Some sheet_column;
     cache_put_answer := false; cache_get_answer := true |}.


(** The items [save_to_dynamodb] gets to write of the URLs it is given. *)
Definition written_urls (E : env) (new_urls : list pykey) : list pykey :=
  match ledger_save_answer E with
  | None => new_urls
  | Some through => List.filter through new_urls
  end.

(** What [load_notified_list] returns when the store holds [store]. *)
Definition loaded_from (E : env) (store : gset pykey) : gset pykey :=
  match ledger_load_answer E with
  | LoadOk => store
  | LoadNotFound | LoadError => ∅
  end.


(** ** Requests and the sleeps between them *)

Inductive request_kind := GetRequest | PostRequest.

Definition is_request (kind : request_kind) (e : event) : bool :=
  match kind, e with
  | GetRequest, EvGet _ _ _ _ => true
  | PostRequest, EvPost _ => true
  | _, _ => false
  end.

(** Whether a second has been slept in one go after the event [e], given
    whether one had been before it. *)
Definition ready_after (e : event) (ready : bool) : bool :=
  match e with
  | EvSleep seconds => ready || (1 <=? seconds)%Z
  | _ => ready
  end.

(** Read the events in order, [ready] telling whether a sleep of at least
    one second has been seen since the last request of the kind; [None]
    when a request of the kind comes before such a sleep. *)
Fixpoint spaced (kind : request_kind) (ready : bool) (events : list event)
  : option bool :=
  match events with
  | [] => Some ready
  | e :: events' =>
      if is_request kind e
      then if ready then spaced kind false events' else None
      else spaced kind (ready_after e ready) events'
  end.

(** Started when [ready] tells whether a second has been slept since the
    last request of the kind, every run of [m] spaces the requests it
    adds, and [P] holds of the value it returns and of whether a second
    has been slept since its last request. *)
Definition spaced_run {A} (kind : request_kind) (ready : bool) (m : M A)
    (P : A → bool → Prop) : Prop :=
  ∀ s, ∃ new ready',
    trace (m s).2 = trace s ++ new
    ∧ spaced kind ready new = Some ready'
    ∧ ∀ a, (m s).1 = Ok a → P a ready'.


(** As [env_used_rules], but every search is answered 400. *)
Definition env_bad_requests : env :=
  with_http_get (λ _, GetResponse 400 None) env_used_rules.


(** Every run of [m] issues at most [n] GETs. *)
Definition gets_within {A} (n : nat) (m : M A) : Prop :=
  ∀ s, gets s ≤ gets (m s).2 ≤ gets s + n.


(** A string with its commas taken out. *)
Definition without_commas (s : pystr) : pystr :=
  List.filter (λ c, negb (c =? 44)%N) s.

(** ** Vocabulary of the row loop *)

(** The negative keyword of a row, as [process_row] reads it. *)
Definition ng_keyword_of (r : row) : option pystr :=
  if notna (ng_keyword r) then Some (PyStr.strip (str_of_cell (ng_keyword r)))
  else None.

(** What [process_row] does with the result of the search: the loop with
    body [f] over its hits, if it has any. *)
Definition hits_loop (f : json → M unit) (result : json) : M unit :=
  if truthy result then
    items ← lift (get_method "hits" (JArray []) result);
    if truthy items then item_loop f items else mret ()
  else mret ().

(** "foo bar" with the condition field 新品、未使用|新品、未使用. *)
Definition rule_new_only_twice : row :=
  rule (Val (PyStr.lit "foo bar")) NaN
       (Val (shinpin_mishiyou ++ PyStr.lit "|" ++ shinpin_mishiyou)) NaN.

(** "foo bar", any condition but new, no shop excluded by the rule. *)
Definition rule_used_only_any_shop : row :=
  rule (Val (PyStr.lit "foo bar")) NaN (Val chuko) NaN.

(** As above, with the exclusion field "NAN". *)
Definition rule_excluding_nan : row :=
  rule (Val (PyStr.lit "foo bar")) NaN (Val chuko) (Val (PyStr.lit "NAN")).

(** As above, with an exclusion field of two blanks. *)
Definition rule_excluding_blank : row :=
  rule (Val (PyStr.lit "foo bar")) NaN (Val chuko) (Val (PyStr.lit "  ")).

(** The sheet excludes shopb; the configuration holds the same rule twice,
    one row for each Lambda; every search returns the used hit of shopB and
    every notification is accepted. *)
Definition env_global_shopb : env :=
  {| http_get := λ _, GetResponse 200 (hits_body [hit_used_shopB]);
     http_post := λ _, PostResponse 200 None;
     global_shops_answer := [PyStr.lit "shopb"];
     config_answer := Some [rule_used_only_any_shop; rule_used_only_any_shop];
     ledger_load_answer := LoadOk;
     ledger_save_answer := None;
     invoke_answer := true;
     BATCH_SIZE := 100 |}.

(** ** Vocabulary of the search client *)

(** Whether the search client tries again after the answer [o]: after an
    exception, after a status other than 200 and 400, and after a 200
    whose body is no JSON when [requests] raises its own error for it. *)
Definition retried `{PyBuiltins} (o : get_outcome) : bool :=
  match o with
  | GetResponse status_code body =>
      if (status_code =? 200)%Z then
        match body with
        | Some _ => false
        | None => json_error_is_request_exception
        end
      else negb (status_code =? 400)%Z
  | GetException => true
  end.

(** What the search client ends with when [o] answers its last request:
    the parsed body of a 200, the decoder's error for a 200 whose body is
    no JSON and that is not tried again, [None] otherwise. *)
Definition search_result_of `{PyBuiltins} (o : get_outcome) : result json :=
  match o with
  | GetResponse status_code (Some parsed) =>
      if (status_code =? 200)%Z then Ok parsed else Ok JNull
  | GetResponse status_code None =>
      if (status_code =? 200)%Z && negb json_error_is_request_exception
      then Raise JSONDecodeError else Ok JNull
  | GetException => Ok JNull
  end.


(** Every search is answered 200 with a body that is no JSON. *)
Definition env_no_json : env :=
  with_http_get (λ _, GetResponse 200 None) env_used_rules.

(** The sheet cannot be read, and the cache is written. *)
Definition exclusion_world_no_sheet : exclusion_world :=
  {| sheet_configured := true; credentials_answer := true;
     sheet_answer := None;
     cache_put_answer := true; cache_get_answer := true |}.

(** Rate limited with [Retry-After: 10000000000]. *)
Definition env_retry_after_huge : env :=
  with_http_post
    (λ _, PostResponse 429 (Some (PyStr.lit "10000000000"))) silent_env.

(** A hit named "foo bar" with the given price and seller. *)
Definition hit_priced (price : json) (seller : list (pystr * json)) : json :=
  JObject ([(PyStr.lit "name", JStr (PyStr.lit "foo bar"));
            (PyStr.lit "url", JStr (PyStr.lit "https://example.test/p"));
            (PyStr.lit "price", price)] ++ seller).

(** * Properties *)

(** ** The string model on examples *)

Example strip_ex : PyStr.strip (PyStr.lit "  foo bar ") = PyStr.lit "foo bar".
Proof. reflexivity. Qed.

Example split_on_ex :
  PyStr.split_on 32%N (PyStr.lit "a  bc") = [PyStr.lit "a"; []; PyStr.lit "bc"].
Proof. reflexivity. Qed.

Example split_ws_ex :
  PyStr.split_ws (PyStr.lit " a   bc ") = [PyStr.lit "a"; PyStr.lit "bc"].
Proof. reflexivity. Qed.

Example format_commas_ex :
  PyStr.format_commas 1234567 = PyStr.lit "1,234,567"
  ∧ PyStr.format_commas (-1000) = PyStr.lit "-1,000"
  ∧ PyStr.format_commas 0 = PyStr.lit "0".
Proof. repeat split; vm_compute; reflexivity. Qed.


(** ** Row partition between the two Lambdas *)

Section Partition.
Context {A : Type}.
Implicit Types l : list A.

Lemma every_other_cons x l : every_other (x :: l) = x :: every_other (drop 1 l).
Proof. by destruct l. Qed.

Lemma every_other_lookup l k : every_other l !! k = l !! (2 * k).
Proof.
  revert l. induction k as [|k IH]; intros l.
  - by destruct l.
  - replace (2 * S k) with (S (S (2 * k))) by lia.
    destruct l as [|x [|y l]]; simpl; [done..|]. apply IH.
Qed.

Lemma every_other_drop_lookup l k :
  every_other (drop 1 l) !! k = l !! (2 * k + 1).
Proof.
  rewrite every_other_lookup, lookup_drop. f_equal. lia.
Qed.

Lemma every_other_split l : every_other l ++ every_other (drop 1 l) ≡ₚ l.
Proof.
  induction l as [|x l IH]; [done|].
  rewrite every_other_cons. simpl. rewrite drop_0. f_equiv.
  by rewrite (comm (++)).
Qed.
End Partition.

Lemma read_csv_NoDup rows : NoDup (read_csv rows).
Proof.
  unfold read_csv. apply (NoDup_fmap_1 fst).
  rewrite fst_zip by (rewrite length_seq; lia). apply NoDup_seq.
Qed.

Lemma read_csv_lookup rows i ir :
  read_csv rows !! i = Some ir → ir.1 = i.
Proof.
  unfold read_csv. intros Hl.
  apply lookup_zip_with_Some in Hl as (j & r & -> & Hj & _).
  apply lookup_seq in Hj as [-> _]. done.
Qed.

(** ** Batches *)

Section Batches.
Context {A : Type}.
Implicit Types l : list A.

Lemma rows_between_lookup lo hi l k :
  rows_between lo hi l !! k = if decide (lo + k < hi) then l !! (lo + k) else None.
Proof.
  unfold rows_between. case_decide.
  - rewrite lookup_take_lt by lia. apply lookup_drop.
  - apply lookup_take_ge. lia.
Qed.


End Batches.


(** C6: the rows Lambda1 keeps (even positions of the unfiltered frame) and
    the rows Lambda2 keeps (odd positions) have no row in common, together
    they are exactly the rows of the frame, and each keeps the rows at the
    positions of its parity, in order. *)
Theorem C6_partition_disjoint_and_covering (rows : list row) :
  let df := read_csv rows in
  partition_filter Lambda1 df ## partition_filter Lambda2 df
  ∧ NoDup (partition_filter Lambda1 df ++ partition_filter Lambda2 df)
  ∧ partition_filter Lambda1 df ++ partition_filter Lambda2 df ≡ₚ df
  ∧ (∀ k, partition_filter Lambda1 df !! k = df !! (2 * k))
  ∧ (∀ k, partition_filter Lambda2 df !! k = df !! (2 * k + 1)).
Proof.
  intros df. simpl.
  assert (NoDup (every_other df ++ every_other (drop 1 df))) as Hnd.
  { rewrite every_other_split. apply read_csv_NoDup. }
  split_and!.
  - by apply NoDup_app in Hnd as (_ & Hdis & _).
  - done.
  - apply every_other_split.
  - apply every_other_lookup.
  - apply every_other_drop_lookup.
Qed.

(** A frame of three rows: Lambda1 takes labels 0 and 2, Lambda2 label 1. *)
Example partition_filter_ex (a b c : row) :
  partition_filter Lambda1 (read_csv [a; b; c]) = [(0, a); (2, c)]
  ∧ partition_filter Lambda2 (read_csv [a; b; c]) = [(1, b)].
Proof. done. Qed.

(** ** Rule evaluation *)

Section RuleFacts.
Context `{PyBuiltins}.
Implicit Types (X : gset pystr) (N : gset pykey) (url : pykey).
Implicit Types (tags fw : list pystr) (ng : option pystr).

Lemma notify_condition_of_cases tags :
  notify_condition_of tags =
    if decide (shinpin_mishiyou ∈ tags)
    then if decide (length tags = 1) then exclude_chuko else include_all
    else include_chuko_only.
Proof.
  unfold notify_condition_of.
  repeat case_bool_decide; repeat case_decide; done.
Qed.

Lemma check_item_excluded X N fw ng cond shop name url :
  shop ∈ X → check_item X N fw ng cond shop name url = Skip ExcludedShop.
Proof. intros. unfold check_item. by rewrite bool_decide_eq_true_2. Qed.

Lemma check_item_notified X N fw ng cond shop name url :
  shop ∉ X → url ∈ N →
  check_item X N fw ng cond shop name url = Skip AlreadyNotified.
Proof.
  intros. unfold check_item.
  rewrite bool_decide_eq_false_2 by done. by rewrite bool_decide_eq_true_2.
Qed.

Lemma check_item_fresh X N fw ng cond shop name url :
  shop ∉ X → url ∉ N →
  check_item X N fw ng cond shop name url =
    if ng_hit ng (lower name) then Skip NegativeKeywordHit
    else if all_words_present fw (lower name) then condition_check cond name
    else Skip KeywordMismatch.
Proof.
  intros. unfold check_item, check_name.
  by rewrite !bool_decide_eq_false_2 by done.
Qed.

Lemma check_name_fresh X N fw ng cond shop name url :
  shop ∉ X → url ∉ N →
  check_name fw ng cond name = check_item X N fw ng cond shop name url.
Proof.
  intros. unfold check_item. by rewrite !bool_decide_eq_false_2 by done.
Qed.

Lemma check_item_Notify X N fw ng cond shop name url :
  check_item X N fw ng cond shop name url = Notify →
  (shop ∉ X) ∧ (url ∉ N) ∧ ng_hit ng (lower name) = false
  ∧ all_words_present fw (lower name) = true
  ∧ condition_check cond name = Notify.
Proof.
  unfold check_item, check_name.
  repeat case_bool_decide; try done.
  destruct (ng_hit _ _); [done|].
  destruct (all_words_present _ _); done.
Qed.

Lemma spec_evaluate_Notify X N fw ng cond shop name url :
  spec_evaluate X N fw ng cond shop name url = Notify ↔
  check_item X N fw ng cond shop name url = Notify.
Proof.
  unfold spec_evaluate, check_item, check_name.
  repeat case_bool_decide; try done.
  destruct (ng_hit _ _), (all_words_present _ _); done.
Qed.

Lemma filtered_words_of_elem kw w :
  w ∈ filtered_words_of kw ↔ w ∈ words_of kw ∧ length w ≠ 1.
Proof.
  unfold filtered_words_of. rewrite !list_elem_of_In, filter_In.
  unfold is_single_character. rewrite negb_true_iff, bool_decide_eq_false. done.
Qed.

Lemma filtered_words_of_nil kw :
  filtered_words_of kw = [] ↔ Forall (λ w, length w = 1) (words_of kw).
Proof.
  unfold filtered_words_of. induction (words_of kw) as [|w ws IH]; simpl.
  - split; [constructor|done].
  - unfold is_single_character at 1. case_bool_decide; simpl.
    + rewrite IH. split; [by constructor|by inversion 1].
    + split; [done|]. by inversion 1.
Qed.

End RuleFacts.

(** ** Runs of the monad *)

Lemma run_bind {A B} (m : M A) (k : A → M B) s :
  (m ≫= k) s = match m s with
               | (Ok a, s') => k a s'
               | (Raise e, s') => (Raise e, s')
               end.
Proof. done. Qed.

Lemma run_bind_Ok {A B} (m : M A) (k : A → M B) s a s' :
  m s = (Ok a, s') → (m ≫= k) s = k a s'.
Proof. intros Hm. by rewrite run_bind, Hm. Qed.

Lemma run_bind_Raise {A B} (m : M A) (k : A → M B) s e s' :
  m s = (Raise e, s') → (m ≫= k) s = (Raise e, s').
Proof. intros Hm. by rewrite run_bind, Hm. Qed.

Lemma sleep_accepted `{PyBuiltins} z :
  sleep_ok z → sleep z = emit (EvSleep z).
Proof.
  intros (? & ? & ?). unfold sleep. by rewrite !(proj2 (Z.ltb_ge _ _)) by lia.
Qed.

Lemma sleep_constant `{PyBuiltins} z :
  (0 ≤ z ≤ 5)%Z → sleep z = emit (EvSleep z).
Proof.
  intros. apply sleep_accepted. pose proof sleep_max_ge.
  unfold sleep_ok. lia.
Qed.

Lemma sleep_cases `{PyBuiltins} z s :
  sleep z s = emit (EvSleep z) s ∨ ∃ e, sleep z s = (Raise e, s).
Proof.
  unfold sleep. repeat case_match; eauto.
Qed.

Section IoOnly.
Context `{PyBuiltins} (P : event → Prop).

Lemma io_only_refl s : io_only P s s.
Proof. split; try done. exists []. by rewrite app_nil_r. Qed.

Lemma io_only_trans s1 s2 s3 :
  io_only P s1 s2 → io_only P s2 s3 → io_only P s1 s3.
Proof.
  intros [? ? ? ? ? (n1 & ? & ?)] [? ? ? ? ? (n2 & ? & ?)].
  split; try congruence; try lia.
  exists (n1 ++ n2). split; [|by apply Forall_app].
  rewrite app_assoc. congruence.
Qed.

Lemma io_ret {A} (a : A) : io_action P (mret a).
Proof. intros s. apply io_only_refl. Qed.

Lemma io_raise {A} e : io_action P (@raise A e).
Proof. intros s. apply io_only_refl. Qed.

Lemma io_bind {A B} (m : M A) (k : A → M B) :
  io_action P m → (∀ a, io_action P (k a)) → io_action P (m ≫= k).
Proof.
  intros Hm Hk s. rewrite run_bind. specialize (Hm s).
  destruct (m s) as [[a|e] s1]; [|done].
  eapply io_only_trans; [done|apply Hk].
Qed.

Lemma io_emit e : P e → io_action P (emit e).
Proof.
  intros He s. split; simpl; try done. exists [e]. split; [done|by constructor].
Qed.

Lemma io_sleep z : (∀ z, P (EvSleep z)) → io_action P (sleep z).
Proof.
  intros Hs. unfold sleep.
  repeat case_match; (apply io_raise || by apply io_emit).
Qed.

Lemma io_requests_post E message :
  P (EvPost message) → io_action P (requests_post E message).
Proof.
  intros He s. split; simpl; try done; try lia.
  exists [EvPost message]. split; [done|by constructor].
Qed.

Lemma io_requests_get E in_stock q lo hi :
  P (EvGet in_stock q lo hi) → io_action P (requests_get E in_stock q lo hi).
Proof.
  intros He s. split; simpl; try done; try lia.
  exists [EvGet in_stock q lo hi]. split; [done|by constructor].
Qed.

Lemma io_lift {A} (r : result A) : io_action P (lift r).
Proof. intros s. apply io_only_refl. Qed.

End IoOnly.

Lemma io_only_mono (P Q : event → Prop) s s' :
  (∀ e, P e → Q e) → io_only P s s' → io_only Q s s'.
Proof.
  intros HPQ [? ? ? ? ? (new & ? & Hnew)]. split; try done.
  exists new. split; [done|]. eapply Forall_impl; eauto.
Qed.

Section Clients.
Context `{PyBuiltins}.

Lemma io_send_attempts E message n :
  io_action (is_client_event message) (send_attempts E message n).
Proof.
  assert (∀ z, is_client_event message (EvSleep z)) as Hsl by (right; eauto).
  induction n as [|n IH]; simpl; [apply io_ret|].
  apply io_bind; [apply io_requests_post; by left|].
  intros [status header|].
  - destruct (status =? 200)%Z.
    { apply io_bind; [by apply io_sleep|intros; apply io_ret]. }
    destruct (status =? 429)%Z; [|apply io_ret].
    apply io_bind.
    { unfold int_of_retry_after. destruct header as [v|]; [|apply io_ret].
      destruct (int_of_str v); [apply io_ret|apply io_raise]. }
    intros z. apply io_bind; [by apply io_sleep|intros _].
    apply io_bind; [by apply io_sleep|intros _]. done.
  - apply io_bind; [by apply io_sleep|intros _]. done.
Qed.

Lemma io_search_attempts v E q lo hi n :
  io_action is_search_event (search_attempts v E q lo hi n).
Proof.
  assert (∀ z, is_search_event (EvSleep z)) as Hsl by (right; eauto).
  assert (∀ v', io_action is_search_event (when_variant v v' (sleep 1))) as Hwv.
  { intros v'. destruct v, v'; simpl; (apply io_ret || by apply io_sleep). }
  induction n as [|n IH]; simpl; [apply io_ret|].
  apply io_bind; [apply Hwv|intros _].
  apply io_bind; [apply io_requests_get; left; eauto|].
  intros [status body|].
  - destruct (status =? 200)%Z.
    { apply io_bind; [apply Hwv|intros _].
      destruct body as [parsed|]; [apply io_ret|].
      destruct json_error_is_request_exception; [|apply io_raise].
      apply io_bind; [by apply io_sleep|intros _]. done. }
    destruct (status =? 400)%Z; [apply io_ret|].
    destruct (status =? 429)%Z.
    + apply io_bind; [by apply io_sleep|intros _].
      apply io_bind; [by apply io_sleep|intros _]. done.
    + apply io_bind; [by apply io_sleep|intros _]. done.
  - apply io_bind; [by apply io_sleep|intros _]. done.
Qed.

End Clients.

(** ** The notification client *)

Section Notify.
Context `{PyBuiltins}.






End Notify.



(** The rate-limit scenario of the specification: 429 with
    [Retry-After: 3], then 200. *)
Example send_chatwork_notification_rate_limited :
  let r := send_chatwork_notification (H := ascii_builtins) env_rate_limited_once
             (PyStr.lit "hello") (initial_state ∅) in
  r.1 = Ok true
  ∧ trace r.2 = [EvPost (PyStr.lit "hello"); EvSleep 3; EvSleep 2;
                 EvPost (PyStr.lit "hello"); EvSleep 1].
Proof. done. Qed.


(** A [Retry-After] of 10000000000 seconds is an integer, and too long
    for [time.sleep]: the call raises [OverflowError]. *)
Example send_chatwork_notification_long_wait :
  let r := send_chatwork_notification (H := ascii_builtins) env_retry_after_huge
             (PyStr.lit "hello") (initial_state ∅) in
  r.1 = Raise OverflowError
  ∧ trace r.2 = [EvPost (PyStr.lit "hello")].
Proof. done. Qed.

(** ** The item loop and the row loop, one step at a time *)

Lemma dict_get_filter_ne {A} (key other : pystr) (members : list (pystr * A)) :
  key ≠ other →
  dict_get key
    (List.filter (λ member, negb (bool_decide (member.1 = other))) members)
  = dict_get key members.
Proof.
  intros Hne. unfold dict_get. f_equal.
  induction members as [|[k x] members IH]; [done|]. simpl.
  destruct (decide (k = other)) as [->|Hk].
  - rewrite bool_decide_eq_true_2 by done. simpl.
    by rewrite bool_decide_eq_false_2 by done.
  - rewrite (bool_decide_eq_false_2 (k = other)) by done. simpl.
    by rewrite IH.
Qed.

Lemma getitem_field key it x : item_field key it = Some x → getitem key it = Ok x.
Proof. destruct it; simpl; [done..|]. by intros ->. Qed.

Lemma getitem_no_field key members :
  dict_get (PyStr.lit key) members = None →
  getitem key (JObject members) = Raise (KeyError (PyStr.lit key)).
Proof. simpl. by intros ->. Qed.

Section Steps.
Context `{PyBuiltins}.
Implicit Types (X : gset pystr) (fw : list pystr) (ng : option pystr).

(** The body of the item loop on a hit whose name is a string and whose URL
    can be hashed: the decision of [check_item], then the notification. *)
Lemma process_item_checked v E r X fw ng cond it name url shop s :
  item_name it = Some (JStr name) → item_url it = Some (JScalar url) →
  shop_name_of it = Ok shop →
  process_item v E r X fw ng cond it s
  = match check_item X (notified_set s) fw ng cond shop name (key_of url) with
    | Skip reason => emit (EvSkipItem (JStr name) reason) s
    | Notify => notify_item v E r shop name url it s
    end.
Proof.
  intros Hn%getitem_field Hu%getitem_field Hs. unfold process_item, check_item.
  rewrite Hn, Hu, Hs. munfold.
  case_bool_decide; [done|]. cbn [hashable str_receiver].
  case_bool_decide; [done|]. by destruct (check_name fw ng cond name).
Qed.

Lemma process_item_skip v E r X fw ng cond it name url shop reason s :
  item_name it = Some (JStr name) → item_url it = Some (JScalar url) →
  shop_name_of it = Ok shop →
  check_item X (notified_set s) fw ng cond shop name (key_of url)
    = Skip reason →
  process_item v E r X fw ng cond it s
  = emit (EvSkipItem (JStr name) reason) s.
Proof.
  intros Hn Hu Hs Hd.
  rewrite (process_item_checked _ _ _ _ _ _ _ _ _ _ _ _ Hn Hu Hs).
  by rewrite Hd.
Qed.

(** The shop check comes first: it looks at neither the name nor the URL. *)
Lemma process_item_excluded v E r X fw ng cond it name url shop s :
  item_name it = Some name → item_url it = Some url →
  shop_name_of it = Ok shop → shop ∈ X →
  process_item v E r X fw ng cond it s
  = emit (EvSkipItem name ExcludedShop) s.
Proof.
  intros Hn%getitem_field Hu%getitem_field Hs Hin. unfold process_item.
  rewrite Hn, Hu, Hs. munfold. by rewrite bool_decide_eq_true_2.
Qed.

Lemma process_item_no_name v E r X fw ng cond members s :
  dict_get (PyStr.lit "name") members = None →
  process_item v E r X fw ng cond (JObject members) s
  = (Raise (KeyError (PyStr.lit "name")), s).
Proof.
  intros Hn%getitem_no_field. unfold process_item. by rewrite Hn.
Qed.

Lemma process_item_no_url v E r X fw ng cond members name s :
  dict_get (PyStr.lit "name") members = Some name →
  dict_get (PyStr.lit "url") members = None →
  process_item v E r X fw ng cond (JObject members) s
  = (Raise (KeyError (PyStr.lit "url")), s).
Proof.
  intros Hn Hu%getitem_no_field. unfold process_item. rewrite Hu.
  simpl. by rewrite Hn.
Qed.

Lemma process_row_all_single v E global index r s :
  original_keyword_of r ≠ [] →
  Forall (λ w, length w = 1) (words_of (original_keyword_of r)) →
  process_row v E global (index, r) s
  = emit (EvSkipRow index AllSingleCharacter) s.
Proof.
  intros Hne Hall. apply filtered_words_of_nil in Hall.
  unfold process_row, original_keyword_of in *. simpl.
  destruct (PyStr.strip _) as [|c kw]; [done|]. by rewrite Hall.
Qed.

Lemma process_row_empty_keyword v E global index r s :
  original_keyword_of r = [] →
  process_row v E global (index, r) s = emit (EvSkipRow index EmptyKeyword) s.
Proof.
  intros He. unfold process_row, original_keyword_of in *. simpl. by rewrite He.
Qed.

(** A row that reaches the search: the query, the price bounds, and the
    sets and the policy the item loop runs with. *)
Lemma process_row_searchable v E global index r :
  searchable r →
  process_row v E global (index, r)
  = (result ← search_yahoo_items v E (query_of r)
                 (optional_cell (lowest_price r))
                 (optional_cell (highest_price r));
     hits_loop
       (process_item v E r
          (all_excluded_shops v global (excluded_shops_of r))
          (filtered_words_of (original_keyword_of r)) (ng_keyword_of r)
          (notify_condition_of (product_conditions_of r)))
       result).
Proof.
  intros [Hkw Hfw].
  unfold process_row, query_of, hits_loop, ng_keyword_of, original_keyword_of
    in *.
  simpl. destruct (PyStr.strip _) as [|c kw]; [done|].
  destruct (filtered_words_of (c :: kw)); done.
Qed.

Lemma shop_name_of_missing members :
  dict_get (PyStr.lit "seller") members = None
  ∨ (∃ seller, dict_get (PyStr.lit "seller") members = Some (JObject seller)
               ∧ dict_get (PyStr.lit "name") seller = None) →
  shop_name_of (JObject members) = Ok (lower (PyStr.strip fumei)).
Proof.
  unfold shop_name_of. simpl.
  intros [->|(seller & -> & Hname)]; simpl; [done|]. by rewrite Hname.
Qed.

Lemma shop_name_of_with_seller_name sn members :
  shop_name_of (JObject (with_seller_name sn members))
  = Ok (lower (PyStr.strip sn)).
Proof. done. Qed.

Lemma with_seller_name_field key sn members :
  PyStr.lit key ≠ PyStr.lit "seller" →
  dict_get (PyStr.lit key) (with_seller_name sn members)
  = dict_get (PyStr.lit key) members.
Proof.
  intros Hne. unfold with_seller_name, dict_get at 1.
  cbn [List.find fst]. rewrite bool_decide_eq_false_2 by done.
  by apply dict_get_filter_ne.
Qed.

Lemma process_item_shop_name v E r X fw ng cond it it' :
  getitem "name" it = getitem "name" it' →
  getitem "url" it = getitem "url" it' →
  getitem "price" it = getitem "price" it' →
  shop_name_of it = shop_name_of it' →
  process_item v E r X fw ng cond it = process_item v E r X fw ng cond it'.
Proof.
  intros Hn Hu Hp Hs.
  unfold process_item, notify_item, formatted_price_of.
  by rewrite Hn, Hu, Hp, Hs.
Qed.

Lemma excluded_shops_of_NaN r : sellerIdExs r = NaN → excluded_shops_of r = [].
Proof.
  intros Hr. unfold excluded_shops_of. rewrite Hr. simpl.
  rewrite lower_ascii by done. done.
Qed.

Lemma excluded_shops_of_Val r field :
  sellerIdExs r = Val field →
  excluded_shops_of r
  = if bool_decide (lower (PyStr.strip field) = PyStr.lit "nan") then []
    else (λ shop, lower (PyStr.strip shop))
           <$> PyStr.split_on 44 (PyStr.strip_char 34 (PyStr.strip field)).
Proof.
  intros Hr. unfold excluded_shops_of. rewrite Hr. simpl.
  by repeat case_bool_decide.
Qed.

Lemma all_excluded_shops_union v global excluded :
  all_excluded_shops v global excluded
  = list_to_set (match v with Lambda1 => global | Lambda2 => [] end)
    ∪ list_to_set excluded.
Proof.
  destruct v; simpl.
  - apply list_to_set_app_L.
  - by rewrite (left_id_L ∅ (∪)).
Qed.

End Steps.

(** C1 (amended): a rule whose keyword has only one-character tokens is
    skipped before any search; for every item the checks run, first failure
    winning, in the order: excluded shop, already notified, negative keyword
    ([NegativeKeywordHit]), keyword tokens ([KeywordMismatch]), condition
    policy, notify.  The negative keyword is tested before the keyword
    tokens; the order of the specification gives the same notify-or-skip
    answer, with another reason when both of these checks fail.  The body
    of the item loop follows that decision on every hit whose name is a
    string and whose URL can be hashed. *)
Theorem C1_evaluation_order `{PyBuiltins} (v : variant) (E : env)
    (global : list pystr) (index : nat) (r : row) (X : gset pystr)
    (N : gset pykey) (fw : list pystr) (ng : option pystr)
    (cond : notify_condition) (it : json) (shop name : pystr) (url : pykey)
    (s : state) :
  let d := check_item X N fw ng cond shop name url in
  (∀ w, w ∈ filtered_words_of (original_keyword_of r)
        ↔ w ∈ words_of (original_keyword_of r) ∧ length w ≠ 1)
  ∧ (original_keyword_of r ≠ [] →
     Forall (λ w, length w = 1) (words_of (original_keyword_of r)) →
     process_row v E global (index, r) s
     = emit (EvSkipRow index AllSingleCharacter) s)
  ∧ (shop ∈ X → d = Skip ExcludedShop)
  ∧ (shop ∉ X → url ∈ N → d = Skip AlreadyNotified)
  ∧ (shop ∉ X → url ∉ N → ng_hit ng (lower name) = true →
     d = Skip NegativeKeywordHit)
  ∧ (shop ∉ X → url ∉ N → ng_hit ng (lower name) = false →
     all_words_present fw (lower name) = false → d = Skip KeywordMismatch)
  ∧ (shop ∉ X → url ∉ N → ng_hit ng (lower name) = false →
     all_words_present fw (lower name) = true → d = condition_check cond name)
  ∧ (d = Notify ↔ spec_evaluate X N fw ng cond shop name url = Notify)
  ∧ (∀ hit_url, item_name it = Some (JStr name) →
       item_url it = Some (JScalar hit_url) → shop_name_of it = Ok shop →
       process_item v E r X fw ng cond it s
       = match check_item X (notified_set s) fw ng cond shop name
                 (key_of hit_url) with
         | Skip reason => emit (EvSkipItem (JStr name) reason) s
         | Notify => notify_item v E r shop name hit_url it s
         end).
Proof.
  intros d. subst d. split_and!.
  - apply filtered_words_of_elem.
  - apply process_row_all_single.
  - apply check_item_excluded.
  - apply check_item_notified.
  - intros ? ? Hng. rewrite check_item_fresh by done. by rewrite Hng.
  - intros ? ? Hng Hw. rewrite check_item_fresh by done. by rewrite Hng, Hw.
  - intros ? ? Hng Hw. rewrite check_item_fresh by done. by rewrite Hng, Hw.
  - symmetry. apply spec_evaluate_Notify.
  - intros. by apply process_item_checked.
Qed.

(** C1 on the rule "foo bar" without "junk" and the hit "foo junk". *)
Lemma C1_evaluation_order_witness :
  check_item (H := ascii_builtins) ∅ ∅ [PyStr.lit "foo"; PyStr.lit "bar"]
    (Some (PyStr.lit "junk")) include_all (PyStr.lit "shopb")
    (PyStr.lit "foo junk") (KStr (PyStr.lit "https://example.test/1"))
  = Skip NegativeKeywordHit.
Proof.
  pose proof (C1_evaluation_order (H := ascii_builtins) Lambda1 silent_env []
                0 rule_foo_bar_no_junk ∅ ∅ [PyStr.lit "foo"; PyStr.lit "bar"]
                (Some (PyStr.lit "junk")) include_all hit_foo_junk
                (PyStr.lit "shopb") (PyStr.lit "foo junk")
                (KStr (PyStr.lit "https://example.test/1")) (initial_state ∅))
    as (_ & _ & _ & _ & Hng & _).
  apply Hng; [apply not_elem_of_empty..|reflexivity].
Defined.

(** C1 as stated fails: an item that lacks a keyword token and contains a
    negative token is skipped by the negative-keyword check, not with
    [KeywordMismatch]. *)
Lemma C1_counterexample :
  let fw := filtered_words_of (original_keyword_of rule_foo_bar_no_junk) in
  let name := PyStr.lit "foo junk" in
  let url := KStr (PyStr.lit "https://example.test/1") in
  let d := check_item (H := ascii_builtins) ∅ ∅ fw (Some (PyStr.lit "junk"))
             include_all (PyStr.lit "shopb") name url in
  all_words_present (H := ascii_builtins) fw (@lower ascii_builtins name) = false
  ∧ ng_hit (H := ascii_builtins) (Some (PyStr.lit "junk"))
      (@lower ascii_builtins name) = true
  ∧ d = Skip NegativeKeywordHit
  ∧ d ≠ Skip KeywordMismatch
  ∧ spec_evaluate (H := ascii_builtins) ∅ ∅ fw (Some (PyStr.lit "junk"))
      include_all (PyStr.lit "shopb") name url
    = Skip KeywordMismatch
  ∧ process_item (H := ascii_builtins) Lambda1 silent_env rule_foo_bar_no_junk
      ∅ fw (Some (PyStr.lit "junk")) include_all hit_foo_junk (initial_state ∅)
    = emit (EvSkipItem (JStr name) NegativeKeywordHit) (initial_state ∅).
Proof. split_and!; done. Qed.

Lemma check_item_ExcludedShop `{PyBuiltins} (X : gset pystr) (N : gset pykey)
    fw ng cond (shop name : pystr) (url : pykey) :
  check_item X N fw ng cond shop name url = Skip ExcludedShop ↔ shop ∈ X.
Proof.
  split; [|apply check_item_excluded].
  unfold check_item, check_name, condition_check.
  repeat case_bool_decide; try done.
  destruct (ng_hit _ _); [done|].
  destruct (all_words_present _ _); [|done].
  destruct cond; repeat case_match; done.
Qed.

(** C2 (amended): the list of condition tags of a rule, cut at '|' and
    stripped, decides the policy, and a tag written twice counts twice: the
    list that is the single tag 新品、未使用 excludes used items (an item is
    skipped exactly when its name contains 中古), a list of two or more tags
    that holds 新品、未使用 applies no condition check, and a list without
    新品、未使用 lets only used items pass (an item is skipped exactly when its
    name does not contain 中古).  The row loop hands that policy to the item
    loop, whose body follows the decision on every hit whose name is a
    string and whose URL can be hashed. *)
Theorem C2_condition_policy `{PyBuiltins} (v : variant) (E : env)
    (global : list pystr) (index : nat) (r : row) (X : gset pystr)
    (N : gset pykey) (fw : list pystr) (ng : option pystr)
    (it : json) (shop name : pystr) (url : pykey) (s : state) :
  let tags := product_conditions_of r in
  let policy := notify_condition_of tags in
  let d := check_item X N fw ng policy shop name url in
  tags = PyStr.strip
           <$> PyStr.split_on 124 (PyStr.strip (str_of_cell (product_condition r)))
  ∧ (tags = [shinpin_mishiyou] → policy = exclude_chuko)
  ∧ (shinpin_mishiyou ∈ tags → 2 ≤ length tags → policy = include_all)
  ∧ (shinpin_mishiyou ∈ tags → (∃ t, t ∈ tags ∧ t ≠ shinpin_mishiyou) →
     policy = include_all)
  ∧ (shinpin_mishiyou ∉ tags → policy = include_chuko_only)
  ∧ (shop ∉ X → url ∉ N → ng_hit ng (lower name) = false →
     all_words_present fw (lower name) = true →
     match policy with
     | exclude_chuko =>
         (d = Skip ContainsChuko ↔ PyStr.contains chuko name = true)
         ∧ (d = Notify ↔ PyStr.contains chuko name = false)
     | include_all => d = Notify
     | include_chuko_only =>
         (d = Skip LacksChuko ↔ PyStr.contains chuko name = false)
         ∧ (d = Notify ↔ PyStr.contains chuko name = true)
     end)
  ∧ (searchable r →
     process_row v E global (index, r)
     = (result ← search_yahoo_items v E (query_of r)
                    (optional_cell (lowest_price r))
                    (optional_cell (highest_price r));
        hits_loop
          (process_item v E r
             (all_excluded_shops v global (excluded_shops_of r))
             (filtered_words_of (original_keyword_of r)) (ng_keyword_of r)
             policy)
          result))
  ∧ (∀ hit_url, item_name it = Some (JStr name) →
       item_url it = Some (JScalar hit_url) → shop_name_of it = Ok shop →
       process_item v E r X fw ng policy it s
       = match check_item X (notified_set s) fw ng policy shop name
                 (key_of hit_url) with
         | Skip reason => emit (EvSkipItem (JStr name) reason) s
         | Notify => notify_item v E r shop name hit_url it s
         end).
Proof.
  intros tags policy d. subst policy d.
  assert (shinpin_mishiyou ∈ tags → 2 ≤ length tags →
          notify_condition_of tags = include_all) as Hall.
  { intros Hin Hlen. rewrite notify_condition_of_cases.
    rewrite decide_True by done. by rewrite decide_False by lia. }
  split_and!.
  - done.
  - intros ->. done.
  - done.
  - intros Hin (t & Ht & Hne). apply Hall; [done|].
    destruct tags as [|a [|b l]]; simpl; [by apply elem_of_nil in Hin| |lia].
    apply list_elem_of_singleton in Hin, Ht. congruence.
  - intros Hnin. rewrite notify_condition_of_cases. by rewrite decide_False.
  - intros ? ? Hng Hw. rewrite check_item_fresh by done. rewrite Hng, Hw.
    destruct (notify_condition_of tags); simpl; [|done|];
      destruct (PyStr.contains chuko name); simpl; split; split; done.
  - apply process_row_searchable.
  - intros. by apply process_item_checked.
Qed.

(** C2 on three rules: new only, new or used, used only. *)
Lemma C2_condition_policy_witness :
  notify_condition_of (product_conditions_of rule_foo_bar_new_only)
  = exclude_chuko
  ∧ notify_condition_of (product_conditions_of rule_foo_bar_no_junk)
    = include_all
  ∧ notify_condition_of (product_conditions_of rule_foo_bar_used_only)
    = include_chuko_only.
Proof.
  pose proof (λ r, C2_condition_policy (H := ascii_builtins) Lambda1 silent_env
                     [] 0 r ∅ ∅ [] None JNull [] [] KNone (initial_state ∅))
    as C2.
  split_and!.
  - destruct (C2 rule_foo_bar_new_only) as (_ & Hnew & _). apply Hnew.
    reflexivity.
  - destruct (C2 rule_foo_bar_no_junk) as (_ & _ & Hall & _). apply Hall.
    + apply list_elem_of_In. vm_compute. tauto.
    + vm_compute. repeat constructor.
  - destruct (C2 rule_foo_bar_used_only) as (_ & _ & _ & _ & Hused & _).
    apply Hused. intros Hin%list_elem_of_In. vm_compute in Hin.
    destruct Hin as [Heq|[]]. discriminate Heq.
Defined.

(** C2 as stated fails: the condition field 新品、未使用|新品、未使用 names the
    one tag 新品、未使用 and no other, yet its list has two entries, so no
    condition check is applied, and the used item of shopB is notified. *)
Lemma C2_counterexample :
  let tags := product_conditions_of rule_new_only_twice in
  let policy := notify_condition_of tags in
  let run :=
    (search_and_notify (H := ascii_builtins) Lambda1 env_two_hits
       [(0, rule_new_only_twice)] [] (initial_state ∅)).2 in
  (∀ t, t ∈ tags ↔ t = shinpin_mishiyou)
  ∧ policy = include_all
  ∧ policy ≠ exclude_chuko
  ∧ item_name hit_used_shopB
    = Some (JStr (PyStr.lit "foo bar " ++ chuko ++ PyStr.lit " item"))
  ∧ PyStr.contains chuko (PyStr.lit "foo bar " ++ chuko ++ PyStr.lit " item")
    = true
  ∧ success_urls (trace run)
    = [KStr (PyStr.lit "https://example.test/a");
       KStr (PyStr.lit "https://example.test/b")].
Proof.
  split_and!; try done.
  intros t. change (product_conditions_of rule_new_only_twice)
    with [shinpin_mishiyou; shinpin_mishiyou].
  rewrite !elem_of_cons, elem_of_nil. tauto.
Qed.

(** C4 (amended): Lambda1 looks a shop up in the union of the global list
    with the rule's own list, Lambda2 in the rule's own list only.  That
    list is empty for a missing field and for a field that, stripped and
    lower-cased, reads nan; it otherwise holds the comma-separated entries
    of the stripped, unquoted field, each stripped and lower-cased, the
    empty entry of a blank field included.  The row loop hands that set to
    the item loop, and an item whose stripped, lower-cased shop name is in
    it is skipped as [ExcludedShop], whatever its name and its URL, and
    nothing is sent for it. *)
Theorem C4_exclusion_set `{PyBuiltins} (v : variant) (E : env)
    (global : list pystr) (index : nat) (r : row) (N : gset pykey)
    (fw : list pystr) (ng : option pystr) (cond : notify_condition)
    (it : json) (shop name : pystr) (url : pykey) (s : state) :
  let excluded := all_excluded_shops v global (excluded_shops_of r) in
  excluded = list_to_set (match v with Lambda1 => global | Lambda2 => [] end)
             ∪ list_to_set (excluded_shops_of r)
  ∧ excluded_shops_of r
    = match sellerIdExs r with
      | NaN => []
      | Val field =>
          if bool_decide (lower (PyStr.strip field) = PyStr.lit "nan") then []
          else (λ shop, lower (PyStr.strip shop))
                 <$> PyStr.split_on 44 (PyStr.strip_char 34 (PyStr.strip field))
      end
  ∧ (shop ∈ excluded →
     check_item excluded N fw ng cond shop name url = Skip ExcludedShop)
  ∧ (searchable r →
     process_row v E global (index, r)
     = (result ← search_yahoo_items v E (query_of r)
                    (optional_cell (lowest_price r))
                    (optional_cell (highest_price r));
        hits_loop
          (process_item v E r excluded
             (filtered_words_of (original_keyword_of r)) (ng_keyword_of r)
             (notify_condition_of (product_conditions_of r)))
          result))
  ∧ (∀ hit_name hit_url, item_name it = Some hit_name →
       item_url it = Some hit_url → shop_name_of it = Ok shop →
       shop ∈ excluded →
       process_item v E r excluded fw ng cond it s
       = emit (EvSkipItem hit_name ExcludedShop) s).
Proof.
  intros excluded. subst excluded. split_and!.
  - apply all_excluded_shops_union.
  - destruct (sellerIdExs r) as [|field] eqn:Hr.
    + by apply excluded_shops_of_NaN.
    + by apply excluded_shops_of_Val.
  - apply check_item_excluded.
  - apply process_row_searchable.
  - intros. by eapply process_item_excluded.
Qed.

(** C4 on the rule that excludes ShopA and shopC and a hit sold by ShopA. *)
Lemma C4_exclusion_set_witness :
  process_item (H := ascii_builtins) Lambda1 silent_env rule_foo_bar_new_only
    (all_excluded_shops Lambda1 [PyStr.lit "shopz"]
       (excluded_shops_of (H := ascii_builtins) rule_foo_bar_new_only))
    [PyStr.lit "foo"; PyStr.lit "bar"] None exclude_chuko hit_shopA
    (initial_state ∅)
  = emit (EvSkipItem (JStr (PyStr.lit "Foo Bar deluxe")) ExcludedShop)
      (initial_state ∅).
Proof.
  pose proof (C4_exclusion_set (H := ascii_builtins) Lambda1 silent_env
                [PyStr.lit "shopz"] 0 rule_foo_bar_new_only ∅
                [PyStr.lit "foo"; PyStr.lit "bar"] None exclude_chuko hit_shopA
                (PyStr.lit "shopa") [] KNone (initial_state ∅))
    as (_ & _ & _ & _ & Hskip).
  apply (Hskip _ (JStr (PyStr.lit "https://example.test/a")));
    [reflexivity..|].
  apply (bool_decide_unpack _). vm_compute. exact I.
Defined.

(** C4 as stated fails.  The sheet excludes shopb, and Lambda1 skips the
    hit of shopB, while Lambda2, which serves the other row of the same
    configuration, notifies it.  The fields "NAN" and "  " do not give the
    entries the claim describes: the first gives no entry where the claim
    has nan, the second the empty name where the claim has none. *)
Lemma C4_counterexample :
  let run v :=
    (lambda_handler (H := ascii_builtins) v env_global_shopb 0
       (initial_state ∅)).2 in
  let entries field :=
    (λ shop, @lower ascii_builtins (PyStr.strip shop))
      <$> PyStr.split_on 44 (PyStr.strip_char 34 (PyStr.strip field)) in
  global_shops_answer env_global_shopb = [PyStr.lit "shopb"]
  ∧ shop_name_of (H := ascii_builtins) hit_used_shopB = Ok (PyStr.lit "shopb")
  ∧ success_urls (trace (run Lambda1)) = []
  ∧ success_urls (trace (run Lambda2))
    = [KStr (PyStr.lit "https://example.test/b")]
  ∧ entries (PyStr.lit "NAN") = [PyStr.lit "nan"]
  ∧ excluded_shops_of (H := ascii_builtins) rule_excluding_nan = []
  ∧ excluded_shops_of (H := ascii_builtins) rule_excluding_blank = [[]].
Proof. split_and!; by vm_compute. Qed.

(** The field ["ShopA, shopC"] gives the shops shopa and shopc. *)
Example excluded_shops_of_ex :
  excluded_shops_of (H := ascii_builtins) rule_foo_bar_new_only
  = [PyStr.lit "shopa"; PyStr.lit "shopc"].
Proof. reflexivity. Qed.

(** C10: a search hit without a seller object, or whose seller has no
    name, gets the shop name 不明, stripped and lower-cased; it is processed
    exactly as the same hit sold by a shop named 不明, and the shop check
    stops it exactly when that name is in the exclusion set. *)
Theorem C10_missing_seller `{PyBuiltins} (v : variant) (E : env) (r : row)
    (X : gset pystr) (N : gset pykey) (fw : list pystr) (ng : option pystr)
    (cond : notify_condition) (members : list (pystr * json))
    (name : pystr) (url : pykey) :
  let it := JObject members in
  item_seller it = None
  ∨ (∃ seller, item_seller it = Some (JObject seller)
               ∧ dict_get (PyStr.lit "name") seller = None) →
  shop_name_of it = Ok (lower (PyStr.strip fumei))
  ∧ PyStr.strip fumei = fumei
  ∧ process_item v E r X fw ng cond it
    = process_item v E r X fw ng cond (JObject (with_seller_name fumei members))
  ∧ (∀ shop, shop_name_of it = Ok shop →
       (check_item X N fw ng cond shop name url = Skip ExcludedShop
        ↔ lower (PyStr.strip fumei) ∈ X)).
Proof.
  intros it Hseller. subst it.
  pose proof (shop_name_of_missing members Hseller) as Hshop.
  split_and!; [done..| |].
  - apply process_item_shop_name.
    + unfold getitem. by rewrite (with_seller_name_field "name").
    + unfold getitem. by rewrite (with_seller_name_field "url").
    + unfold getitem. by rewrite (with_seller_name_field "price").
    + by rewrite shop_name_of_with_seller_name.
  - intros shop Hs. rewrite Hshop in Hs. injection Hs as <-.
    apply check_item_ExcludedShop.
Qed.

(** C10 on a hit without a seller object. *)
Lemma C10_missing_seller_witness :
  shop_name_of (H := ascii_builtins) hit_no_seller = Ok fumei
  ∧ process_item (H := ascii_builtins) Lambda1 silent_env rule_foo_bar_new_only
      ∅ [PyStr.lit "foo"; PyStr.lit "bar"] None exclude_chuko hit_no_seller
    = process_item (H := ascii_builtins) Lambda1 silent_env
        rule_foo_bar_new_only ∅ [PyStr.lit "foo"; PyStr.lit "bar"] None
        exclude_chuko
        (JObject
           (with_seller_name fumei
              [(PyStr.lit "name", JStr (PyStr.lit "foo bar plain"));
               (PyStr.lit "url", JStr (PyStr.lit "https://example.test/c"));
               (PyStr.lit "price", JInt 1200)])).
Proof.
  destruct (C10_missing_seller (H := ascii_builtins) Lambda1 silent_env
              rule_foo_bar_new_only ∅ ∅ [PyStr.lit "foo"; PyStr.lit "bar"]
              None exclude_chuko
              [(PyStr.lit "name", JStr (PyStr.lit "foo bar plain"));
               (PyStr.lit "url", JStr (PyStr.lit "https://example.test/c"));
               (PyStr.lit "price", JInt 1200)] [] KNone (or_introl eq_refl))
    as (Hshop & _ & Hsame & _).
  split; [exact Hshop|exact Hsame].
Defined.

(** ** What a batch does to the ledger and to the trace *)

Lemma success_urls_app new1 new2 :
  success_urls (new1 ++ new2) = success_urls new1 ++ success_urls new2.
Proof. apply omap_app. Qed.

Lemma success_urls_elem url new :
  url ∈ success_urls new ↔ EvNotify url true ∈ new.
Proof.
  unfold success_urls. rewrite list_elem_of_omap. split.
  - intros (e & He & Hu). destruct e as [| | | | |u [|]|]; simplify_eq/=. done.
  - intros He. by exists (EvNotify url true).
Qed.

Lemma success_urls_none new :
  Forall (λ e, ∀ url, e ≠ EvNotify url true) new → success_urls new = [].
Proof.
  induction 1 as [|e new He _ IH]; [done|].
  destruct e as [| | | | |u [|]|]; try exact IH. by destruct (He u).
Qed.

Lemma event_fresh_mono `{PyBuiltins} (X Y : gset pykey) e :
  X ⊆ Y → event_fresh Y e → event_fresh X e.
Proof.
  intros HXY. destruct e; simpl; try done.
  - intros (shop & name & price & url & label & -> & Hu).
    exists shop, name, price, url, label. set_solver.
  - set_solver.
Qed.

Lemma events_since_app s s' new :
  trace s' = trace s ++ new → events_since s s' = new.
Proof. intros Ht. unfold events_since. rewrite Ht. apply drop_app_length. Qed.

Section BatchStep.
Context `{PyBuiltins} (v : variant).

Lemma batch_step_refl s : batch_step v [] s s.
Proof.
  split; simpl; try done.
  - by rewrite app_nil_r.
  - by rewrite (left_id_L ∅ (∪)).
  - destruct v; by rewrite app_nil_r.
  - constructor.
Qed.

Lemma batch_step_trans new1 new2 s1 s2 s3 :
  batch_step v new1 s1 s2 → batch_step v new2 s2 s3 →
  batch_step v (new1 ++ new2) s1 s3.
Proof.
  intros [Ht1 Hn1 Hu1 Hs1 Hf1 Hd1 ? ?] [Ht2 Hn2 Hu2 Hs2 Hf2 Hd2 ? ?].
  split; try lia.
  - rewrite Ht2, Ht1. by rewrite app_assoc.
  - rewrite Hn2, Hn1, success_urls_app, list_to_set_app_L. set_solver.
  - rewrite Hu2, Hu1, success_urls_app. destruct v; by rewrite <-?app_assoc.
  - congruence.
  - apply Forall_app. split; [done|].
    eapply Forall_impl; [done|]. intros e. apply event_fresh_mono.
    rewrite Hn1. set_solver.
  - rewrite success_urls_app. apply NoDup_app. split_and!; [done| |done].
    intros url Hin1 Hin2. apply success_urls_elem in Hin2.
    rewrite Forall_forall in Hf2. specialize (Hf2 _ Hin2). simpl in Hf2.
    apply Hf2. rewrite Hn1. set_solver.
Qed.

Lemma batch_step_io (P : event → Prop) s s' :
  io_only P s s' →
  (∀ e, P e → event_fresh (notified_set s) e ∧ ∀ url, e ≠ EvNotify url true) →
  ∃ new, batch_step v new s s'.
Proof.
  intros [Hn Hu Hs ? ? (new & Ht & HP)] Hev. exists new.
  assert (success_urls new = []) as Hnone.
  { apply success_urls_none. eapply Forall_impl; [done|]. intros e He.
    by apply Hev. }
  split; try done.
  - rewrite Hnone, Hn. simpl. by rewrite (left_id_L ∅ (∪)).
  - rewrite Hnone, Hu. destruct v; by rewrite app_nil_r.
  - eapply Forall_impl; [done|]. intros e He. by apply Hev.
  - rewrite Hnone. constructor.
Qed.

Lemma batch_step_emit e s :
  event_fresh (notified_set s) e → (∀ url, e ≠ EvNotify url true) →
  batch_step v [e] s (emit e s).2.
Proof.
  intros Hf Hne.
  assert (success_urls [e] = []) as Hnone.
  { apply success_urls_none. by repeat constructor. }
  split; rewrite ?Hnone; try done.
  - simpl. by rewrite (left_id_L ∅ (∪)).
  - simpl. destruct v; by rewrite app_nil_r.
  - by repeat constructor.
  - constructor.
Qed.

Lemma batch_step_for_each {A} (f : A → M unit) (l : list A) :
  (∀ x s, ∃ new, batch_step v new s (f x s).2) →
  ∀ s, ∃ new, batch_step v new s (for_each f l s).2.
Proof.
  intros Hf. induction l as [|x l IH]; intros s; simpl.
  { exists []. apply batch_step_refl. }
  rewrite run_bind. destruct (Hf x s) as (new1 & H1).
  destruct (f x s) as [[[]|e] s1]; [|by exists new1].
  destruct (IH s1) as (new2 & H2). exists (new1 ++ new2).
  by eapply batch_step_trans.
Qed.

End BatchStep.

Section BatchRuns.
Context `{PyBuiltins}.
Implicit Types (X : gset pystr) (fw : list pystr) (ng : option pystr).

Lemma add_notified_batch_step v (url : pykey) success s :
  url ∉ notified_set s →
  let m := (if success : bool then add_notified v url else mret ()) ;;
           emit (EvNotify url success) ;; sleep 1 in
  (m s).1 = Ok ()
  ∧ batch_step v [EvNotify url success; EvSleep 1] s (m s).2.
Proof.
  intros Hfresh m. subst m. munfold.
  destruct success, v; cbn -[sleep]; rewrite sleep_constant by lia;
    (split; [done|]); split; simpl; try done;
    rewrite ?app_nil_r, ?(left_id_L ∅ (∪)), ?(right_id_L ∅ (∪)); try done;
    try (by repeat constructor); try (by rewrite <-app_assoc);
    try (apply NoDup_singleton); try constructor.
Qed.

Lemma notify_item_batch_step v E r shop name url it s :
  key_of url ∉ notified_set s →
  ∃ new, batch_step v new s (notify_item v E r shop name url it s).2.
Proof.
  intros Hfresh. unfold notify_item. munfold.
  destruct (formatted_price_of it) as [price|e];
    [|exists []; apply batch_step_refl].
  set (message := message_of _ _ _ _ _).
  pose proof (io_send_attempts E message 3 s) as Hio.
  unfold send_chatwork_notification.
  destruct (send_attempts E message 3 s) as [[success|e] s1]; simpl in Hio.
  2:{ eapply batch_step_io; [done|]. intros e' [->|[z ->]]; simpl; [|done].
      split; [|done]. by eexists _, _, _, _, _. }
  destruct (batch_step_io v _ _ _ Hio) as (new1 & H1).
  { intros e' [->|[z ->]]; simpl; [|done].
    split; [|done]. by eexists _, _, _, _, _. }
  destruct (add_notified_batch_step v (key_of url) success s1) as (Hok & H2).
  { by rewrite (io_notified_set _ _ _ Hio). }
  exists (new1 ++ [EvNotify (key_of url) success; EvSleep 1]).
  eapply batch_step_trans; [done|].
  revert Hok H2. munfold.
  destruct ((if success then add_notified v (key_of url) else _) s1)
    as [[[]|e] s2]; simpl; [|done]. done.
Qed.

Lemma process_item_batch_step v E r X fw ng cond it s :
  ∃ new, batch_step v new s (process_item v E r X fw ng cond it s).2.
Proof.
  unfold process_item. munfold.
  destruct (getitem "name" it) as [name_value|e];
    [|exists []; apply batch_step_refl].
  destruct (getitem "url" it) as [url_value|e];
    [|exists []; apply batch_step_refl].
  destruct (shop_name_of it) as [shop|e]; [|exists []; apply batch_step_refl].
  case_bool_decide.
  { eexists. apply batch_step_emit; simpl; done. }
  destruct (hashable url_value) as [url|e]; [|exists []; apply batch_step_refl].
  case_bool_decide.
  { eexists. apply batch_step_emit; simpl; done. }
  destruct (str_receiver name_value) as [name|e];
    [|exists []; apply batch_step_refl].
  destruct (check_name fw ng cond name).
  { eexists. apply batch_step_emit; simpl; done. }
  by apply notify_item_batch_step.
Qed.

Lemma hits_loop_batch_step v (f : json → M unit) result :
  (∀ x s, ∃ new, batch_step v new s (f x s).2) →
  ∀ s, ∃ new, batch_step v new s (hits_loop f result s).2.
Proof.
  intros Hf s. unfold hits_loop, item_loop. munfold.
  destruct (truthy result); [|exists []; apply batch_step_refl].
  destruct (get_method "hits" (JArray []) result) as [items|e];
    [|exists []; apply batch_step_refl].
  destruct (truthy items); [|exists []; apply batch_step_refl].
  destruct items as [u|items|members]; try (exists []; apply batch_step_refl).
  by apply batch_step_for_each.
Qed.

Lemma process_row_batch_step v E global indexed_row s :
  ∃ new, batch_step v new s (process_row v E global indexed_row s).2.
Proof.
  unfold process_row.
  destruct (PyStr.strip _) as [|c kw].
  { eexists. by apply batch_step_emit. }
  destruct (filtered_words_of _) as [|w ws].
  { eexists. by apply batch_step_emit. }
  rewrite run_bind. unfold search_yahoo_items.
  match goal with
  | |- context [search_attempts v E ?q ?lo ?hi 3 s] =>
      pose proof (io_search_attempts v E q lo hi 3 s) as Hio;
      destruct (search_attempts v E q lo hi 3 s) as [[result|e] s1]
  end; simpl in Hio.
  2:{ eapply batch_step_io; [done|].
      intros e' [(in_stock & q & lo & hi & ->)|[z ->]]; done. }
  destruct (batch_step_io v _ _ _ Hio) as (new1 & H1).
  { intros e' [(in_stock & q & lo & hi & ->)|[z ->]]; done. }
  match goal with
  | |- context [item_loop ?f] =>
      destruct (hits_loop_batch_step v f result
                  (process_item_batch_step v E _ _ _ _ _) s1) as (new2 & H2)
  end.
  exists (new1 ++ new2). eapply batch_step_trans; [done|]. exact H2.
Qed.

Lemma row_loop_batch_step v E global config_data s :
  ∃ new, batch_step v new s
           (for_each (process_row v E global) config_data s).2.
Proof. apply batch_step_for_each, process_row_batch_step. Qed.

Lemma save_to_dynamodb_state E urls s :
  let r := save_to_dynamodb E urls s in
  r.1 = Ok ()
  ∧ notified_set r.2 = notified_set s
  ∧ trace r.2 = trace s
  ∧ ledger_store s ⊆ ledger_store r.2
  ∧ ledger_store r.2 ⊆ ledger_store s ∪ list_to_set urls.
Proof.
  intros r. subst r. unfold save_to_dynamodb.
  destruct urls as [|u us]; [split_and!; try done; set_solver|].
  munfold. unfold set_ledger_store. cbn [fst snd notified_set trace ledger_store].
  split_and!; try done; [set_solver|].
  intros x. rewrite !elem_of_union, !elem_of_list_to_set.
  intros [Hx|Hx]; [right|by left].
  destruct (ledger_save_answer E); [|done].
  apply list_elem_of_In in Hx. apply filter_In in Hx as [Hx _].
  by apply list_elem_of_In.
Qed.

Lemma search_and_notify_run v E config_data global s :
  let r := search_and_notify v E config_data global s in
  ∃ new,
    trace r.2 = trace s ++ new
    ∧ notified_set r.2 = list_to_set (success_urls new) ∪ notified_set s
    ∧ Forall (event_fresh (notified_set s)) new
    ∧ NoDup (success_urls new)
    ∧ ledger_store s ⊆ ledger_store r.2
    ∧ ledger_store r.2 ⊆ ledger_store s ∪ list_to_set (success_urls new)
    ∧ (v = Lambda2 → ledger_store r.2 = ledger_store s)
    ∧ (∀ Y, r.1 = Ok Y → Y = notified_set r.2).
Proof.
  intros r. subst r. unfold search_and_notify. destruct v.
  - set (s0 := {| notified_set := notified_set s; new_notified_urls := [];
                  ledger_store := ledger_store s; gets := gets s;
                  posts := posts s; trace := trace s |}).
    change (when_variant Lambda1 Lambda1 (set_new_notified_urls []) ;;
            for_each (process_row Lambda1 E global) config_data ;;
            when_variant Lambda1 Lambda1
              (s' ← get_state; save_to_dynamodb E (new_notified_urls s')) ;;
            s' ← get_state; mret (notified_set s'))
      with (λ s, (for_each (process_row Lambda1 E global) config_data ;;
                  (s' ← get_state; save_to_dynamodb E (new_notified_urls s')) ;;
                  s' ← get_state; mret (notified_set s'))
                   (set_new_notified_urls [] s).2).
    cbv beta. change (set_new_notified_urls [] s).2 with s0.
    rewrite run_bind.
    destruct (row_loop_batch_step Lambda1 E global config_data s0)
      as (new & [Ht Hn Hu Hs Hf Hd _ _]).
    change (trace s0) with (trace s) in Ht.
    change (notified_set s0) with (notified_set s) in Hn, Hf.
    change (new_notified_urls s0) with (@nil pykey) in Hu.
    change (ledger_store s0) with (ledger_store s) in Hs.
    rewrite app_nil_l in Hu.
    exists new.
    destruct (for_each _ config_data s0) as [[[]|e] s1]; cbn [fst snd] in *.
    2:{ rewrite Hs. split_and!; [done..| | | |]; [done|set_solver|done|done]. }
    rewrite run_bind. munfold.
    pose proof (save_to_dynamodb_state E (new_notified_urls s1) s1)
      as (Hok & Hn' & Ht' & Hsub & Hsup).
    destruct (save_to_dynamodb E (new_notified_urls s1) s1) as [[[]|e] s2];
      cbn [fst snd] in *; [|done].
    rewrite Hu in Hsup. rewrite Hs in Hsub, Hsup.
    split_and!.
    + congruence.
    + congruence.
    + done.
    + done.
    + done.
    + done.
    + done.
    + by intros Y [= <-].
  - change (when_variant Lambda2 Lambda1 (set_new_notified_urls []) ;;
            for_each (process_row Lambda2 E global) config_data ;;
            when_variant Lambda2 Lambda1
              (s' ← get_state; save_to_dynamodb E (new_notified_urls s')) ;;
            s' ← get_state; mret (notified_set s'))
      with (for_each (process_row Lambda2 E global) config_data ;;
            (mret () ;; s' ← get_state; mret (notified_set s'))).
    rewrite run_bind.
    destruct (row_loop_batch_step Lambda2 E global config_data s)
      as (new & [Ht Hn Hu Hs Hf Hd _ _]).
    exists new.
    destruct (for_each _ config_data s) as [[[]|e] s1]; munfold; cbn [fst snd] in *;
      rewrite Hs; (split_and!; [done..| | | |]); try done; set_solver.
Qed.

End BatchRuns.

(** ** The handler, unfolded *)

Section Handler.
Context `{PyBuiltins}.

Lemma lambda_handler_no_config v E current_batch s :
  config_answer E = None →
  lambda_handler v E current_batch s = (Ok {| statusCode := 500 |}, s).
Proof. intros Hc. unfold lambda_handler. by rewrite Hc. Qed.

Lemma lambda_handler_run v E current_batch s rows :
  config_answer E = Some rows → BATCH_SIZE E ≠ 0%Z →
  let config_data := partition_filter v (read_csv rows) in
  let total_batches :=
    total_batches_of (Z.of_nat (length config_data)) (BATCH_SIZE E) in
  let batch_data := batch_data_of current_batch (BATCH_SIZE E) config_data in
  let loaded := match ledger_load_answer E with
                | LoadOk => ledger_store s
                | LoadNotFound | LoadError => ∅
                end in
  let rB := search_and_notify v E batch_data
              (match v with Lambda1 => global_shops_answer E | Lambda2 => [] end)
              (set_notified loaded s).2 in
  lambda_handler v E current_batch s
  = match rB.1 with
    | Raise e => (Raise e, rB.2)
    | Ok updated =>
        let sC := match v with
                  | Lambda1 => rB.2
                  | Lambda2 => (save_notified_list E updated rB.2).2
                  end in
        if (current_batch + 1 <? total_batches)%Z
        then (Ok {| statusCode := if invoke_answer E then 200 else 500 |},
              record_events [EvInvoke (current_batch + 1)] sC)
        else (Ok {| statusCode := 200 |}, sC)
    end.
Proof.
  intros Hc Hb. cbv zeta. unfold lambda_handler. rewrite Hc.
  rewrite (proj2 (Z.eqb_neq _ _) Hb).
  unfold load_notified_list, set_notified. munfold. cbn [fst snd].
  destruct (search_and_notify _ _ _ _ _) as [[updated|e] sB]; cbn [fst snd];
    [|done].
  destruct v; cbn [when_variant]; munfold.
  - destruct (_ <? _)%Z; [|done]. by destruct (invoke_answer E).
  - unfold save_notified_list.
    destruct (ledger_save_answer E); munfold; cbn [fst snd];
      (destruct (_ <? _)%Z; [|done]); by destruct (invoke_answer E).
Qed.

End Handler.





(** The two end-to-end scenarios of the specification.  The rule
    "foo bar", new only, shopA excluded: the hit of shopA is skipped as
    excluded, the used hit of shopB by the 中古 test; nothing is sent. *)
Example scenario_new_only :
  let r := search_and_notify (H := ascii_builtins) Lambda1 env_two_hits
             [(0, rule_foo_bar_new_only)] [] (initial_state ∅) in
  r.1 = Ok ∅
  ∧ posts r.2 = 0
  ∧ trace r.2
    = [EvGet true (PyStr.lit "foo bar") (Some (PyStr.lit "1000"))
             (Some (PyStr.lit "5000"));
       EvSleep 1;
       EvSkipItem (JStr (PyStr.lit "Foo Bar deluxe")) ExcludedShop;
       EvSkipItem (JStr (PyStr.lit "foo bar " ++ chuko ++ PyStr.lit " item"))
                  ContainsChuko].
Proof. cbv zeta. split_and!; vm_compute; reflexivity. Qed.

(** The same hits under a rule without 新品、未使用: the used hit of shopB is
    notified once and its URL goes to the ledger. *)
Example scenario_used_only :
  let r := search_and_notify (H := ascii_builtins) Lambda1 env_two_hits
             [(0, rule_foo_bar_used_only)] [] (initial_state ∅) in
  r.1 = Ok {[KStr (PyStr.lit "https://example.test/b")]}
  ∧ posts r.2 = 1
  ∧ success_urls (trace r.2) = [KStr (PyStr.lit "https://example.test/b")]
  ∧ ledger_store r.2 = {[KStr (PyStr.lit "https://example.test/b")]}.
Proof. cbv zeta. split_and!; vm_compute; reflexivity. Qed.

(** C3: an item whose URL is in the ledger is never notified: the check
    chain skips it, as [AlreadyNotified] unless its shop is excluded.  A
    batch only notifies, and only POSTs for, URLs outside the ledger it
    started from, adds every accepted URL to the ledger, and accepts no URL
    twice; so a run started from a ledger that contains the one a previous
    run produced notifies none of the URLs of that ledger. *)
Theorem C3_no_renotification `{PyBuiltins} (v : variant) (E E' : env)
    (global global' : list pystr) (batch batch' : DataFrame)
    (X : gset pystr) (N : gset pykey) (fw : list pystr) (ng : option pystr)
    (cond : notify_condition) (shop name : pystr) (url : pykey)
    (s s' : state) :
  let s1 := (search_and_notify v E batch global s).2 in
  let new1 := events_since s s1 in
  let s2 := (search_and_notify v E' batch' global' s').2 in
  let new2 := events_since s' s2 in
  (url ∈ N → check_item X N fw ng cond shop name url ≠ Notify)
  ∧ (url ∈ N → shop ∉ X →
     check_item X N fw ng cond shop name url = Skip AlreadyNotified)
  ∧ trace s1 = trace s ++ new1
  ∧ notified_set s1 = list_to_set (success_urls new1) ∪ notified_set s
  ∧ Forall (event_fresh (notified_set s)) new1
  ∧ NoDup (success_urls new1)
  ∧ (notified_set s1 ⊆ notified_set s' →
     Forall (event_fresh (notified_set s1)) new2
     ∧ ∀ u success, u ∈ notified_set s ∨ u ∈ success_urls new1 →
                    EvNotify u success ∉ new2).
Proof.
  intros s1 new1 s2 new2.
  destruct (search_and_notify_run v E batch global s)
    as (n1 & Ht1 & Hn1 & Hf1 & Hd1 & _).
  destruct (search_and_notify_run v E' batch' global' s')
    as (n2 & Ht2 & Hn2 & Hf2 & Hd2 & _).
  fold s1 in Ht1, Hn1. fold s2 in Ht2, Hn2.
  assert (new1 = n1) as -> by by apply events_since_app.
  assert (new2 = n2) as -> by by apply events_since_app.
  split_and!; try done.
  - intros Hin Hd. apply check_item_Notify in Hd as (_ & Hnin & _). done.
  - intros. by apply check_item_notified.
  - intros Hsub.
    assert (Forall (event_fresh (notified_set s1)) n2) as Hf.
    { eapply Forall_impl; [exact Hf2|]. intros e. by apply event_fresh_mono. }
    split; [done|]. intros u success Hu Hin.
    rewrite Forall_forall in Hf. apply (Hf _ Hin). rewrite Hn1.
    rewrite elem_of_union, elem_of_list_to_set. tauto.
Qed.

(** C3 on two runs of the used-only rule, the second from the state the
    first one left. *)
Lemma C3_no_renotification_witness :
  let run (s : state) :=
    (search_and_notify (H := ascii_builtins) Lambda1 env_two_hits
       [(0, rule_foo_bar_used_only)] [] s).2 in
  let s1 := run (initial_state ∅) in
  (EvNotify (KStr (PyStr.lit "https://example.test/b")) true
   ∉ events_since s1 (run s1))
  ∧ (EvNotify (KStr (PyStr.lit "https://example.test/b")) false
     ∉ events_since s1 (run s1)).
Proof.
  intros run s1.
  destruct (C3_no_renotification (H := ascii_builtins) Lambda1 env_two_hits
              env_two_hits [] [] [(0, rule_foo_bar_used_only)]
              [(0, rule_foo_bar_used_only)] ∅ ∅ [] None include_all [] []
              KNone (initial_state ∅) s1)
    as (_ & _ & _ & _ & _ & _ & Hrerun).
  destruct Hrerun as [_ Hrerun]; [reflexivity|].
  split; apply Hrerun; right; apply list_elem_of_In; vm_compute; tauto.
Defined.

(** ** Runs that do not raise *)

Section NoRaise.
Context `{PyBuiltins}.













Lemma search_and_notify_unfold v E config_data global s :
  search_and_notify v E config_data global s
  = match for_each (process_row v E global) config_data
            (when_variant v Lambda1 (set_new_notified_urls []) s).2 with
    | (Raise e, s1) => (Raise e, s1)
    | (Ok _, s1) =>
        let s2 := match v with
                  | Lambda1 => (save_to_dynamodb E (new_notified_urls s1) s1).2
                  | Lambda2 => s1
                  end in
        (Ok (notified_set s2), s2)
    end.
Proof.
  unfold search_and_notify. destruct v; cbn [when_variant]; munfold.
  - unfold set_new_notified_urls at 1. cbn [fst snd].
    destruct (for_each _ _ _) as [[[]|e] s1]; [|done].
    pose proof (save_to_dynamodb_state E (new_notified_urls s1) s1) as (Hok & _).
    by destruct (save_to_dynamodb E _ s1) as [[[]|e] s2].
  - by destruct (for_each _ _ _) as [[[]|e] s1].
Qed.



End NoRaise.

(** ** Every row of a batch that does not raise is searched *)

Section Visits.
Context `{PyBuiltins}.






End Visits.





(** Hits the item loop cannot process: a price that is null, a seller
    that is null, a seller whose name is a number, a name that is null, and
    a URL that is a list.  Each raises out of the item loop; a float price
    does not, and is cut to its integer part. *)
Example process_item_raises :
  let run it :=
    (process_item (H := ascii_builtins) Lambda1 env_two_hits
       rule_used_only_any_shop ∅ [PyStr.lit "foo"; PyStr.lit "bar"] None
       include_all it (initial_state ∅)).1 in
  run (hit_priced JNull []) = Raise TypeError
  ∧ run (hit_priced (JInt 1200) [(PyStr.lit "seller", JNull)])
    = Raise AttributeError
  ∧ run (hit_priced (JInt 1200)
           [(PyStr.lit "seller", JObject [(PyStr.lit "name", JInt 7)])])
    = Raise AttributeError
  ∧ run (JObject [(PyStr.lit "name", JNull);
                  (PyStr.lit "url", JStr (PyStr.lit "https://example.test/p"));
                  (PyStr.lit "price", JInt 1200)])
    = Raise AttributeError
  ∧ run (JObject [(PyStr.lit "name", JStr (PyStr.lit "foo bar"));
                  (PyStr.lit "url", JArray []);
                  (PyStr.lit "price", JInt 1200)])
    = Raise TypeError
  ∧ run (hit_priced (JScalar (SFloat (FFinite 25 2))) []) = Ok ().
Proof. cbv zeta. split_and!; vm_compute; reflexivity. Qed.

(** ** The ledger in the backing store *)

(** Lambda1 only ever adds the URLs it has just notified to the table. *)
Lemma dynamodb_ledger_only_grows `{PyBuiltins} (E : env) (current_batch : Z)
    (s : state) :
  let r := lambda_handler Lambda1 E current_batch s in
  ledger_store s ⊆ ledger_store r.2
  ∧ ledger_store r.2
    ⊆ ledger_store s ∪ list_to_set (success_urls (events_since s r.2)).
Proof.
  intros r. subst r.
  destruct (config_answer E) as [rows|] eqn:Hc.
  2:{ rewrite lambda_handler_no_config by done. set_solver. }
  destruct (decide (BATCH_SIZE E = 0%Z)) as [Hb|Hb].
  { unfold lambda_handler. rewrite Hc, Hb. simpl. set_solver. }
  rewrite (lambda_handler_run Lambda1 E _ s rows Hc Hb). cbv zeta.
  match goal with
  | |- context [search_and_notify Lambda1 E ?b ?g ?s0] =>
      destruct (search_and_notify_run Lambda1 E b g s0)
        as (new & Ht & _ & _ & _ & Hsub & Hsup & _);
      destruct (search_and_notify Lambda1 E b g s0) as [[updated|e] sB]
  end; cbn [fst snd] in *.
  - destruct (_ <? _)%Z; cbn [fst snd].
    + rewrite (events_since_app s _ (new ++ [EvInvoke (current_batch + 1)])).
      * rewrite success_urls_app. simpl. by rewrite app_nil_r.
      * simpl. by rewrite Ht, app_assoc.
    + by rewrite (events_since_app s _ new).
  - by rewrite (events_since_app s _ new).
Qed.

(** Lambda2 keeps the stored URLs when reading the ledger succeeds. *)
Lemma s3_ledger_grows_when_loaded `{PyBuiltins} (E : env) (current_batch : Z)
    (s : state) :
  ledger_load_answer E = LoadOk →
  ledger_store s ⊆ ledger_store (lambda_handler Lambda2 E current_batch s).2.
Proof.
  intros Hload.
  destruct (config_answer E) as [rows|] eqn:Hc.
  2:{ by rewrite lambda_handler_no_config. }
  destruct (decide (BATCH_SIZE E = 0%Z)) as [Hb|Hb].
  { unfold lambda_handler. rewrite Hc, Hb. done. }
  rewrite (lambda_handler_run Lambda2 E _ s rows Hc Hb). cbv zeta.
  rewrite Hload.
  match goal with
  | |- context [search_and_notify Lambda2 E ?b ?g ?s0] =>
      destruct (search_and_notify_run Lambda2 E b g s0)
        as (new & _ & Hn & _ & _ & _ & _ & Hstore & Hres);
      destruct (search_and_notify Lambda2 E b g s0) as [[updated|e] sB]
  end; cbn [fst snd] in *; specialize (Hstore eq_refl).
  - rewrite (Hres _ eq_refl).
    assert (ledger_store s
            ⊆ ledger_store (save_notified_list E (notified_set sB) sB).2).
    { unfold save_notified_list. destruct (ledger_save_answer E); simpl.
      - by rewrite Hstore.
      - rewrite Hn. set_solver. }
    by destruct (_ <? _)%Z.
  - by rewrite Hstore.
Qed.

(** C7 fails in Lambda2: when reading notifiedlist.csv raises anything but
    [NoSuchKey], [load_notified_list] answers the empty set and
    [save_notified_list] then replaces the stored object by what the batch
    holds; a URL stored before the batch is gone after it. *)
Theorem C7_s3_ledger_wiped :
  let s := initial_state {[old_url]} in
  let r := lambda_handler (H := ascii_builtins) Lambda2 env_load_error 0 s in
  r.1 = Ok {| statusCode := 200 |}
  ∧ old_url ∈ ledger_store s
  ∧ (old_url ∉ ledger_store r.2)
  ∧ ledger_store r.2 = ∅
  ∧ success_urls (trace r.2) = [].
Proof.
  cbv zeta. assert (ledger_store
    (lambda_handler (H := ascii_builtins) Lambda2 env_load_error 0
       (initial_state {[old_url]})).2 = ∅) as Hempty by (vm_compute; reflexivity).
  split_and!.
  - vm_compute. reflexivity.
  - simpl. set_solver.
  - rewrite Hempty. apply not_elem_of_empty.
  - exact Hempty.
  - vm_compute. reflexivity.
Qed.

(** A field of blanks is read as a string, not as a missing value: it is
    not the literal nan, and gives the one shop name of length 0. *)
Example excluded_shops_of_blank :
  excluded_shops_of (H := ascii_builtins) rule_excluding_blank = [[]].
Proof. reflexivity. Qed.

(** The first batch of three rules, one row per batch, under Lambda1: the
    rule at position 0 is searched three times without an answer, and the
    batch of index 1 is triggered. *)
Example lambda_handler_first_batch :
  let r := lambda_handler (H := ascii_builtins) Lambda1 env_three_rules 0
             (initial_state ∅) in
  r.1 = Ok {| statusCode := 200 |}
  ∧ gets r.2 = 3
  ∧ last (trace r.2) = Some (EvInvoke 1).
Proof. cbv zeta. split_and!; vm_compute; reflexivity. Qed.

(** The last batch triggers nothing. *)
Example lambda_handler_last_batch :
  let r := lambda_handler (H := ascii_builtins) Lambda1 env_three_rules 1
             (initial_state ∅) in
  r.1 = Ok {| statusCode := 200 |}
  ∧ last (trace r.2) = Some (EvSleep 2).
Proof. cbv zeta. split_and!; vm_compute; reflexivity. Qed.

(** * Further properties of the code *)

(** ** The search client *)

Section Search.
Context `{PyBuiltins}.

Lemma sleep_run z s :
  (0 ≤ z ≤ 5)%Z →
  ∃ s1, sleep z s = (Ok (), s1) ∧ gets s1 = gets s ∧ posts s1 = posts s.
Proof. intros. rewrite sleep_constant by done. by eexists. Qed.

Lemma when_variant_sleep_run v v' s :
  ∃ s1, when_variant v v' (sleep 1) s = (Ok (), s1) ∧ gets s1 = gets s
        ∧ posts s1 = posts s.
Proof.
  destruct v, v'; simpl; try by eexists.
  all: apply sleep_run; lia.
Qed.

(** One turn of the loop: the request is answered by [http_get E (gets s)];
    a final answer ends the call, another one leaves the turns that
    remain. *)
Lemma search_attempts_step v E q lo hi n s :
  ∃ s1, gets s1 = S (gets s) ∧ posts s1 = posts s
    ∧ search_attempts v E q lo hi (S n) s
      = if retried (http_get E (gets s))
        then search_attempts v E q lo hi n s1
        else (search_result_of (http_get E (gets s)), s1).
Proof.
  simpl. rewrite run_bind.
  destruct (when_variant_sleep_run v Lambda2 s) as (s1 & -> & Hg1 & Hp1).
  rewrite run_bind. cbn [requests_get].
  set (s2 := {| notified_set := notified_set s1; gets := S (gets s1) |}).
  assert (gets s2 = S (gets s)) as Hg2 by (subst s2; simpl; lia).
  assert (posts s2 = posts s) as Hp2 by done.
  clearbody s2. rewrite Hg1.
  assert (∀ z s3, (0 ≤ z ≤ 5)%Z → gets s3 = S (gets s) → posts s3 = posts s →
            ∃ s4, gets s4 = S (gets s) ∧ posts s4 = posts s
              ∧ (sleep z ;; search_attempts v E q lo hi n) s3
                = search_attempts v E q lo hi n s4) as Hretry.
  { intros z s3 Hz Hg3 Hp3. rewrite run_bind.
    destruct (sleep_run z s3 Hz) as (s4 & -> & Hg4 & Hp4).
    exists s4. split_and!; congruence. }
  unfold retried, search_result_of.
  destruct (http_get E (gets s)) as [c body|].
  - destruct (c =? 200)%Z.
    { rewrite run_bind.
      destruct (when_variant_sleep_run v Lambda1 s2) as (s3 & -> & Hg3 & Hp3).
      destruct body as [parsed|].
      { exists s3. split_and!; [congruence..|done]. }
      destruct json_error_is_request_exception; simpl.
      - apply Hretry; [lia|congruence..].
      - exists s3. split_and!; [congruence..|done]. }
    destruct (c =? 400)%Z; simpl.
    { exists s2. split_and!; [done..|]. by destruct body. }
    destruct (c =? 429)%Z.
    + rewrite run_bind.
      destruct (sleep_run 5 s2 ltac:(lia)) as (s3 & -> & Hg3 & Hp3).
      apply Hretry; [lia|congruence..].
    + apply Hretry; [lia|done..].
  - apply Hretry; [lia|done..].
Qed.

Lemma search_result_of_retried o : retried o = true → search_result_of o = Ok JNull.
Proof.
  unfold retried, search_result_of. destruct o as [c [parsed|]|]; [| |done].
  - destruct (c =? 200)%Z; done.
  - destruct (c =? 200)%Z; [|done]. by intros ->.
Qed.

(** The call makes [m] requests, between one and the number of turns: the
    answers before the last were tried again, the last one decides the
    result, and the call goes on to the last turn only after answers that
    are tried again. *)
Lemma search_attempts_result v E q lo hi n s :
  let r := search_attempts v E q lo hi (S n) s in
  ∃ m, 1 ≤ m ≤ S n
    ∧ gets r.2 = gets s + m
    ∧ posts r.2 = posts s
    ∧ (∀ k, gets s ≤ k < gets s + m - 1 → retried (http_get E k) = true)
    ∧ (m < S n → retried (http_get E (gets s + m - 1)) = false)
    ∧ r.1 = search_result_of (http_get E (gets s + m - 1)).
Proof.
  cbv zeta. revert s. induction n as [|n IH]; intros s.
  - destruct (search_attempts_step v E q lo hi 0 s) as (s1 & Hg & Hp & ->).
    exists 1. replace (gets s + 1 - 1) with (gets s) by lia.
    destruct (retried (http_get E (gets s))) eqn:Hr; simpl;
      (split_and!; [lia..|lia|done|intros; lia|lia|]).
    + by rewrite search_result_of_retried.
    + done.
  - destruct (search_attempts_step v E q lo hi (S n) s) as (s1 & Hg & Hp & ->).
    destruct (retried (http_get E (gets s))) eqn:Hr.
    + destruct (IH s1) as (m & Hm & Hgets & Hposts & Hbefore & Hlast & Hres).
      exists (S m). rewrite Hg in *.
      replace (gets s + S m - 1) with (S (gets s) + m - 1) by lia.
      split_and!; [lia..|lia|congruence| | |done].
      * intros k Hk. destruct (decide (k = gets s)) as [->|]; [done|].
        apply Hbefore. lia.
      * intros. apply Hlast. lia.
    + exists 1. replace (gets s + 1 - 1) with (gets s) by lia. simpl.
      split_and!; [lia..|lia|done|intros; lia|done|done].
Qed.


End Search.


(** A 200 whose body is no JSON: with a [requests] that raises its own
    error for it the request is made three times and the result is [None];
    with an older one the first request raises the decoder's error. *)
Example search_yahoo_items_no_json :
  let run (H : PyBuiltins) :=
    search_yahoo_items (H := H) Lambda1 env_no_json (PyStr.lit "foo bar")
      None None (initial_state ∅) in
  (run ascii_builtins).1 = Ok JNull
  ∧ gets (run ascii_builtins).2 = 3
  ∧ (run old_requests_builtins).1 = Raise JSONDecodeError
  ∧ gets (run old_requests_builtins).2 = 1.
Proof. cbv zeta. split_and!; vm_compute; reflexivity. Qed.

(** ** The exclusion list of the sheet *)

Section Sheets.
Context `{PyBuiltins}.

Lemma excluded_shops_of_values_cut before row after :
  ends_sheet row = true →
  excluded_shops_of_values (before ++ row :: after)
  = excluded_shops_of_values before.
Proof.
  intros Hrow. induction before as [|r before IH].
  - by destruct row as [|[|c cell] rest].
  - destruct r as [|[|c cell] rest]; [done..|].
    cbn [app excluded_shops_of_values]. by rewrite IH.
Qed.

Lemma excluded_shops_of_values_listed before cell rest after :
  Forall (λ row, ends_sheet row = false) before →
  cell ≠ [] → lower (PyStr.strip cell) ≠ [] →
  lower (PyStr.strip cell)
  ∈ excluded_shops_of_values (before ++ (cell :: rest) :: after).
Proof.
  intros Hbefore Hcell Hshop. induction Hbefore as [|r before Hr _ IH].
  - destruct cell as [|c cell]; [done|].
    cbn [app excluded_shops_of_values].
    destruct (lower (PyStr.strip (c :: cell))) as [|? ?] eqn:Hl; [done|].
    apply list_elem_of_here.
  - destruct r as [|[|c' cell'] rest']; [done..|].
    cbn [app excluded_shops_of_values].
    destruct (lower (PyStr.strip (c' :: cell'))); [done|].
    by apply list_elem_of_further.
Qed.

Lemma excluded_shops_of_values_elem values shop :
  shop ∈ excluded_shops_of_values values →
  shop ≠ [] ∧ ∃ before cell rest after,
    values = before ++ (cell :: rest) :: after
    ∧ Forall (λ row, ends_sheet row = false) before
    ∧ cell ≠ [] ∧ shop = lower (PyStr.strip cell).
Proof.
  induction values as [|row values IH]; [by intros ?%elem_of_nil|].
  destruct row as [|[|c cell] rest]; [by intros ?%elem_of_nil..|].
  cbn [excluded_shops_of_values].
  assert (shop ∈ excluded_shops_of_values values →
          shop ≠ [] ∧ ∃ before cell0 rest0 after,
            ((c :: cell) :: rest) :: values
            = before ++ (cell0 :: rest0) :: after
            ∧ Forall (λ row, ends_sheet row = false) before
            ∧ cell0 ≠ [] ∧ shop = lower (PyStr.strip cell0)) as Htail.
  { intros (Hne & before & cell0 & rest0 & after & -> & Hb & Hc & ->)%IH.
    split; [done|].
    exists (((c :: cell) :: rest) :: before), cell0, rest0, after.
    split_and!; try done. by constructor. }
  destruct (lower (PyStr.strip (c :: cell))) as [|c0 shop0] eqn:Hl; [done|].
  intros [->|Hin]%elem_of_cons; [|by apply Htail].
  split; [done|].
  exists [], (c :: cell), rest, values. by split_and!.
Qed.

End Sheets.

(** X3: the list [get_excluded_shops_from_sheets] returns for the rows
    the Sheets API answers.  A name is in it exactly when it is not empty
    and is the stripped, lower-cased first cell of a row that is preceded
    by no empty row or cell; whatever follows the first empty row or cell
    is ignored, and a cell of blanks neither ends the list nor enters
    it. *)
Theorem X3_sheet_list_stops_at_first_empty_cell `{PyBuiltins}
    (values : list (list pystr)) :
  let shops := get_excluded_shops_from_sheets (Some values) in
  (∀ shop, shop ∈ shops ↔
     shop ≠ [] ∧ ∃ before cell rest after,
       values = before ++ (cell :: rest) :: after
       ∧ Forall (λ row, ends_sheet row = false) before
       ∧ cell ≠ [] ∧ shop = lower (PyStr.strip cell))
  ∧ (∀ before row after,
       values = before ++ row :: after → ends_sheet row = true →
       shops = get_excluded_shops_from_sheets (Some before))
  ∧ (∀ cell rest values',
       cell ≠ [] → lower (PyStr.strip cell) = [] →
       get_excluded_shops_from_sheets (Some ((cell :: rest) :: values'))
       = get_excluded_shops_from_sheets (Some values')).
Proof.
  cbv zeta. unfold get_excluded_shops_from_sheets. split_and!.
  - intros shop. split; [apply excluded_shops_of_values_elem|].
    intros (Hne & before & cell & rest & after & -> & Hb & Hc & ->).
    by apply excluded_shops_of_values_listed.
  - intros before row after -> Hrow.
    by apply excluded_shops_of_values_cut.
  - intros [|c cell] rest values' Hc Hl; [done|].
    cbn [excluded_shops_of_values]. by rewrite Hl.
Qed.

(** X4: from the sheet to the item loop of Lambda1.  An item whose
    seller's name, stripped and lower-cased, equals the stripped and
    lower-cased first cell of a sheet row that no empty row or cell
    precedes is passed over as sold by an excluded shop, whatever the
    rule: nothing is sent and nothing enters the ledger. *)
Theorem X4_sheet_shop_is_skipped `{PyBuiltins} (E : env) (r : row)
    (filtered_words : list pystr) (ng : option pystr)
    (cond : notify_condition) (it name url : json) (shop : pystr)
    (before : list (list pystr)) (cell : pystr) (rest : list pystr)
    (after : list (list pystr)) (s : state) :
  Forall (λ row, ends_sheet row = false) before →
  cell ≠ [] → shop ≠ [] →
  shop_name_of it = Ok shop → shop = lower (PyStr.strip cell) →
  item_name it = Some name → item_url it = Some url →
  let global_excluded_shops :=
    get_excluded_shops_from_sheets
      (Some (before ++ (cell :: rest) :: after)) in
  process_item Lambda1 E r
    (all_excluded_shops Lambda1 global_excluded_shops (excluded_shops_of r))
    filtered_words ng cond it s
  = (Ok (), {| notified_set := notified_set s;
               new_notified_urls := new_notified_urls s;
               ledger_store := ledger_store s;
               gets := gets s; posts := posts s;
               trace := trace s ++ [EvSkipItem name ExcludedShop] |}).
Proof.
  intros Hbefore Hcell Hne Hshop -> Hname Hurl global_excluded_shops.
  erewrite process_item_excluded; [done..|].
  unfold all_excluded_shops.
  apply elem_of_list_to_set, elem_of_app. left.
  by apply excluded_shops_of_values_listed.
Qed.

(** X4 on the sheet column [sheet_column] and the hit of " ShopA". *)
Lemma X4_sheet_shop_is_skipped_witness :
  process_item (H := ascii_builtins) Lambda1 env_two_hits rule_foo_bar_no_junk
    (all_excluded_shops Lambda1
       (get_excluded_shops_from_sheets (H := ascii_builtins) (Some sheet_column))
       (excluded_shops_of (H := ascii_builtins) rule_foo_bar_no_junk))
    [PyStr.lit "foo"; PyStr.lit "bar"] None include_all hit_shopA
    (initial_state ∅)
  = emit (EvSkipItem (JStr (PyStr.lit "Foo Bar deluxe")) ExcludedShop)
      (initial_state ∅).
Proof.
  apply (X4_sheet_shop_is_skipped (H := ascii_builtins) env_two_hits
           rule_foo_bar_no_junk [PyStr.lit "foo"; PyStr.lit "bar"] None
           include_all hit_shopA (JStr (PyStr.lit "Foo Bar deluxe"))
           (JStr (PyStr.lit "https://example.test/a")) (PyStr.lit "shopa")
           [] (PyStr.lit " ShopA ") [] (tail sheet_column) (initial_state ∅)).
  - constructor.
  - discriminate.
  - discriminate.
  - reflexivity.
  - reflexivity.
  - reflexivity.
  - reflexivity.
Defined.

(** The names read from [sheet_column]: the cell of blanks is passed
    over, the empty cell ends the list. *)
Example get_excluded_shops_from_sheets_ex :
  get_excluded_shops_from_sheets (H := ascii_builtins) (Some sheet_column)
  = [PyStr.lit "shopa"; PyStr.lit "shopd"].
Proof. reflexivity. Qed.

(** ** The cache of the exclusion list *)

(** X5: the exclusion list travels from batch 0 to the later batches
    through the cache object.  When batch 0 reads the credentials and
    writes the cache, it works with the list of the sheet, and every later
    batch that can read the cache works with the same list, whatever the
    sheet, the credentials or the configuration are by then, and leaves
    the cache as it is. *)
Theorem X5_exclusion_cache_round_trip `{PyBuiltins} (W W' : exclusion_world)
    (cache : option (list pystr)) (current_batch : Z) :
  sheet_configured W = true → credentials_answer W = true →
  cache_put_answer W = true →
  current_batch ≠ 0%Z → cache_get_answer W' = true →
  let first := load_global_excluded_shops W 0 cache in
  first.1 = get_excluded_shops_from_sheets (sheet_answer W)
  ∧ load_global_excluded_shops W' current_batch first.2 = (first.1, first.2).
Proof.
  intros Hconf Hcred Hput Hbatch Hget. cbv zeta.
  unfold load_global_excluded_shops.
  rewrite Hconf, Hcred, Hput, Hget. cbn [Z.eqb fst snd].
  split; [done|]. by destruct (Z.eqb_spec current_batch 0).
Qed.

Lemma X5_exclusion_cache_round_trip_witness :
  let first :=
    load_global_excluded_shops (H := ascii_builtins) exclusion_world_ok 0 None in
  first.1 = [PyStr.lit "shopa"; PyStr.lit "shopd"]
  ∧ load_global_excluded_shops (H := ascii_builtins) exclusion_world_no_put 3
      first.2 = (first.1, first.2).
Proof.
  exact (X5_exclusion_cache_round_trip (H := ascii_builtins)
           exclusion_world_ok exclusion_world_no_put None 3
           eq_refl eq_refl eq_refl ltac:(discriminate) eq_refl).
Defined.

(** X6: the cache of the exclusion list can go stale.  When batch 0 does
    not get to write the cache (the sheet is not configured, the
    credentials cannot be read, or the write raises), the cache keeps what
    it held before; a later batch that can read the cache works with that
    list, or with the empty list when there is no cache, and leaves the
    cache as it is, while batch 0 itself worked with the list of the sheet
    if only the write failed and with the empty list otherwise.  No batch
    other than 0 writes the cache. *)
Theorem X6_exclusion_cache_goes_stale `{PyBuiltins} (W W' : exclusion_world)
    (cache : option (list pystr)) (current_batch : Z) :
  sheet_configured W && credentials_answer W && cache_put_answer W = false →
  current_batch ≠ 0%Z → cache_get_answer W' = true →
  let first := load_global_excluded_shops W 0 cache in
  let later := load_global_excluded_shops W' current_batch first.2 in
  first.1 = (if sheet_configured W && credentials_answer W
             then get_excluded_shops_from_sheets (sheet_answer W) else [])
  ∧ first.2 = cache
  ∧ later.1 = default [] cache
  ∧ later.2 = cache
  ∧ (∀ W'' cache', (load_global_excluded_shops W'' current_batch cache').2
                   = cache').
Proof.
  intros Hno Hbatch Hget. cbv zeta. unfold load_global_excluded_shops.
  rewrite Hget. destruct (Z.eqb_spec current_batch 0) as [|_]; [done|].
  cbn [Z.eqb].
  split_and!;
    try (destruct (sheet_configured W), (credentials_answer W),
           (cache_put_answer W); try done; by destruct cache).
  intros W'' [cached|]; [|done]. by destruct (cache_get_answer W'').
Qed.

(** With the cache write failing, batch 0 excludes the shops of the sheet
    while batch 3 still excludes the shop cached by an earlier run. *)
Lemma X6_exclusion_cache_goes_stale_witness :
  let first :=
    load_global_excluded_shops (H := ascii_builtins) exclusion_world_no_put 0
      (Some [PyStr.lit "shopz"]) in
  let later :=
    load_global_excluded_shops (H := ascii_builtins) exclusion_world_ok 3
      first.2 in
  first.1 = [PyStr.lit "shopa"; PyStr.lit "shopd"]
  ∧ first.2 = Some [PyStr.lit "shopz"]
  ∧ later.1 = [PyStr.lit "shopz"]
  ∧ later.2 = Some [PyStr.lit "shopz"].
Proof.
  destruct (X6_exclusion_cache_goes_stale (H := ascii_builtins)
              exclusion_world_no_put exclusion_world_ok
              (Some [PyStr.lit "shopz"]) 3 eq_refl ltac:(discriminate) eq_refl)
    as (Hfirst & Hcache & Hlater & Hkept & _).
  exact (conj Hfirst (conj Hcache (conj Hlater Hkept))).
Defined.

(** Batch 0 can empty the cache: when the sheet cannot be read and the
    cache is written, the list cached by an earlier run is replaced by the
    empty list. *)
Example exclusion_cache_emptied :
  load_global_excluded_shops (H := ascii_builtins) exclusion_world_no_sheet 0
    (Some [PyStr.lit "shopz"])
  = ([], Some []).
Proof. reflexivity. Qed.

(** ** Reading the ledger table *)

Lemma add_item_urls_Some items notified :
  forallb (λ item_url, bool_decide (is_Some item_url)) items = true →
  add_item_urls items notified
  = Some (list_to_set (omap id items) ∪ notified).
Proof.
  revert notified. induction items as [|[url|] items IH]; intros notified Hall.
  - f_equal. cbn. apply leibniz_equiv. set_solver.
  - cbn in Hall. cbn [add_item_urls]. rewrite IH by done.
    f_equal. cbn. apply leibniz_equiv. set_solver.
  - done.
Qed.

Lemma add_item_urls_None items notified :
  forallb (λ item_url, bool_decide (is_Some item_url)) items = false →
  add_item_urls items notified = None.
Proof.
  revert notified. induction items as [|[url|] items IH]; intros notified Hall.
  - done.
  - cbn in Hall. cbn [add_item_urls]. by apply IH.
  - done.
Qed.

Lemma scan_pages_result pages fails_at notified :
  scan_pages pages fails_at notified
  = if scan_complete pages fails_at
    then Some (list_to_set (page_urls pages) ∪ notified) else None.
Proof.
  revert fails_at notified.
  induction pages as [|page pages IH]; intros fails_at notified.
  - unfold scan_complete, page_urls. cbn.
    destruct fails_at as [k|]; cbn; f_equal; apply leibniz_equiv; set_solver.
  - cbn [scan_pages].
    assert (scan_complete (page :: pages) fails_at
            = match fails_at with Some 0 => false | _ => true end
              && forallb (λ item_url, bool_decide (is_Some item_url)) page
              && scan_complete pages (pred <$> fails_at)) as ->.
    { unfold scan_complete. cbn [forallb length].
      destruct fails_at as [[|k]|]; cbn [fmap option_fmap option_map pred];
        try change (S (length pages) <=? S k) with (length pages <=? k);
        try change (S (length pages) <=? 0) with false;
        try destruct (length pages <=? k);
        destruct (forallb (λ item_url, bool_decide (is_Some item_url)) page);
        done. }
    destruct fails_at as [[|k]|]; [done| |].
    + destruct (forallb _ page) eqn:Hpage.
      * rewrite add_item_urls_Some, IH by done. cbn [andb].
        destruct (scan_complete _ _); [|done].
        f_equal. unfold page_urls. cbn [concat]. rewrite omap_app.
        apply leibniz_equiv. set_solver.
      * by rewrite add_item_urls_None.
    + destruct (forallb _ page) eqn:Hpage.
      * rewrite add_item_urls_Some, IH by done. cbn [andb].
        destruct (scan_complete _ _); [|done].
        f_equal. unfold page_urls. cbn [concat]. rewrite omap_app.
        apply leibniz_equiv. set_solver.
      * by rewrite add_item_urls_None.
Qed.

(** X7: [load_notified_list_from_dynamodb] reads all of the table or
    nothing.  When every scan returns and every item carries [itemUrl] it
    returns the URLs of all pages; when a scan raises or an item lacks the
    key it returns the empty set, whatever the pages read before held. *)
Theorem X7_dynamodb_load_all_or_nothing
    (pages : list (list (option pystr))) (fails_at : option nat) :
  load_notified_list_from_dynamodb pages fails_at
  = if scan_complete pages fails_at
    then list_to_set (page_urls pages) else ∅.
Proof.
  unfold load_notified_list_from_dynamodb. rewrite scan_pages_result.
  destruct (scan_complete pages fails_at); [|done].
  apply leibniz_equiv. set_solver.
Qed.

(** Two pages, the scan of the second raising: the URL of the first page
    is lost. *)
Example load_notified_list_from_dynamodb_ex :
  let url := PyStr.lit "https://example.test/old" in
  load_notified_list_from_dynamodb [[Some url]; []] None = {[url]}
  ∧ load_notified_list_from_dynamodb [[Some url]; []] (Some 1) = ∅
  ∧ load_notified_list_from_dynamodb [[Some url]; [None]] None = ∅.
Proof.
  cbv zeta. unfold load_notified_list_from_dynamodb.
  rewrite !scan_pages_result.
  split_and!; cbn; [apply leibniz_equiv; set_solver|done..].
Qed.

(** ** What a run leaves in the ledger *)

Section Persist.
Context `{PyBuiltins}.

Lemma search_and_notify_store v E config_data global s :
  let r := search_and_notify v E config_data global s in
  ∃ new,
    trace r.2 = trace s ++ new
    ∧ notified_set r.2 = list_to_set (success_urls new) ∪ notified_set s
    ∧ gets s ≤ gets r.2 ∧ posts s ≤ posts r.2
    ∧ ledger_store r.2
      = match v, r.1 with
        | Lambda1, Ok _ =>
            list_to_set (written_urls E (success_urls new)) ∪ ledger_store s
        | _, _ => ledger_store s
        end
    ∧ (∀ updated, r.1 = Ok updated → updated = notified_set r.2).
Proof.
  cbv zeta. rewrite search_and_notify_unfold.
  set (s0 := (when_variant v Lambda1 (set_new_notified_urls []) s).2).
  assert (trace s0 = trace s ∧ notified_set s0 = notified_set s
          ∧ ledger_store s0 = ledger_store s ∧ gets s0 = gets s
          ∧ posts s0 = posts s
          ∧ (v = Lambda1 → new_notified_urls s0 = []))
    as (Ht0 & Hn0 & Hs0 & Hg0 & Hp0 & Hu0) by (by destruct v).
  destruct (row_loop_batch_step v E global config_data s0)
    as (new & [Ht Hn Hu Hs _ _ Hg Hp]).
  exists new.
  destruct (for_each _ config_data s0) as [[[]|e] s1]; cbn [fst snd] in *.
  2:{ rewrite Ht, Hn, Hs, Ht0, Hn0, Hs0, <-Hg0, <-Hp0.
      split_and!; try done. by destruct v. }
  destruct v; cbn [fst snd].
  - rewrite Hu0 in Hu by done. cbn [app] in Hu. rewrite Hu.
    unfold save_to_dynamodb, written_urls.
    destruct (success_urls new) as [|u us] eqn:Hsucc.
    + cbn [fst snd mret M_ret]. rewrite Ht, Hn, Hs, Ht0, Hn0, Hs0.
      split_and!; try done; try lia; try (by intros ? [= <-]).
      destruct (ledger_save_answer E); cbn [List.filter];
        apply leibniz_equiv; set_solver.
    + munfold. unfold set_ledger_store.
      cbn [fst snd trace notified_set ledger_store gets posts].
      rewrite Ht, Hn, Hs, Ht0, Hn0, Hs0.
      split_and!; try done; try lia; by intros ? [= <-].
  - rewrite Ht, Hn, Hs, Ht0, Hn0, Hs0.
    split_and!; try done; try lia; by intros ? [= <-].
Qed.

Lemma lambda_handler_store v E current_batch s :
  let r := lambda_handler v E current_batch s in
  let successes := success_urls (events_since s r.2) in
  ledger_store r.2
  = match r.1, config_answer E with
    | Ok _, Some _ =>
        match v with
        | Lambda1 => list_to_set (written_urls E successes) ∪ ledger_store s
        | Lambda2 =>
            match ledger_save_answer E with
            | None => list_to_set successes ∪ loaded_from E (ledger_store s)
            | Some _ => ledger_store s
            end
        end
    | _, _ => ledger_store s
    end.
Proof.
  cbv zeta.
  destruct (config_answer E) as [rows|] eqn:Hc.
  2:{ rewrite lambda_handler_no_config by done. done. }
  destruct (decide (BATCH_SIZE E = 0%Z)) as [Hb|Hb].
  { unfold lambda_handler. rewrite Hc, Hb. done. }
  rewrite (lambda_handler_run v E _ s rows Hc Hb). cbv zeta.
  match goal with
  | |- context [search_and_notify v E ?b ?g ?s0] =>
      destruct (search_and_notify_store v E b g s0)
        as (new & Ht & Hn & _ & _ & Hstore & Hres);
      destruct (search_and_notify v E b g s0) as [[updated|e] sB]
  end; cbn [fst snd] in *.
  2:{ by destruct v. }
  specialize (Hres _ eq_refl). subst updated.
  assert (∀ sC, trace sC = trace sB →
            success_urls
              (events_since s
                 (if (current_batch + 1 <?
                      total_batches_of
                        (Z.of_nat (length (partition_filter v (read_csv rows))))
                        (BATCH_SIZE E))%Z
                  then (Ok {| statusCode := if invoke_answer E then 200 else 500 |},
                        record_events [EvInvoke (current_batch + 1)] sC)
                  else (Ok {| statusCode := 200 |}, sC)).2)
            = success_urls new) as Hsucc.
  { intros sC HsC. destruct (_ <? _)%Z; cbn [fst snd].
    - rewrite (events_since_app s _ (new ++ [EvInvoke (current_batch + 1)])).
      + rewrite success_urls_app. cbn. by rewrite app_nil_r.
      + cbn. by rewrite HsC, Ht, app_assoc.
    - rewrite (events_since_app s _ new); [done|]. by rewrite HsC, Ht. }
  destruct v.
  - rewrite Hsucc by done. by destruct (_ <? _)%Z.
  - rewrite (Hsucc (save_notified_list E (notified_set sB) sB).2)
      by (unfold save_notified_list; by destruct (ledger_save_answer E)).
    unfold save_notified_list, loaded_from.
    destruct (_ <? _)%Z; cbn [fst snd]; destruct (ledger_save_answer E);
      cbn [fst snd]; first [exact Hstore | exact Hn].
Qed.

End Persist.

(** X8: what a run of Lambda1 leaves in the DynamoDB table.  When the
    handler returns with the configuration read, the table holds what it
    held plus the URLs of this run that the batch writer got written:
    every URL whose notification was accepted when the write does not
    raise, and some of them, those of the [BatchWriteItem] calls that went
    through, when it raises.  When the handler raises, or the
    configuration cannot be read, the table is as it was, whatever was
    sent before.  The table never loses a URL. *)
Theorem X8_dynamodb_table_after_a_run `{PyBuiltins} (E : env)
    (current_batch : Z) (s : state) :
  let r := lambda_handler Lambda1 E current_batch s in
  let successes := success_urls (events_since s r.2) in
  ledger_store r.2
  = match r.1, config_answer E with
    | Ok _, Some _ => list_to_set (written_urls E successes) ∪ ledger_store s
    | _, _ => ledger_store s
    end
  ∧ written_urls E successes
    = match ledger_save_answer E with
      | None => successes
      | Some through => List.filter through successes
      end
  ∧ (∀ url, url ∈ written_urls E successes → url ∈ successes)
  ∧ ledger_store s ⊆ ledger_store r.2.
Proof.
  cbv zeta. split_and!.
  - apply (lambda_handler_store Lambda1).
  - done.
  - intros url. unfold written_urls.
    destruct (ledger_save_answer E); [|done].
    rewrite !list_elem_of_In, filter_In. tauto.
  - rewrite (lambda_handler_store Lambda1). cbv zeta.
    destruct (lambda_handler Lambda1 E current_batch s).1; [|done].
    destruct (config_answer E); [|done]. set_solver.
Qed.

(** The write raises after the first of two accepted URLs has gone
    through: the table gains that URL only. *)
Example save_to_dynamodb_partial :
  let a := KStr (PyStr.lit "https://example.test/a") in
  let b := KStr (PyStr.lit "https://example.test/b") in
  let E := {| http_get := λ _, GetException; http_post := λ _, PostException;
              global_shops_answer := []; config_answer := None;
              ledger_load_answer := LoadOk;
              ledger_save_answer := Some (λ url, bool_decide (url = a));
              invoke_answer := true; BATCH_SIZE := 100 |} in
  ledger_store
    (save_to_dynamodb E [a; b] (initial_state {[old_url]})).2
  = {[a; old_url]}.
Proof. cbv zeta. apply leibniz_equiv. vm_compute. done. Qed.

(** X9: what a run of Lambda2 leaves in the S3 ledger object.  When the
    handler returns with the configuration read and the write succeeds,
    the object holds the URLs accepted in this run together with what
    [load_notified_list] returned at the start, which is the former
    content only if the read succeeded; when the write raises, the
    handler raises, or the configuration cannot be read, the object is as
    it was. *)
Theorem X9_s3_ledger_after_a_run `{PyBuiltins} (E : env)
    (current_batch : Z) (s : state) :
  let r := lambda_handler Lambda2 E current_batch s in
  let successes := success_urls (events_since s r.2) in
  ledger_store r.2
  = match r.1, config_answer E, ledger_save_answer E with
    | Ok _, Some _, None =>
        list_to_set successes ∪ loaded_from E (ledger_store s)
    | _, _, _ => ledger_store s
    end.
Proof.
  cbv zeta. rewrite (lambda_handler_store Lambda2). cbv zeta.
  destruct (lambda_handler Lambda2 E current_batch s).1; [|done].
  destruct (config_answer E); [|done]. done.
Qed.

(** ** A batch index past the last batch *)

Lemma batch_data_of_past_the_end {A} (current_batch batch_size : Z)
    (config_data : list A) :
  (0 < batch_size)%Z →
  (Z.of_nat (length config_data) ≤ current_batch * batch_size)%Z →
  batch_data_of current_batch batch_size config_data = []
  ∧ (current_batch + 1 <?
     total_batches_of (Z.of_nat (length config_data)) batch_size)%Z = false.
Proof.
  intros Hb Hlen. split.
  - unfold batch_data_of, iloc, slice_bound.
    rewrite !(proj2 (Z.ltb_ge _ _)) by lia.
    rewrite !Z.min_r by lia. rewrite Z.sub_diag. apply take_0.
  - apply Z.ltb_ge. unfold total_batches_of.
    apply Z.lt_succ_r, Z.div_lt_upper_bound; lia.
Qed.

(** X10: an invocation whose batch index lies past the last batch, or
    whose configuration keeps no row, does nothing to the outside: it
    reads the ledger, sends no request, records nothing, triggers no
    further invocation and answers 200.  Lambda1 leaves the table as it
    is; Lambda2 still writes back what it loaded. *)
Theorem X10_batch_past_the_end `{PyBuiltins} (v : variant) (E : env)
    (current_batch : Z) (s : state) (rows : list row) :
  config_answer E = Some rows → (0 < BATCH_SIZE E)%Z →
  (Z.of_nat (length (partition_filter v (read_csv rows)))
   ≤ current_batch * BATCH_SIZE E)%Z →
  let r := lambda_handler v E current_batch s in
  r.1 = Ok {| statusCode := 200 |}
  ∧ trace r.2 = trace s ∧ gets r.2 = gets s ∧ posts r.2 = posts s
  ∧ notified_set r.2 = loaded_from E (ledger_store s)
  ∧ ledger_store r.2
    = match v, ledger_save_answer E with
      | Lambda2, None => loaded_from E (ledger_store s)
      | _, _ => ledger_store s
      end.
Proof.
  intros Hc Hb Hlen. cbv zeta.
  rewrite (lambda_handler_run v E _ s rows Hc) by lia. cbv zeta.
  destruct (batch_data_of_past_the_end current_batch (BATCH_SIZE E)
              (partition_filter v (read_csv rows)) Hb Hlen) as (-> & ->).
  rewrite search_and_notify_unfold. unfold loaded_from.
  destruct v; cbn [for_each when_variant mret M_ret fst snd].
  - unfold set_new_notified_urls, set_notified, save_to_dynamodb.
    cbn [fst snd new_notified_urls mret M_ret]. by split_and!.
  - unfold set_notified, save_notified_list.
    destruct (ledger_save_answer E); cbn [fst snd mret M_ret]; by split_and!.
Qed.

(** X10 on the three rules served one per batch: Lambda1 keeps two of
    them, so the batch of index 2 is past the end. *)
Lemma X10_batch_past_the_end_witness :
  let r := lambda_handler (H := ascii_builtins) Lambda1 env_three_rules 2
             (initial_state {[old_url]}) in
  r.1 = Ok {| statusCode := 200 |}
  ∧ trace r.2 = [] ∧ gets r.2 = 0 ∧ posts r.2 = 0
  ∧ notified_set r.2 = {[old_url]}
  ∧ ledger_store r.2 = {[old_url]}.
Proof.
  exact (X10_batch_past_the_end (H := ascii_builtins) Lambda1 env_three_rules
           2 (initial_state {[old_url]})
           [rule_foo_bar_new_only; rule_foo_bar_used_only; rule_foo_bar_no_junk]
           eq_refl eq_refl ltac:(vm_compute; discriminate)).
Defined.

(** ** The tokens of a keyword and the query *)

Lemma split_on_nonempty sep s : PyStr.split_on sep s ≠ [].
Proof.
  unfold PyStr.split_on. destruct s as [|c s]; cbn; [done|].
  destruct (sep =? c)%N; [done|]. by destruct (PyStr.split_by _ s).
Qed.

Lemma join_split_on sep s : PyStr.join [sep] (PyStr.split_on sep s) = s.
Proof.
  induction s as [|c s IH]; [done|].
  pose proof (split_on_nonempty sep s) as Hne.
  unfold PyStr.split_on in *. cbn [PyStr.split_by].
  destruct (N.eqb_spec sep c) as [->|_].
  - destruct (PyStr.split_by _ s) as [|w ws]; [done|].
    cbn [PyStr.join app] in *. by rewrite IH.
  - destruct (PyStr.split_by _ s) as [|w ws]; [done|].
    destruct ws as [|w' ws]; cbn [PyStr.join app] in *; by rewrite <-IH.
Qed.

Lemma split_on_sep_free sep s w : w ∈ PyStr.split_on sep s → sep ∉ w.
Proof.
  revert w. induction s as [|c s IH]; intros w.
  - intros ->%list_elem_of_singleton. apply not_elem_of_nil.
  - pose proof (split_on_nonempty sep s) as Hne.
    unfold PyStr.split_on in *. cbn [PyStr.split_by].
    destruct (N.eqb_spec sep c) as [->|Hc].
    + intros [->|Hin]%elem_of_cons; [apply not_elem_of_nil|by apply IH].
    + destruct (PyStr.split_by _ s) as [|w0 ws]; [done|].
      intros [->|Hin]%elem_of_cons.
      * intros [?|?]%elem_of_cons; [done|].
        by apply (IH w0); [apply list_elem_of_here|].
      * by apply IH, list_elem_of_further.
Qed.

Lemma split_on_word sep w rest :
  sep ∉ w →
  PyStr.split_on sep w = [w]
  ∧ PyStr.split_on sep (w ++ sep :: rest) = w :: PyStr.split_on sep rest.
Proof.
  unfold PyStr.split_on. induction w as [|c w IH]; intros Hw.
  - split; [done|]. cbn [app PyStr.split_by]. by rewrite N.eqb_refl.
  - apply not_elem_of_cons in Hw as [Hc Hw]. destruct (IH Hw) as [IH1 IH2].
    cbn [app PyStr.split_by]. destruct (N.eqb_spec sep c) as [|_]; [done|].
    by rewrite IH1, IH2.
Qed.

Lemma split_on_join sep ws :
  ws ≠ [] → Forall (λ w, sep ∉ w) ws →
  PyStr.split_on sep (PyStr.join [sep] ws) = ws.
Proof.
  intros Hne Hws. induction Hws as [|w ws Hw Hws IH]; [done|].
  destruct ws as [|w' ws].
  - cbn [PyStr.join]. by apply split_on_word.
  - change (PyStr.join [sep] (w :: w' :: ws))
      with (w ++ sep :: PyStr.join [sep] (w' :: ws)).
    rewrite (proj2 (split_on_word sep w _ Hw)). by rewrite IH.
Qed.

(** X11: the query sent for a rule, against the keyword of the rule.  Cut
    at the blanks, the query gives back exactly the tokens the item names
    are checked for, that is the tokens of the keyword that are not one
    character long, in their order; and a keyword without one-character
    tokens is sent as it is, runs of blanks included. *)
Theorem X11_query_round_trip (r : row) :
  let original_keyword := original_keyword_of r in
  (filtered_words_of original_keyword ≠ [] →
   words_of (query_of r) = filtered_words_of original_keyword)
  ∧ (Forall (λ word, is_single_character word = false)
       (words_of original_keyword) →
     query_of r = original_keyword)
  ∧ PyStr.join [32%N] (words_of original_keyword) = original_keyword.
Proof.
  cbv zeta. unfold query_of. split_and!.
  - intros Hne. apply split_on_join; [done|].
    apply Forall_forall. intros w [Hw _]%filtered_words_of_elem.
    by apply (split_on_sep_free _ (original_keyword_of r)).
  - unfold words_of, filtered_words_of. intros Hall. rewrite <-(join_split_on 32%N (original_keyword_of r)) at 2.
    f_equal. unfold words_of. induction Hall as [|w ws Hw _ IH]; [done|].
    cbn [List.filter]. rewrite Hw. cbn [negb]. by rewrite IH.
  - apply join_split_on.
Qed.

Lemma contains_nil hay : PyStr.contains [] hay = true.
Proof. by destruct hay. Qed.

Lemma lower_nil `{PyBuiltins} : lower [] = [].
Proof. by rewrite lower_ascii. Qed.

Lemma join_blank_words ws :
  Forall (λ w : pystr, w = []) ws →
  Forall (λ c, c = 32%N) (PyStr.join [32%N] ws).
Proof.
  induction 1 as [|w ws -> _ IH]; [constructor|].
  destruct ws as [|w' ws]; [constructor|].
  change (PyStr.join [32%N] ([] :: w' :: ws))
    with (32%N :: PyStr.join [32%N] (w' :: ws)).
  by constructor.
Qed.

(** X12: the empty token.  Cutting the keyword at single blanks leaves an
    empty token wherever two blanks meet; it is not one character long, so
    it stays among the tokens, and every item name contains it.  Hence a
    rule whose keyword has an empty token and otherwise only tokens of one
    character is not passed over: it is searched with a query made of
    blanks only, and every hit passes its keyword check. *)
Theorem X12_empty_token `{PyBuiltins} (original_keyword : pystr) :
  [] ∈ words_of original_keyword →
  Forall (λ word, length word ≤ 1) (words_of original_keyword) →
  filtered_words_of original_keyword ≠ []
  ∧ Forall (λ c, c = 32%N)
      (PyStr.join [32%N] (filtered_words_of original_keyword))
  ∧ ∀ item_name_lower,
      all_words_present (filtered_words_of original_keyword) item_name_lower
      = true.
Proof.
  intros Hempty Hshort.
  assert (Forall (λ w : pystr, w = []) (filtered_words_of original_keyword))
    as Hblank.
  { apply Forall_forall. intros w [Hw Hlen]%filtered_words_of_elem.
    rewrite Forall_forall in Hshort. specialize (Hshort w Hw).
    destruct w as [|c [|c' w]]; cbn in *; [done|done|lia]. }
  split_and!.
  - intros Hnil.
    assert ([] ∈ filtered_words_of original_keyword) as Hin
      by (by apply filtered_words_of_elem).
    rewrite Hnil in Hin. by apply elem_of_nil in Hin.
  - by apply join_blank_words.
  - intros name. unfold all_words_present. apply forallb_forall.
    intros w Hw%list_elem_of_In. rewrite Forall_forall in Hblank.
    rewrite (Hblank w Hw), lower_nil. apply contains_nil.
Qed.

(** X12 on the keyword "a  b", whose tokens are "a", the empty token and
    "b". *)
Lemma X12_empty_token_witness :
  filtered_words_of (PyStr.lit "a  b") ≠ []
  ∧ Forall (λ c, c = 32%N)
      (PyStr.join [32%N] (filtered_words_of (PyStr.lit "a  b")))
  ∧ ∀ item_name_lower,
      all_words_present (H := ascii_builtins)
        (filtered_words_of (PyStr.lit "a  b")) item_name_lower = true.
Proof.
  apply (X12_empty_token (H := ascii_builtins) (PyStr.lit "a  b")).
  - apply list_elem_of_further, list_elem_of_here.
  - repeat constructor.
Defined.

(** ** Requests are spaced by sleeps *)

Section Spaced.
Context (kind : request_kind).

Lemma spaced_app ready new1 new2 :
  spaced kind ready (new1 ++ new2)
  = spaced kind ready new1 ≫= λ ready', spaced kind ready' new2.
Proof.
  revert ready. induction new1 as [|e new1 IH]; intros ready; [done|].
  cbn [app spaced]. destruct (is_request kind e); [|apply IH].
  destruct ready; [apply IH|done].
Qed.

Lemma spaced_quiet ready new :
  Forall (λ e, is_request kind e = false) new →
  ∃ ready', spaced kind ready new = Some ready'
            ∧ (ready = true → ready' = true).
Proof.
  intros Hq. revert ready.
  induction Hq as [|e new He _ IH]; intros ready; [by eexists|].
  cbn [spaced]. rewrite He.
  destruct (IH (ready_after e ready)) as (ready' & Hs & Ht).
  exists ready'. split; [done|]. intros ->. apply Ht. by destruct e.
Qed.

Lemma spaced_after_request mid e2 post ready' :
  spaced kind false (mid ++ e2 :: post) = Some ready' →
  is_request kind e2 = true →
  ∃ seconds, EvSleep seconds ∈ mid ∧ (1 ≤ seconds)%Z.
Proof.
  intros Hs He2. induction mid as [|e mid IH]; cbn [app spaced] in Hs.
  - by rewrite He2 in Hs.
  - destruct (is_request kind e); [done|].
    destruct (decide (ready_after e false = true)) as [Hr|Hr].
    + destruct e as [| |seconds| | | |]; try done.
      exists seconds. split; [apply list_elem_of_here|].
      cbn in Hr. by apply Z.leb_le.
    + apply not_true_is_false in Hr. rewrite Hr in Hs.
      destruct (IH Hs) as (seconds & ? & ?).
      exists seconds. split; [by apply list_elem_of_further|done].
Qed.

Lemma spaced_between ready events pre e1 mid e2 post :
  is_Some (spaced kind ready events) →
  events = pre ++ e1 :: mid ++ e2 :: post →
  is_request kind e1 = true → is_request kind e2 = true →
  ∃ seconds, EvSleep seconds ∈ mid ∧ (1 ≤ seconds)%Z.
Proof.
  intros [ready' Hs] -> He1 He2. rewrite spaced_app in Hs.
  destruct (spaced kind ready pre) as [ready1|]; [|done].
  cbn [mbind option_bind spaced] in Hs. rewrite He1 in Hs.
  destruct ready1; [|done]. by eapply spaced_after_request.
Qed.

Lemma sr_ret {A} (a : A) ready (P : A → bool → Prop) :
  P a ready → spaced_run kind ready (mret a) P.
Proof.
  intros HP s. exists [], ready. rewrite app_nil_r.
  split_and!; [done..|]. by intros ? [= <-].
Qed.

Lemma sr_raise {A} e ready (P : A → bool → Prop) :
  spaced_run kind ready (raise e) P.
Proof. intros s. exists [], ready. rewrite app_nil_r. by split_and!. Qed.

Lemma sr_bind {A B} (m : M A) (k : A → M B) ready
    (P : A → bool → Prop) (Q : B → bool → Prop) :
  spaced_run kind ready m P →
  (∀ a ready', P a ready' → spaced_run kind ready' (k a) Q) →
  spaced_run kind ready (m ≫= k) Q.
Proof.
  intros Hm Hk s. rewrite run_bind.
  destruct (Hm s) as (new1 & ready1 & Ht1 & Hs1 & HP).
  destruct (m s) as [[a|e] s1]; cbn [fst snd] in *.
  - destruct (Hk a ready1 (HP a eq_refl) s1) as (new2 & ready2 & Ht2 & Hs2 & HQ).
    exists (new1 ++ new2), ready2. split_and!; [|by rewrite spaced_app, Hs1|done].
    by rewrite Ht2, Ht1, app_assoc.
  - exists new1, ready1. by split_and!.
Qed.

Lemma sr_mono {A} (m : M A) ready (P Q : A → bool → Prop) :
  spaced_run kind ready m P → (∀ a ready', P a ready' → Q a ready') →
  spaced_run kind ready m Q.
Proof.
  intros Hm HPQ s. destruct (Hm s) as (new & ready' & Ht & Hs & HP).
  exists new, ready'. split_and!; [done..|]. intros a Ha. by apply HPQ, HP.
Qed.

Lemma sr_quiet {A} (m : M A) ready (P : A → bool → Prop) :
  (∀ s, trace (m s).2 = trace s) → (∀ a, P a ready) →
  spaced_run kind ready m P.
Proof.
  intros Hm HP s. exists [], ready. rewrite app_nil_r. by split_and!.
Qed.

Lemma sr_emit e ready (P : unit → bool → Prop) :
  is_request kind e = false → P () (ready_after e ready) →
  spaced_run kind ready (emit e) P.
Proof.
  intros He HP s. exists [e], (ready_after e ready). cbn [spaced].
  rewrite He. split_and!; [done..|]. by intros [] _.
Qed.

Lemma sr_sleep `{PyBuiltins} seconds ready (P : unit → bool → Prop) :
  P () (ready || (1 <=? seconds)%Z) →
  spaced_run kind ready (sleep seconds) P.
Proof.
  intros HP. unfold sleep. repeat (case_match; [apply sr_raise|]).
  apply sr_emit; [by destruct kind|done].
Qed.

Lemma sr_for_each {A} (f : A → M unit) (l : list A) ready (I : bool → Prop) :
  (∀ x ready', I ready' → spaced_run kind ready' (f x) (λ _, I)) →
  I ready → spaced_run kind ready (for_each f l) (λ _, I).
Proof.
  intros Hf. revert ready. induction l as [|x l IH]; intros ready HI.
  - by apply sr_ret.
  - cbn [for_each]. eapply sr_bind; [by apply Hf|]. intros [] ready' HI'.
    by apply IH.
Qed.

Lemma sr_io {A} (Pe : event → Prop) (m : M A) ready :
  io_action Pe m → (∀ e, Pe e → is_request kind e = false) →
  spaced_run kind ready m (λ _ ready', ready = true → ready' = true).
Proof.
  intros Hio HPe s. destruct (io_trace _ _ _ (Hio s)) as (new & Ht & Hnew).
  destruct (spaced_quiet ready new) as (ready' & Hs & Hr).
  { eapply Forall_impl; [done|]. intros e. apply HPe. }
  exists new, ready'. by split_and!.
Qed.

End Spaced.

Lemma sr_silent {A} kind (m : M A) ready :
  (∀ s, trace (m s).2 = trace s) →
  spaced_run kind ready m (λ _ ready', ready' = ready).
Proof. intros Hm. by apply sr_quiet. Qed.

Lemma sr_log kind e ready :
  is_request kind e = false → ready_after e ready = ready →
  spaced_run kind ready (emit e) (λ _ ready', ready' = ready).
Proof. intros He Hr. by apply sr_emit. Qed.

Lemma add_notified_trace v (success : bool) url s :
  trace ((if success then add_notified v url else mret ()) s).2 = trace s.
Proof. destruct success; [|done]. by destruct v. Qed.

Section SpacedProgram.
Context `{PyBuiltins} (kind : request_kind) (I : bool → Prop).
Context (v : variant) (E : env).
Hypothesis I_true : I true.
Hypothesis Hsearch : ∀ q lo hi ready,
  I ready → spaced_run kind ready (search_yahoo_items v E q lo hi) (λ _, I).
Hypothesis Hsend : ∀ message ready,
  I ready →
  spaced_run kind ready (send_chatwork_notification E message) (λ _ _, True).

Lemma sr_process_item r X fw ng cond it ready :
  I ready →
  spaced_run kind ready (process_item v E r X fw ng cond it) (λ _, I).
Proof using I_true Hsearch Hsend.
  intros HI. unfold process_item.
  eapply sr_bind; [by apply (sr_silent kind (lift _) ready)|].
  intros name_value ? ->.
  eapply sr_bind; [by apply (sr_silent kind (lift _) ready)|].
  intros url_value ? ->.
  eapply sr_bind; [by apply (sr_silent kind (lift _) ready)|].
  intros shop ? ->.
  case_bool_decide.
  { apply sr_emit; [by destruct kind|done]. }
  eapply sr_bind; [by apply (sr_silent kind (lift _) ready)|].
  intros url ? ->.
  eapply sr_bind; [by apply (sr_silent kind get_state ready)|]. intros s0 ? ->.
  case_bool_decide.
  { apply sr_emit; [by destruct kind|done]. }
  eapply sr_bind; [by apply (sr_silent kind (lift _) ready)|].
  intros name ? ->.
  destruct (check_name _ _ _ _).
  { apply sr_emit; [by destruct kind|done]. }
  unfold notify_item.
  eapply sr_bind; [by apply (sr_silent kind (lift _) ready)|].
  intros price ? ->.
  eapply sr_bind; [by apply Hsend|]. intros success ready1 _.
  eapply sr_bind.
  { apply (sr_silent kind _ ready1). intros s. apply add_notified_trace. }
  intros [] ? ->.
  eapply sr_bind; [by apply sr_log; [destruct kind|]|]. intros [] ? ->.
  apply sr_sleep. change (1 <=? 1)%Z with true. by rewrite orb_true_r.
Qed.

Lemma sr_process_row global indexed_row ready :
  I ready →
  spaced_run kind ready (process_row v E global indexed_row) (λ _, I).
Proof using I_true Hsearch Hsend.
  intros HI. unfold process_row. cbv zeta.
  destruct (PyStr.strip _); [apply sr_emit; [by destruct kind|done]|].
  destruct (filtered_words_of _); [apply sr_emit; [by destruct kind|done]|].
  eapply sr_bind; [by apply Hsearch|]. intros result ready' HI'.
  destruct (truthy result); [|by apply sr_ret].
  eapply sr_bind; [by apply (sr_silent kind (lift _) ready')|].
  intros items ? ->.
  destruct (truthy items); [|by apply sr_ret].
  unfold item_loop. destruct items as [|items|]; try apply sr_raise.
  apply sr_for_each; [|done]. intros it ready2 HI2. by apply sr_process_item.
Qed.

Lemma sr_search_and_notify config_data global ready :
  I ready →
  spaced_run kind ready (search_and_notify v E config_data global) (λ _, I).
Proof using I_true Hsearch Hsend.
  intros HI. unfold search_and_notify.
  eapply sr_bind.
  { apply (sr_silent kind _ ready). intros s. by destruct v. }
  intros [] ? ->.
  eapply sr_bind.
  { apply sr_for_each; [|done]. intros x ready' HI'. by apply sr_process_row. }
  intros [] ready1 HI1.
  eapply sr_bind.
  { apply (sr_silent kind _ ready1). intros s. destruct v; [|done].
    cbn [when_variant]. munfold.
    by destruct (save_to_dynamodb_state E (new_notified_urls s) s)
      as (_ & _ & ? & _). }
  intros [] ? ->.
  eapply sr_bind; [by apply (sr_silent kind get_state ready1)|]. intros s1 ? ->.
  by apply sr_ret.
Qed.

Lemma sr_lambda_handler current_batch ready :
  I ready → spaced_run kind ready (lambda_handler v E current_batch) (λ _, I).
Proof using I_true Hsearch Hsend.
  intros HI. unfold lambda_handler. cbv zeta.
  destruct (config_answer E) as [rows|]; [|by apply sr_ret].
  destruct (_ =? _)%Z; [apply sr_raise|].
  eapply sr_bind; [by apply (sr_silent kind (load_notified_list E) ready)|].
  intros notified ? ->.
  eapply sr_bind; [by apply (sr_silent kind (set_notified notified) ready)|].
  intros [] ? ->.
  eapply sr_bind; [by apply sr_search_and_notify|]. intros updated ready1 HI1.
  eapply sr_bind.
  { apply (sr_silent kind _ ready1). intros s. destruct v; [done|].
    cbn [when_variant]. unfold save_notified_list.
    by destruct (ledger_save_answer E). }
  intros [] ? ->.
  destruct (_ <? _)%Z; [|by apply sr_ret].
  eapply sr_bind; [by apply sr_log; [destruct kind|]|]. intros [] ? ->.
  destruct (invoke_answer E); by apply sr_ret.
Qed.

End SpacedProgram.

Section SpacedClients.
Context `{PyBuiltins}.

Lemma sr_requests_post E message (P : post_outcome → bool → Prop) :
  (∀ o, P o false) →
  spaced_run PostRequest true (requests_post E message) P.
Proof.
  intros HP s. exists [EvPost message], false.
  split_and!; [done..|]. intros a _. apply HP.
Qed.

Lemma sr_requests_get E in_stock q lo hi (P : get_outcome → bool → Prop) :
  (∀ k, P (http_get E k) false) →
  spaced_run GetRequest true (requests_get E in_stock q lo hi) P.
Proof.
  intros HP s. exists [EvGet in_stock q lo hi], false.
  split_and!; [done..|]. intros a [= <-]. apply HP.
Qed.

Lemma send_attempts_spaced E message n :
  spaced_run PostRequest true (send_attempts E message n) (λ _ _, True).
Proof.
  induction n as [|n IH]; cbn [send_attempts]; [by apply sr_ret|].
  eapply sr_bind.
  { by apply (sr_requests_post E message (λ _ ready', ready' = false)). }
  intros response ? ->.
  assert (spaced_run PostRequest false
            (sleep 2 ;; send_attempts E message n) (λ _ _, True)) as Hretry.
  { eapply sr_bind.
    - by apply (sr_sleep PostRequest 2 false (λ _ ready', ready' = true)).
    - intros [] ? ->. apply IH. }
  destruct response as [status header|]; [|apply Hretry].
  destruct (status =? 200)%Z.
  { eapply sr_bind.
    - by apply (sr_sleep PostRequest 1 false (λ _ _, True)).
    - intros. by apply sr_ret. }
  destruct (status =? 429)%Z; [|by apply sr_ret].
  eapply sr_bind.
  { apply (sr_silent PostRequest (int_of_retry_after header) false).
    intros s. unfold int_of_retry_after. destruct header as [value|]; [|done].
    by destruct (int_of_str value). }
  intros retry_after ? ->.
  eapply sr_bind.
  { by apply (sr_sleep PostRequest retry_after false (λ _ _, True)). }
  intros [] ready1 _.
  eapply sr_bind.
  { apply (sr_sleep PostRequest 2 ready1 (λ _ ready', ready' = true)).
    apply orb_true_r. }
  intros [] ? ->. apply IH.
Qed.

Lemma search_attempts_spaced_2 E q lo hi n ready :
  spaced_run GetRequest ready (search_attempts Lambda2 E q lo hi n)
    (λ _ _, True).
Proof.
  revert ready. induction n as [|n IH]; intros ready;
    cbn [search_attempts when_variant]; [by apply sr_ret|].
  eapply sr_bind.
  { apply (sr_sleep GetRequest 1 ready (λ _ ready', ready' = true)).
    apply orb_true_r. }
  intros [] ? ->.
  eapply sr_bind.
  { by apply (sr_requests_get E _ q lo hi (λ _ ready', ready' = false)). }
  intros response ? ->.
  assert (spaced_run GetRequest false
            (sleep 2 ;; search_attempts Lambda2 E q lo hi n) (λ _ _, True))
    as Hretry.
  { eapply sr_bind.
    - by apply (sr_sleep GetRequest 2 false (λ _ _, True)).
    - intros [] ready1 _. apply IH. }
  destruct response as [status body|]; [|apply Hretry].
  destruct (status =? 200)%Z.
  { eapply sr_bind; [by apply (sr_ret GetRequest () false (λ _ r, r = false))|].
    intros [] ? ->. destruct body as [parsed|]; [by apply sr_ret|].
    destruct json_error_is_request_exception; [apply Hretry|apply sr_raise]. }
  destruct (status =? 400)%Z; [by apply sr_ret|].
  destruct (status =? 429)%Z; [|apply Hretry].
  eapply sr_bind; [by apply (sr_sleep GetRequest 5 false (λ _ _, True))|].
  intros [] ready1 _.
  eapply sr_bind; [by apply (sr_sleep GetRequest 2 ready1 (λ _ _, True))|].
  intros [] ready2 _. apply IH.
Qed.

Lemma search_attempts_spaced_1 E q lo hi n :
  (∀ k, get_status_of (http_get E k) ≠ Some 400%Z) →
  spaced_run GetRequest true (search_attempts Lambda1 E q lo hi n)
    (λ _ ready', ready' = true).
Proof.
  intros Hno400. induction n as [|n IH];
    cbn [search_attempts when_variant]; [by apply sr_ret|].
  eapply sr_bind; [by apply (sr_ret GetRequest () true (λ _ r, r = true))|].
  intros [] ? ->.
  eapply sr_bind.
  { apply (sr_requests_get E _ q lo hi
             (λ o ready', ready' = false ∧ get_status_of o ≠ Some 400%Z)).
    by split. }
  intros response ? [-> Hstatus].
  assert (spaced_run GetRequest false
            (sleep 2 ;; search_attempts Lambda1 E q lo hi n)
            (λ _ ready', ready' = true)) as Hretry.
  { eapply sr_bind.
    - by apply (sr_sleep GetRequest 2 false (λ _ ready', ready' = true)).
    - intros [] ? ->. apply IH. }
  destruct response as [status body|]; [|apply Hretry].
  destruct (status =? 200)%Z.
  { eapply sr_bind.
    - by apply (sr_sleep GetRequest 1 false (λ _ ready', ready' = true)).
    - intros [] ? ->. destruct body as [parsed|]; [by apply sr_ret|].
      destruct json_error_is_request_exception; [|apply sr_raise].
      eapply sr_bind.
      + by apply (sr_sleep GetRequest 2 true (λ _ ready', ready' = true)).
      + intros [] ? ->. apply IH. }
  destruct (Z.eqb_spec status 400) as [->|_]; [done|].
  destruct (status =? 429)%Z; [|apply Hretry].
  eapply sr_bind.
  { by apply (sr_sleep GetRequest 5 false (λ _ ready', ready' = true)). }
  intros [] ? ->.
  eapply sr_bind.
  { by apply (sr_sleep GetRequest 2 true (λ _ ready', ready' = true)). }
  intros [] ? ->. apply IH.
Qed.

Lemma lambda_handler_spaced kind v E current_batch s :
  (kind = GetRequest → v = Lambda1 →
   ∀ k, get_status_of (http_get E k) ≠ Some 400%Z) →
  is_Some (spaced kind true
             (events_since s (lambda_handler v E current_batch s).2)).
Proof.
  intros Hno400.
  assert (∃ I : bool → Prop,
            I true
            ∧ (∀ q lo hi ready, I ready →
                 spaced_run kind ready (search_yahoo_items v E q lo hi)
                   (λ _, I))
            ∧ (∀ message ready, I ready →
                 spaced_run kind ready
                   (send_chatwork_notification E message) (λ _ _, True)))
    as (I & HI & Hsearch & Hsend).
  { destruct kind.
    - assert (∀ message ready,
                spaced_run GetRequest ready
                  (send_chatwork_notification E message) (λ _ _, True))
        as Hsend.
      { intros message ready. eapply sr_mono.
        - apply (sr_io GetRequest (is_client_event message));
            [apply io_send_attempts|].
          by intros e [->|[z ->]].
        - done. }
      destruct v.
      + exists (λ ready, ready = true). split_and!; [done| |by intros].
        intros q lo hi ? ->.
        by apply search_attempts_spaced_1, Hno400.
      + exists (λ _, True). split_and!; [done| |by intros].
        intros q lo hi ready _. apply search_attempts_spaced_2.
    - exists (λ ready, ready = true). split_and!; [done| |].
      + intros q lo hi ? ->. eapply sr_mono.
        * apply (sr_io PostRequest is_search_event);
            [apply io_search_attempts|].
          by intros e [(in_stock & q' & lo' & hi' & ->)|[z ->]].
        * cbn. auto.
      + intros message ? ->. apply send_attempts_spaced. }
  destruct (sr_lambda_handler kind I v E HI Hsearch Hsend current_batch true HI s)
    as (new & ready' & Ht & Hs & _).
  rewrite (events_since_app _ _ _ Ht). by eexists.
Qed.

End SpacedClients.

(** X13: the notifications are spaced.  In the events of an invocation
    of either Lambda, whatever the world answers and however the
    invocation ends, a sleep of at least one second lies between any two
    POSTs to the chat API. *)
Theorem X13_posts_are_spaced `{PyBuiltins} (v : variant) (E : env)
    (current_batch : Z) (s : state) :
  let events := events_since s (lambda_handler v E current_batch s).2 in
  is_Some (spaced PostRequest true events)
  ∧ ∀ pre message1 mid message2 post,
      events = pre ++ EvPost message1 :: mid ++ EvPost message2 :: post →
      ∃ seconds, EvSleep seconds ∈ mid ∧ (1 ≤ seconds)%Z.
Proof.
  cbv zeta.
  pose proof (lambda_handler_spaced PostRequest v E current_batch s
                ltac:(done)) as Hspaced.
  split; [done|]. intros pre message1 mid message2 post Hevents.
  by eapply (spaced_between PostRequest).
Qed.

(** X14: the searches are spaced.  In the events of an invocation of
    Lambda2, and of Lambda1 as long as no search is answered 400, a sleep
    of at least one second lies between any two GETs of the search API:
    Lambda2 sleeps before every request, Lambda1 after every answer but
    400. *)
Theorem X14_gets_are_spaced `{PyBuiltins} (v : variant) (E : env)
    (current_batch : Z) (s : state) :
  (v = Lambda1 → ∀ k, get_status_of (http_get E k) ≠ Some 400%Z) →
  let events := events_since s (lambda_handler v E current_batch s).2 in
  is_Some (spaced GetRequest true events)
  ∧ ∀ pre in_stock1 query1 from1 to1 mid in_stock2 query2 from2 to2 post,
      events = pre ++ EvGet in_stock1 query1 from1 to1 :: mid
                   ++ EvGet in_stock2 query2 from2 to2 :: post →
      ∃ seconds, EvSleep seconds ∈ mid ∧ (1 ≤ seconds)%Z.
Proof.
  intros Hno400. cbv zeta.
  pose proof (lambda_handler_spaced GetRequest v E current_batch s
                (λ _, Hno400)) as Hspaced.
  split; [done|].
  intros pre in_stock1 query1 from1 to1 mid in_stock2 query2 from2 to2 post
         Hevents.
  by eapply (spaced_between GetRequest).
Qed.

(** X14 on Lambda1 with two rules whose searches are answered 200. *)
Lemma X14_gets_are_spaced_witness :
  is_Some (spaced GetRequest true
             (events_since (initial_state ∅)
                (lambda_handler (H := ascii_builtins) Lambda1 env_used_rules 0
                   (initial_state ∅)).2)).
Proof.
  exact (proj1 (X14_gets_are_spaced (H := ascii_builtins) Lambda1
                  env_used_rules 0 (initial_state ∅)
                  (λ _ k, ltac:(discriminate)))).
Defined.

(** Answered 400, Lambda1 goes on to the search of the next rule without
    a sleep; Lambda2 sleeps before it. *)
Example gets_after_a_400 :
  spaced GetRequest true
    (trace (lambda_handler (H := ascii_builtins) Lambda1 env_bad_requests 0
              (initial_state ∅)).2) = None
  ∧ spaced GetRequest true
      (trace (lambda_handler (H := ascii_builtins) Lambda2
                (with_config [rule_foo_bar_used_only; rule_foo_bar_used_only;
                              rule_foo_bar_used_only; rule_foo_bar_used_only]
                   100 env_bad_requests) 0
                (initial_state ∅)).2) = Some false.
Proof. split; vm_compute; reflexivity. Qed.

(** ** How many searches an invocation makes *)

Lemma gw_silent {A} (m : M A) :
  (∀ s, gets (m s).2 = gets s) → gets_within 0 m.
Proof. intros Hm s. rewrite Hm. lia. Qed.

Lemma gw_bind {A B} (m : M A) (k : A → M B) n1 n2 :
  gets_within n1 m → (∀ a, gets_within n2 (k a)) →
  gets_within (n1 + n2) (m ≫= k).
Proof.
  intros Hm Hk s. rewrite run_bind. specialize (Hm s).
  destruct (m s) as [[a|e] s1]; cbn [fst snd] in *; [|lia].
  specialize (Hk a s1). lia.
Qed.

Lemma gw_mono {A} (m : M A) n n' :
  gets_within n m → n ≤ n' → gets_within n' m.
Proof. intros Hm Hn s. specialize (Hm s). lia. Qed.

Lemma gw_for_each {A} (f : A → M unit) (l : list A) n :
  (∀ x, gets_within n (f x)) → gets_within (n * length l) (for_each f l).
Proof.
  intros Hf. induction l as [|x l IH]; cbn [for_each length].
  - apply gw_mono with 0; [by apply gw_silent|lia].
  - apply gw_mono with (n + n * length l); [|lia].
    apply gw_bind; [apply Hf|by intros].
Qed.

Lemma length_batch_data_of {A} (current_batch batch_size : Z)
    (config_data : list A) :
  (0 ≤ batch_size)%Z →
  length (batch_data_of current_batch batch_size config_data)
  ≤ Z.to_nat batch_size.
Proof.
  intros Hb. unfold batch_data_of, iloc, slice_bound. rewrite length_take.
  generalize (Z.of_nat (length config_data)) (Nat2Z.is_nonneg (length config_data)).
  intros len Hlen.
  etrans; [apply Nat.le_min_l|].
  repeat match goal with
         | |- context [(?a <? ?b)%Z] => destruct (Z.ltb_spec a b)
         end; lia.
Qed.

Section Searches.
Context `{PyBuiltins}.

Lemma gw_send_attempts E message n : gets_within 0 (send_attempts E message n).
Proof.
  induction n as [|n IH]; cbn [send_attempts]; [by apply gw_silent|].
  assert (∀ seconds, gets_within 0 (sleep seconds)) as Hsleep.
  { intros seconds. apply gw_silent. intros s. unfold sleep.
    by repeat case_match. }
  apply (gw_bind _ _ 0 0); [by apply gw_silent|]. intros response.
  destruct response as [status header|].
  - destruct (status =? 200)%Z.
    { apply (gw_bind _ _ 0 0); [apply Hsleep|]. intros. by apply gw_silent. }
    destruct (status =? 429)%Z; [|by apply gw_silent].
    apply (gw_bind _ _ 0 0).
    { apply gw_silent. intros s. unfold int_of_retry_after.
      destruct header as [value|]; [|done]. by destruct (int_of_str value). }
    intros retry_after. apply (gw_bind _ _ 0 0); [apply Hsleep|]. intros _.
    apply (gw_bind _ _ 0 0); [apply Hsleep|]. by intros _.
  - apply (gw_bind _ _ 0 0); [apply Hsleep|]. by intros _.
Qed.

Lemma gw_process_item v E r X fw ng cond it :
  gets_within 0 (process_item v E r X fw ng cond it).
Proof.
  assert (∀ A (x : result A), gets_within 0 (lift x)) as Hlift.
  { intros. by apply gw_silent. }
  unfold process_item.
  apply (gw_bind _ _ 0 0); [apply Hlift|]. intros name_value.
  apply (gw_bind _ _ 0 0); [apply Hlift|]. intros url_value.
  apply (gw_bind _ _ 0 0); [apply Hlift|]. intros shop.
  case_bool_decide; [by apply gw_silent|].
  apply (gw_bind _ _ 0 0); [apply Hlift|]. intros url.
  apply (gw_bind _ _ 0 0); [by apply gw_silent|]. intros s0.
  case_bool_decide; [by apply gw_silent|].
  apply (gw_bind _ _ 0 0); [apply Hlift|]. intros name.
  destruct (check_name _ _ _ _); [by apply gw_silent|].
  unfold notify_item.
  apply (gw_bind _ _ 0 0); [apply Hlift|]. intros price.
  apply (gw_bind _ _ 0 0); [apply gw_send_attempts|]. intros success.
  apply (gw_bind _ _ 0 0).
  { apply gw_silent. intros s. destruct success; [|done]. by destruct v. }
  intros _. apply (gw_bind _ _ 0 0); [by apply gw_silent|].
  intros _. apply gw_silent. intros s. by rewrite sleep_constant by lia.
Qed.

Lemma gw_process_row v E global indexed_row :
  gets_within 3 (process_row v E global indexed_row).
Proof.
  unfold process_row. cbv zeta.
  destruct (PyStr.strip _).
  { apply gw_mono with 0; [by apply gw_silent|lia]. }
  destruct (filtered_words_of _).
  { apply gw_mono with 0; [by apply gw_silent|lia]. }
  apply (gw_bind _ _ 3 0).
  - intros s. unfold search_yahoo_items.
    match goal with
    | |- context [search_attempts v E ?q ?lo ?hi 3 s] =>
        destruct (search_attempts_result v E q lo hi 2 s)
          as (m & Hm & Hg & _)
    end. rewrite Hg. lia.
  - intros result. destruct (truthy result); [|by apply gw_silent].
    apply (gw_bind _ _ 0 0); [by apply gw_silent|]. intros items.
    destruct (truthy items); [|by apply gw_silent].
    unfold item_loop. destruct items as [|items|]; try by apply gw_silent.
    apply gw_mono with (0 * length items); [|lia].
    apply gw_for_each. intros it. apply gw_process_item.
Qed.

Lemma gw_search_and_notify v E config_data global :
  gets_within (3 * length config_data)
    (search_and_notify v E config_data global).
Proof.
  intros s. rewrite search_and_notify_unfold.
  pose proof (gw_for_each (process_row v E global) config_data 3
                (gw_process_row v E global)
                (when_variant v Lambda1 (set_new_notified_urls []) s).2) as Hloop.
  assert (gets (when_variant v Lambda1 (set_new_notified_urls []) s).2 = gets s)
    as Hs0 by (by destruct v).
  rewrite Hs0 in Hloop.
  destruct (for_each _ config_data _) as [[[]|e] s1]; cbn [fst snd] in *; [|done].
  destruct v; cbn [fst snd]; [|done].
  unfold save_to_dynamodb. by destruct (new_notified_urls s1).
Qed.

End Searches.

(** X15: the searches of one invocation.  With a batch size that is not
    negative, an invocation issues at most three GETs for each rule of
    its batch, hence at most three times the batch size, whatever the
    search API answers. *)
Theorem X15_search_budget `{PyBuiltins} (v : variant) (E : env)
    (current_batch : Z) (s : state) :
  (0 ≤ BATCH_SIZE E)%Z →
  let r := lambda_handler v E current_batch s in
  gets s ≤ gets r.2 ≤ gets s + 3 * Z.to_nat (BATCH_SIZE E).
Proof.
  intros Hb. cbv zeta.
  destruct (config_answer E) as [rows|] eqn:Hc.
  2:{ rewrite lambda_handler_no_config by done. cbn [snd]. lia. }
  destruct (decide (BATCH_SIZE E = 0%Z)) as [Hz|Hz].
  { unfold lambda_handler. rewrite Hc, Hz. cbn. lia. }
  rewrite (lambda_handler_run v E _ s rows Hc Hz). cbv zeta.
  pose proof (length_batch_data_of current_batch (BATCH_SIZE E)
                (partition_filter v (read_csv rows)) Hb) as Hlen.
  match goal with
  | |- context [search_and_notify v E ?b ?g ?s0] =>
      pose proof (gw_search_and_notify v E b g s0) as Hg;
      destruct (search_and_notify v E b g s0) as [[updated|e] sB]
  end; cbn [fst snd set_notified gets] in *; [|lia].
  assert (gets match v with
               | Lambda1 => sB
               | Lambda2 => (save_notified_list E updated sB).2
               end = gets sB) as Hsave.
  { destruct v; [done|]. unfold save_notified_list.
    by destruct (ledger_save_answer E). }
  destruct (_ <? _)%Z; cbn [fst snd record_events gets]; rewrite Hsave; lia.
Qed.

(** X15 on the three rules served one per batch. *)
Lemma X15_search_budget_witness :
  let r := lambda_handler (H := ascii_builtins) Lambda1 env_three_rules 0
             (initial_state ∅) in
  0 ≤ gets r.2 ≤ 0 + 3 * Z.to_nat 1.
Proof.
  exact (X15_search_budget (H := ascii_builtins) Lambda1 env_three_rules 0
           (initial_state ∅) ltac:(discriminate)).
Defined.

(** ** The price in the message *)

Lemma group3_without_commas rev_digits :
  without_commas (PyStr.group3 rev_digits) = without_commas rev_digits.
Proof.
  remember (length rev_digits) as n eqn:Hn.
  revert rev_digits Hn. induction (lt_wf n) as [n _ IH]. intros l ->.
  destruct l as [|a [|b [|c [|d rest]]]]; try done.
  change (PyStr.group3 (a :: b :: c :: d :: rest))
    with (a :: b :: c :: 44%N :: PyStr.group3 (d :: rest)).
  unfold without_commas in *. cbn [List.filter].
  change (negb (44 =? 44)%N) with false. cbv iota.
  rewrite (IH (length (d :: rest))); [done| |done]. cbn [length]. lia.
Qed.

Lemma dec_digits_no_comma fuel n acc :
  forallb (λ c, negb (c =? 44)%N) acc = true →
  forallb (λ c, negb (c =? 44)%N) (PyStr.dec_digits fuel n acc) = true.
Proof.
  revert n acc. induction fuel as [|fuel IH]; intros n acc Hacc; [done|].
  cbn [PyStr.dec_digits].
  assert (forallb (λ c, negb (c =? 44)%N) ((48 + n mod 10)%N :: acc) = true)
    as Hacc'.
  { cbn [forallb]. rewrite Hacc, andb_true_r.
    apply negb_true_iff, N.eqb_neq. generalize (n mod 10)%N. lia. }
  destruct (n <? 10)%N; [done|]. by apply IH.
Qed.

Lemma format_commas_without_commas z :
  without_commas (PyStr.format_commas z) = PyStr.str_of_Z z.
Proof.
  assert (without_commas (PyStr.str_of_N (Z.abs_N z))
          = PyStr.str_of_N (Z.abs_N z)) as Hdigits.
  { apply forallb_filter_id. by apply dec_digits_no_comma. }
  unfold PyStr.format_commas, PyStr.str_of_Z.
  assert (without_commas
            (rev (PyStr.group3 (rev (PyStr.str_of_N (Z.abs_N z)))))
          = PyStr.str_of_N (Z.abs_N z)) as Hbody.
  { unfold without_commas in *.
    rewrite filter_rev.
    change (rev (without_commas
                   (PyStr.group3 (rev (PyStr.str_of_N (Z.abs_N z)))))
            = PyStr.str_of_N (Z.abs_N z)).
    rewrite group3_without_commas. unfold without_commas.
    by rewrite filter_rev, rev_involutive. }
  destruct (z <? 0)%Z; [|done].
  unfold without_commas in *. cbn [List.filter].
  change (negb (45 =? 44)%N) with true. cbv iota. by rewrite Hbody.
Qed.

Lemma group3_length rev_digits :
  length (PyStr.group3 rev_digits)
  = length rev_digits + (length rev_digits - 1) / 3.
Proof.
  remember (length rev_digits) as n eqn:Hn.
  revert rev_digits Hn. induction (lt_wf n) as [n _ IH]. intros l ->.
  destruct l as [|a [|b [|c [|d rest]]]]; try done.
  change (PyStr.group3 (a :: b :: c :: d :: rest))
    with (a :: b :: c :: 44%N :: PyStr.group3 (d :: rest)).
  cbn [length]. rewrite (IH (length (d :: rest))); [| |done]; cbn [length];
    [|lia].
  replace (S (S (S (S (length rest)))) - 1) with (1 * 3 + length rest) by lia.
  rewrite Nat.div_add_l by lia.
  replace (S (length rest) - 1) with (length rest) by lia. lia.
Qed.

Lemma group3_comma rev_digits i :
  forallb (λ c, negb (c =? 44)%N) rev_digits = true →
  PyStr.group3 rev_digits !! i = Some 44%N
  ↔ i mod 4 = 3 ∧ i < length (PyStr.group3 rev_digits).
Proof.
  remember (length rev_digits) as n eqn:Hn.
  revert rev_digits i Hn. induction (lt_wf n) as [n _ IH]. intros l i -> Hl.
  assert (∀ k c, l !! k = Some c → c ≠ 44%N) as Hno.
  { intros k c Hk ->. rewrite forallb_forall in Hl.
    apply list_elem_of_lookup_2, list_elem_of_In, Hl in Hk. done. }
  assert (length l ≤ 3 →
          l !! i = Some 44%N ↔ i mod 4 = 3 ∧ i < length l) as Hshort.
  { intros Hlen. split.
    - intros Hi. by destruct (Hno _ _ Hi).
    - intros [Hmod Hi]. assert (i < 4) as Hi4 by lia.
      rewrite Nat.mod_small in Hmod by done. lia. }
  destruct l as [|a [|b [|c [|d rest]]]];
    try (apply Hshort; cbn [length]; lia).
  change (PyStr.group3 (a :: b :: c :: d :: rest))
    with (a :: b :: c :: 44%N :: PyStr.group3 (d :: rest)).
  cbn [forallb] in Hl. apply andb_prop in Hl as [Ha Hl].
  apply andb_prop in Hl as [Hb Hl]. apply andb_prop in Hl as [Hc Hl].
  apply negb_true_iff, N.eqb_neq in Ha, Hb, Hc.
  destruct i as [|[|[|[|j]]]]; cbn [lookup list_lookup length].
  - split; [intros [= ?]; done|]. intros [Hmod _]. done.
  - split; [intros [= ?]; done|]. intros [Hmod _]. done.
  - split; [intros [= ?]; done|]. intros [Hmod _]. done.
  - split; [|done]. intros _. split; [done|lia].
  - rewrite (IH (length (d :: rest))); [| |done|done]; [|cbn [length]; lia].
    replace (S (S (S (S j)))) with (j + 1 * 4) by lia.
    rewrite Nat.Div0.mod_add. split; intros [? ?]; split; (done || lia).
Qed.

(** [f"{z:,}"] is the sign followed by the digits of [|z|] with a comma
    before every group of three digits counted from the right, and none
    in front. *)
Lemma format_commas_grouped z :
  let digits := PyStr.str_of_N (Z.abs_N z) in
  ∃ grouped,
    PyStr.format_commas z = (if (z <? 0)%Z then [45%N] else []) ++ rev grouped
    ∧ without_commas grouped = rev digits
    ∧ length grouped = length digits + (length digits - 1) / 3
    ∧ ∀ i, grouped !! i = Some 44%N ↔ i mod 4 = 3 ∧ i < length grouped.
Proof.
  intros digits. exists (PyStr.group3 (rev digits)).
  assert (forallb (λ c, negb (c =? 44)%N) (rev digits) = true) as Hno.
  { apply forallb_forall. intros c Hc%in_rev. revert c Hc.
    apply forallb_forall. by apply dec_digits_no_comma. }
  split_and!.
  - unfold PyStr.format_commas. fold digits. by destruct (z <? 0)%Z.
  - rewrite group3_without_commas. by apply forallb_filter_id.
  - by rewrite group3_length, length_rev.
  - intros i. by apply group3_comma.
Qed.

(** X16: the price put into the message.  An integer, a boolean, a finite
    float, cut to its integer part, and a string [int] reads are written
    [f"{price:,}"]: the sign, then the digits with a comma before every
    group of three counted from the right and none in front.  A price
    [int] refuses with [ValueError], a string it does not read or a NaN,
    is put into the message as [str] writes it.  A hit without [price]
    raises [KeyError]; a price that is null, a list or a dict raises
    [TypeError], and an infinite one [OverflowError]. *)
Theorem X16_formatted_price `{PyBuiltins} (it : json) :
  (∀ z, item_price it = Some (JInt z) →
        formatted_price_of it = Ok (PyStr.format_commas z))
  ∧ (∀ b : bool, item_price it = Some (JScalar (SBool b)) →
        formatted_price_of it
        = Ok (PyStr.format_commas (if b then 1 else 0)))
  ∧ (∀ num den, item_price it = Some (JScalar (SFloat (FFinite num den))) →
        formatted_price_of it = Ok (PyStr.format_commas (num ÷ Z.pos den)))
  ∧ (∀ p z, item_price it = Some (JStr p) → int_of_str p = Some z →
        formatted_price_of it = Ok (PyStr.format_commas z))
  ∧ (∀ p, item_price it = Some (JStr p) → int_of_str p = None →
        formatted_price_of it = Ok p)
  ∧ (item_price it = Some (JScalar (SFloat FNaN)) →
        formatted_price_of it = Ok (str_of_float FNaN))
  ∧ (∀ members, it = JObject members →
        dict_get (PyStr.lit "price") members = None →
        formatted_price_of it = Raise (KeyError (PyStr.lit "price")))
  ∧ (∀ price, item_price it = Some price →
        match price with
        | JScalar SNull | JArray _ | JObject _ => True
        | _ => False
        end →
        formatted_price_of it = Raise TypeError)
  ∧ (∀ negative, item_price it = Some (JScalar (SFloat (FInfinity negative))) →
        formatted_price_of it = Raise OverflowError)
  ∧ (∀ z, let digits := PyStr.str_of_N (Z.abs_N z) in
       ∃ grouped,
         PyStr.format_commas z
         = (if (z <? 0)%Z then [45%N] else []) ++ rev grouped
         ∧ without_commas grouped = rev digits
         ∧ length grouped = length digits + (length digits - 1) / 3
         ∧ ∀ i, grouped !! i = Some 44%N
                ↔ i mod 4 = 3 ∧ i < length grouped)
  ∧ (∀ z, without_commas (PyStr.format_commas z) = PyStr.str_of_Z z).
Proof.
  assert (∀ price, item_price it = Some price →
            formatted_price_of it
            = match price with
              | JScalar p =>
                  match int_of_scalar p with
                  | Ok z => Ok (PyStr.format_commas z)
                  | Raise ValueError => Ok (str_of_scalar p)
                  | Raise e => Raise e
                  end
              | _ => Raise TypeError
              end) as Hprice.
  { intros price Hp%getitem_field. unfold formatted_price_of. rewrite Hp.
    by destruct price. }
  split_and!.
  - intros z Hp. by rewrite (Hprice _ Hp).
  - intros b Hp. by rewrite (Hprice _ Hp).
  - intros num den Hp. by rewrite (Hprice _ Hp).
  - intros p z Hp Hint. rewrite (Hprice _ Hp). simpl. by rewrite Hint.
  - intros p Hp Hint. rewrite (Hprice _ Hp). simpl. by rewrite Hint.
  - intros Hp. by rewrite (Hprice _ Hp).
  - intros members -> Hp. unfold formatted_price_of.
    by rewrite (getitem_no_field "price" members Hp).
  - intros price Hp Hkind. rewrite (Hprice _ Hp).
    by destruct price as [[]| |].
  - intros negative Hp. by rewrite (Hprice _ Hp).
  - apply format_commas_grouped.
  - apply format_commas_without_commas.
Qed.

(** The price 1234567 is written 1,234,567 and -1234 is written -1,234;
    a price that is null raises. *)
Example format_commas_more :
  PyStr.format_commas 1234567 = PyStr.lit "1,234,567"
  ∧ PyStr.format_commas (-1234) = PyStr.lit "-1,234"
  ∧ PyStr.format_commas 999 = PyStr.lit "999"
  ∧ formatted_price_of (H := ascii_builtins)
      (JObject [(PyStr.lit "price", JNull)]) = Raise TypeError
  ∧ formatted_price_of (H := ascii_builtins)
      (JObject [(PyStr.lit "price", JScalar (SFloat (FFinite 25 2)))])
    = Ok (PyStr.lit "12").
Proof. by split_and!. Qed.
